(** * Vacancy statistics: a shallow embedding of the aggregation pipeline

    The development follows [Daniil-Obukhov-at-36-3.2.3.py]: the classes
    [Salary], [Vacancy], [DataSet], [YearSalary] and [Statistic], and the
    merge loop of the main block.  Python values are modelled as follows.

    - [str] is a list of Unicode code points ([N]).
    - [float] is the kernel's binary64 type, so the arithmetic is the one
      Python performs; [int] is [Z].
    - a [dict] is an insertion-ordered association list with unique keys.
    - exceptions are the [Raise] results of an error monad.
    - the builtins [float(str)] and [int(str)] are an interface
      ([Builtins]); one instance on ASCII decimal literals is given for
      the concrete evaluations. *)

From Stdlib Require Import ZArith NArith List String Ascii Lia Bool Floats.
From stdpp Require Import base list.
From Equations Require Import Equations.
Import ListNotations.

#[local] Set Warnings "-inexact-float".
#[local] Open Scope Z_scope.

(** ** Exceptions *)

Inductive exn : Set :=
| KeyError | ValueError | IndexError | OverflowError | ZeroDivisionError.

Inductive result (A : Type) : Type :=
| Ok (a : A)
| Raise (e : exn).
Arguments Ok {A} a.
Arguments Raise {A} e.

Definition bind {A B} (m : result A) (k : A -> result B) : result B :=
  match m with
  | Ok a => k a
  | Raise e => Raise e
  end.

Notation "'let*' x ':=' m 'in' k" := (bind m (fun x => k))
  (at level 10, x pattern, m at level 100, k at level 200).

(** A [for] loop whose body may raise, threading the loop state. *)
Fixpoint foldM {A S} (body : S -> A -> result S) (l : list A) (s : S) : result S :=
  match l with
  | [] => Ok s
  | x :: r => let* s' := body s x in foldM body r s'
  end.

(** A list comprehension whose element expression may raise. *)
Fixpoint mapM {A B} (f : A -> result B) (l : list A) : result (list B) :=
  match l with
  | [] => Ok []
  | x :: r => let* y := f x in let* ys := mapM f r in Ok (y :: ys)
  end.

Definition is_ok {A} (m : result A) : bool :=
  match m with Ok _ => true | Raise _ => false end.

Definition raises {A} (e : exn) (m : result A) : bool :=
  match m with
  | Ok _ => false
  | Raise e' =>
      match e, e' with
      | KeyError, KeyError | ValueError, ValueError | IndexError, IndexError
      | OverflowError, OverflowError | ZeroDivisionError, ZeroDivisionError => true
      | _, _ => false
      end
  end.

(** ** Strings *)

Definition char : Set := N.
Definition str : Set := list char.

(** ASCII literals. *)
Definition U (s : string) : str := map N_of_ascii (list_ascii_of_string s).

Definition char_lt : char := 60%N.   (* '<' *)
Definition char_gt : char := 62%N.   (* '>' *)
Definition char_nl : char := 10%N.   (* '\n' *)
Definition char_sp : char := 32%N.   (* ' ' *)

Definition str_eqb (a b : str) : bool := bool_decide (a = b).

(** [str.isspace] on one code point, which is what [str.split()] splits on. *)
Definition isspace (c : char) : bool :=
  ((9 <=? c) && (c <=? 13) || (28 <=? c) && (c <=? 32)
   || (c =? 133) || (c =? 160) || (c =? 5760)
   || (8192 <=? c) && (c <=? 8202)
   || (c =? 8232) || (c =? 8233) || (c =? 8239) || (c =? 8287)
   || (c =? 12288))%N.

(** [value.split()]: the maximal runs of non-space characters; [w] is the
    word being read. *)
Fixpoint split_from (w : str) (s : str) : list str :=
  match s with
  | [] => match w with [] => [] | _ => [w] end
  | c :: r =>
      if isspace c
      then match w with [] => split_from [] r | _ => w :: split_from [] r end
      else split_from (w ++ [c]) r
  end.

Definition split (s : str) : list str := split_from [] s.

(** [sep.join(words)] *)
Fixpoint join (sep : str) (words : list str) : str :=
  match words with
  | [] => []
  | [w] => w
  | w :: ws => w ++ sep ++ join sep ws
  end.

(** [value.replace(old, new)] for a one-character [old]. *)
Definition replace (old : char) (new : str) (s : str) : str :=
  flat_map (fun c => if (c =? old)%N then new else [c]) s.

(** Offset of the first ['>'] of [s] when no newline comes before it: where
    the lazy [.*?>] stops ([.] does not match a newline). *)
Fixpoint tag_end (s : str) : option nat :=
  match s with
  | [] => None
  | c :: r =>
      if (c =? char_gt)%N then Some 0%nat
      else if (c =? char_nl)%N then None
      else option_map S (tag_end r)
  end.

(** [re.sub("<.*?>", "", s)]: leftmost matches, scanned left to right. *)
Equations? re_sub_tags (s : str) : str by wf (length s) lt :=
re_sub_tags [] := [];
re_sub_tags (c :: r) with (c =? char_lt)%N, tag_end r := {
  | true, Some n => re_sub_tags (drop (S n) r);
  | _, _ => c :: re_sub_tags r }.
Proof. all: try (simpl; lia). rewrite length_drop. simpl. lia. Qed.

(** The field-wise transform of [process_vacancies]:
    [" ".join(re.sub("<.*?>", "", value).replace('\n', '; ').split())]. *)
Definition clean_field (value : str) : str :=
  join [char_sp] (split (replace char_nl (U "; ") (re_sub_tags value))).

(** [a in b] on strings. *)
Fixpoint is_prefix (a b : str) : bool :=
  match a, b with
  | [], _ => true
  | x :: a', y :: b' => (x =? y)%N && is_prefix a' b'
  | _ :: _, [] => false
  end.

Fixpoint str_in (a b : str) : bool :=
  is_prefix a b || match b with [] => false | _ :: b' => str_in a b' end.

(** [value.strip()] *)
Fixpoint lstrip (s : str) : str :=
  match s with
  | c :: r => if isspace c then lstrip r else s
  | [] => []
  end.
Definition strip (s : str) : str := rev (lstrip (rev (lstrip s))).

(** ** Numbers *)

(** [int(x)] on a float: truncation toward zero. *)
Definition int_of_float (x : float) : result Z :=
  match Prim2SF x with
  | S754_zero _ => Ok 0
  | S754_infinity _ => Raise OverflowError
  | S754_nan => Raise ValueError
  | S754_finite s m e => Ok (cond_Zopp s (Z.shiftl (Z.pos m) e))
  end.

(** [math.floor(x)], the integer floor the specification speaks of. *)
Definition floor_of_float (x : float) : result Z :=
  match Prim2SF x with
  | S754_zero _ => Ok 0
  | S754_infinity _ => Raise OverflowError
  | S754_nan => Raise ValueError
  | S754_finite s m e =>
      Ok (Z.shiftl (cond_Zopp s (Z.pos m)) e)
  end.

Definition is_negative (x : float) : bool :=
  match Prim2SF x with
  | S754_finite s _ _ => s
  | _ => false
  end.

(** The binary64 value nearest to [a / b] (ties to even) for [0 <= a] and
    [0 < b], with sign [neg]: the quotient is taken with at least 55
    significant bits and a sticky bit, then rounded once. *)
Definition round_quot (neg : bool) (a b : Z) : spec_float :=
  let s := Z.max 0 (Z.log2 b + 56 - Z.log2 a) in
  let q := Z.shiftl a s / b in
  let sticky := if Z.shiftl a s mod b =? 0 then 0 else 1 in
  if a =? 0 then S754_zero neg
  else binary_normalize prec emax (cond_Zopp neg (2 * q + sticky)) (- s - 1) false.

Definition finite_or_overflow (x : spec_float) : result float :=
  match x with
  | S754_infinity _ => Raise OverflowError
  | _ => Ok (SF2Prim x)
  end.

(** [float(n)] on an int. *)
Definition float_of_int (n : Z) : result float :=
  finite_or_overflow (binary_normalize prec emax n 0 false).

(** [n / d] on ints (true division). *)
Definition int_truediv (n d : Z) : result float :=
  if d =? 0 then Raise ZeroDivisionError
  else finite_or_overflow
         (round_quot (xorb (n <? 0) (d <? 0)) (Z.abs n) (Z.abs d)).

(** [x / n] for a float [x] and an int [n]. *)
Definition float_div_int (x : float) (n : Z) : result float :=
  let* d := float_of_int n in
  if n =? 0 then Raise ZeroDivisionError else Ok (x / d)%float.

(** The builtins [float] and [int] on strings raise [ValueError] only
    ([None]); [float("0")] is [0.0]. *)
Class Builtins : Type := {
  float_of_str : str -> option float;
  int_of_str : str -> option Z;
  float_of_str_0 : float_of_str (U "0") = Some 0%float
}.

Definition or_raise {A} (e : exn) (o : option A) : result A :=
  match o with Some a => Ok a | None => Raise e end.

(** The argument types of [Salary]: [str or int or float]. *)
Inductive pyval : Set :=
| PStr (s : str)
| PInt (n : Z)
| PFloat (x : float).

(** [float(v)] *)
Definition py_float `{Builtins} (v : pyval) : result float :=
  match v with
  | PStr s => or_raise ValueError (float_of_str s)
  | PInt n => float_of_int n
  | PFloat x => Ok x
  end.

(** [int(s)] on a string. *)
Definition py_int `{Builtins} (s : str) : result Z :=
  or_raise ValueError (int_of_str s).

(** ** Lists *)

(** The position [l[i]] denotes, counting from the end when [i] is negative. *)
Definition py_index (len : nat) (i : Z) : option nat :=
  if (0 <=? i) && (i <? Z.of_nat len) then Some (Z.to_nat i)
  else if (i <? 0) && (0 <=? i + Z.of_nat len) then Some (Z.to_nat (i + Z.of_nat len))
  else None.

(** Where [l.insert(i, x)] puts [x]: a negative index counts from the end
    and stops at the front, an index beyond the end appends. *)
Definition py_insert_pos (len : nat) (i : Z) : nat :=
  if i <? 0 then Z.to_nat (Z.max 0 (i + Z.of_nat len))
  else Z.to_nat (Z.min i (Z.of_nat len)).

Definition py_insert {A} (i : Z) (x : A) (l : list A) : list A :=
  let p := py_insert_pos (length l) i in
  take p l ++ x :: drop p l.

(** ** Dictionaries: insertion-ordered, unique keys *)

Section Dict.
Context {K V : Type} `{EqDecision K}.

Definition dict : Type := list (K * V).

Fixpoint dict_get (k : K) (d : dict) : option V :=
  match d with
  | [] => None
  | (k', v) :: r => if decide (k = k') then Some v else dict_get k r
  end.

(** [d[k] = v]: an existing key keeps its place. *)
Fixpoint dict_set (k : K) (v : V) (d : dict) : dict :=
  match d with
  | [] => [(k, v)]
  | (k', v') :: r =>
      if decide (k = k') then (k', v) :: r else (k', v') :: dict_set k v r
  end.

Definition dict_keys (d : dict) : list K := map fst d.
Definition dict_values (d : dict) : list V := map snd d.

(** [{x: y for x, y in pairs}] *)
Definition dict_of (pairs : list (K * V)) : dict :=
  fold_left (fun d kv => dict_set (fst kv) (snd kv) d) pairs [].

(** [d.update(other)] *)
Definition dict_update (d other : dict) : dict :=
  fold_left (fun d kv => dict_set (fst kv) (snd kv) d) other d.

(** [d[k]] *)
Definition dict_item (k : K) (d : dict) : result V :=
  or_raise KeyError (dict_get k d).
End Dict.
Arguments dict : clear implicits.

(** ** class Salary *)

Module Salary.
Record t : Set := {
  salary_from : float;
  salary_to : float;
  salary_currency : str;
  average_salary : float
}.

(** [Salary(salary_from, salary_to, salary_currency)] *)
Definition init `{Builtins} (salary_from salary_to : pyval) (salary_currency : str)
  : result t :=
  let* lo := py_float salary_from in
  let* hi := py_float salary_to in
  let* n := int_of_float (lo + hi)%float in
  let* avg := int_truediv n 2 in
  Ok {| salary_from := lo; salary_to := hi;
        salary_currency := salary_currency; average_salary := avg |}.

(** The table of [convert_to_rubles]; the source writes the rate of RUR
    as the int [1], which the product converts to [1.0]. *)
Definition currency_to_rub : dict str float :=
  [ (U "AZN", 35.68%float); (U "BYR", 23.91%float); (U "EUR", 59.90%float);
    (U "GEL", 21.74%float); (U "KGS", 0.76%float); (U "KZT", 0.13%float);
    (U "RUR", 1%float); (U "UAH", 1.64%float); (U "USD", 60.66%float);
    (U "UZS", 0.0055%float) ].

Definition convert_to_rubles (self : t) : result float :=
  let* rate := dict_item (salary_currency self) currency_to_rub in
  Ok (average_salary self * rate)%float.
End Salary.

(** ** class Vacancy *)

Module Vacancy.
Record t : Set := {
  name : str;
  salary : Salary.t;
  area_name : str;
  published_at : str;
  year : str
}.

(** [Vacancy(vacancy)] for a row dictionary. *)
Definition init `{Builtins} (vacancy : dict str str) : result t :=
  let* name := dict_item (U "name") vacancy in
  let* salary_from := dict_item (U "salary_from") vacancy in
  let* salary_to := dict_item (U "salary_to") vacancy in
  let* salary_currency := dict_item (U "salary_currency") vacancy in
  let* salary := Salary.init (PStr salary_from) (PStr salary_to) salary_currency in
  let* area_name := dict_item (U "area_name") vacancy in
  let* published_at := dict_item (U "published_at") vacancy in
  Ok {| name := name; salary := salary; area_name := area_name;
        published_at := published_at; year := take 4 published_at |}.
End Vacancy.

(** ** class DataSet *)

Module DataSet.
(** The guard of [process_vacancies]:
    [(len(vacancy) == len(headlines)) and (all([v != "" for v in vacancy]))]. *)
Definition well_filled (headlines vacancy : list str) : bool :=
  bool_decide (length vacancy = length headlines)
  && forallb (fun v => negb (str_eqb v [])) vacancy.

(** The record built from a row that passes the guard. *)
Definition to_vacancy `{Builtins} (headlines vacancy : list str) : result Vacancy.t :=
  Vacancy.init (dict_of (combine headlines (map clean_field vacancy))).

Definition process_vacancies `{Builtins} (headlines : list str)
    (vacancies : list (list str)) : result (list Vacancy.t) :=
  foldM (fun result vacancy =>
           if well_filled headlines vacancy
           then let* v := to_vacancy headlines vacancy in Ok (result ++ [v])
           else Ok result)
        vacancies [].

(** [DataSet(file_name).vacancies_objects], on the rows [csv.reader]
    yields for the file. *)
Definition csv_reader `{Builtins} (lines : list (list str)) : result (list Vacancy.t) :=
  match lines with
  | [] => Raise IndexError
  | headlines :: vacancies => process_vacancies headlines vacancies
  end.
End DataSet.

(** ** class YearSalary *)

Module YearSalary.
Record t : Set := {
  param : str;
  salary : float;
  count_vacancies : Z
}.

Definition init (param : str) (salary : Salary.t) : result t :=
  let* rub := Salary.convert_to_rubles salary in
  Ok {| param := param; salary := rub; count_vacancies := 1 |}.

Definition add_salary (self : t) (new_salary : Salary.t) : result t :=
  let* rub := Salary.convert_to_rubles new_salary in
  Ok {| param := param self;
        salary := (salary self + rub)%float;
        count_vacancies := count_vacancies self + 1 |}.

Definition set_count_vacancies (n : Z) (self : t) : t :=
  {| param := param self; salary := salary self; count_vacancies := n |}.
End YearSalary.

(** ** class Statistic *)

Module Statistic.
(** The body of the loop of [convert_to_param_salary]. *)
Definition add_vacancy (param_salary : dict str YearSalary.t) (vacancy : Vacancy.t)
  : result (dict str YearSalary.t) :=
  match dict_get (Vacancy.year vacancy) param_salary with
  | None =>
      let* ys := YearSalary.init (Vacancy.year vacancy) (Vacancy.salary vacancy) in
      Ok (dict_set (Vacancy.year vacancy) ys param_salary)
  | Some cur =>
      let* ys := YearSalary.add_salary cur (Vacancy.salary vacancy) in
      Ok (dict_set (Vacancy.year vacancy) ys param_salary)
  end.

Definition convert_to_param_salary (vacancies : list Vacancy.t)
  : result (list YearSalary.t) :=
  let* param_salary := foldM add_vacancy vacancies [] in
  Ok (dict_values param_salary).

(** [0 if v.count_vacancies == 0 else int(v.salary / v.count_vacancies)] *)
Definition mean_salary (v : YearSalary.t) : result Z :=
  if YearSalary.count_vacancies v =? 0 then Ok 0
  else let* q := float_div_int (YearSalary.salary v) (YearSalary.count_vacancies v) in
       int_of_float q.

Definition convert_from_param_salary_to_dict `{Builtins} (param_salary : list YearSalary.t)
  : result (dict Z Z * dict Z Z) :=
  let* years := mapM (fun r => py_int (YearSalary.param r)) param_salary in
  let* means := mapM mean_salary param_salary in
  let* years' := mapM (fun r => py_int (YearSalary.param r)) param_salary in
  Ok (dict_of (combine years means),
      dict_of (combine years' (map YearSalary.count_vacancies param_salary))).

(** [param_salary[i].count_vacancies = 0] *)
Definition zero_count_at (i : Z) (param_salary : list YearSalary.t)
  : result (list YearSalary.t) :=
  match py_index (length param_salary) i with
  | Some p => Ok (alter (YearSalary.set_count_vacancies 0) p param_salary)
  | None => Raise IndexError
  end.

(** The entry [YearSalary(y, Salary("0", "0", "RUR"))] of a missing year. *)
Definition blank_year `{Builtins} (y : str) : result YearSalary.t :=
  let* s := Salary.init (PStr (U "0")) (PStr (U "0")) (U "RUR") in
  YearSalary.init y s.

(** [int(y) - int(years[0])] *)
Definition year_offset `{Builtins} (years : list str) (y : str) : result Z :=
  let* iy := py_int y in
  let* y0 := or_raise IndexError (years !! 0%nat) in
  let* i0 := py_int y0 in
  Ok (iy - i0).

(** [param_salary.insert(int(y) - int(years[0]), YearSalary(y, Salary("0", "0", "RUR")))] *)
Definition insert_blank_year `{Builtins} (years : list str)
    (param_salary : list YearSalary.t) (y : str) : result (list YearSalary.t) :=
  let* i := year_offset years y in
  let* new := blank_year y in
  Ok (py_insert i new param_salary).

(** The body of the loop of [__add_missing_years] for the year [y]. *)
Definition add_missing_year `{Builtins} (years s_years : list str)
    (param_salary : list YearSalary.t) (y : str) : result (list YearSalary.t) :=
  if bool_decide (y ∈ s_years) then Ok param_salary
  else
    let* param_salary := insert_blank_year years param_salary y in
    let* i := year_offset years y in
    zero_count_at i param_salary.

Definition add_missing_years `{Builtins} (param_salary year_salary : list YearSalary.t)
  : result (list YearSalary.t) :=
  let years := map YearSalary.param year_salary in
  let s_years := map YearSalary.param param_salary in
  foldM (add_missing_year years s_years) years param_salary.

Definition stats : Type := dict Z Z * dict Z Z * dict Z Z * dict Z Z.

(** [Statistic(profession).process_data(file_name)], on the rows of the file. *)
Definition process_data `{Builtins} (profession : str) (lines : list (list str))
  : result stats :=
  let* data := DataSet.csv_reader lines in
  let data_profession := filter (fun d => str_in profession (Vacancy.name d) = true) data in
  let* year_salary := convert_to_param_salary data in
  let* selected := convert_to_param_salary data_profession in
  let* professions_year_salary := add_missing_years selected year_salary in
  let* (year_salary, year_vacancy) := convert_from_param_salary_to_dict year_salary in
  let* (professions_year_salary, professions_year_vacancies) :=
    convert_from_param_salary_to_dict professions_year_salary in
  Ok (year_salary, year_vacancy, professions_year_salary, professions_year_vacancies).
End Statistic.

(** ** The merge loop of the main block *)

(** [for i, value in zip(range(4), [...]): value.update(el[i])] *)
Definition update_all (acc el : Statistic.stats) : Statistic.stats :=
  let '(a1, a2, a3, a4) := acc in
  let '(e1, e2, e3, e4) := el in
  (dict_update a1 e1, dict_update a2 e2, dict_update a3 e3, dict_update a4 e4).

(** [for el in r: ...], from four empty dictionaries. *)
Definition merge (r : list Statistic.stats) : Statistic.stats :=
  fold_left update_all r ([], [], [], []).

(** ** The builtins on ASCII decimal literals

    [dec_int] and [dec_float] agree with [int] and [float] on strings of
    the form [sign? digits] and [sign? digits (. digits)?] (surrounding
    white space allowed); they are used for concrete rows only. *)

Definition digit (c : char) : option Z :=
  if ((48 <=? c) && (c <=? 57))%N then Some (Z.of_N c - 48) else None.

Fixpoint digits_value (acc : Z) (s : str) : option Z :=
  match s with
  | [] => Some acc
  | c :: r =>
      match digit c with
      | Some d => digits_value (10 * acc + d) r
      | None => None
      end
  end.

Definition split_sign (s : str) : bool * str :=
  match s with
  | 45%N :: r => (true, r)
  | 43%N :: r => (false, r)
  | _ => (false, s)
  end.

Definition dec_int (s : str) : option Z :=
  let (neg, r) := split_sign (strip s) in
  match r with
  | [] => None
  | _ => option_map (cond_Zopp neg) (digits_value 0 r)
  end.

Fixpoint break_at (c : char) (s : str) : str * option str :=
  match s with
  | [] => ([], None)
  | x :: r =>
      if (x =? c)%N then ([], Some r)
      else let (a, b) := break_at c r in (x :: a, b)
  end.

Definition dec_float (s : str) : option float :=
  let (neg, r) := split_sign (strip s) in
  let (ip, rest) := break_at 46%N r in
  let fp := match rest with Some f => f | None => [] end in
  match ip ++ fp with
  | [] => None
  | ds => option_map (fun m => SF2Prim (round_quot neg m (10 ^ Z.of_nat (length fp))))
                     (digits_value 0 ds)
  end.

#[export] Instance dec_builtins : Builtins :=
  {| float_of_str := dec_float; int_of_str := dec_int;
     float_of_str_0 := eq_refl |}.

(** ** Notions the statements use *)

(** The ten currency codes of the rate table. *)
Definition known_codes : list str :=
  map U ["AZN"; "BYR"; "EUR"; "GEL"; "KGS"; "KZT"; "RUR"; "UAH"; "USD"; "UZS"]%string.

(** The representative value as the specification words it: the midpoint
    [(low + high) / 2] truncated to an integer. *)
Definition spec_representative (low high : float) : result float :=
  let* n := int_of_float ((low + high) / 2)%float in
  float_of_int n.

(** The conversion as the specification words it:
    [int((low + high) / 2)] times the rate of the code. *)
Definition spec_convert (low high : float) (code : str) : result float :=
  let* mid := spec_representative low high in
  let* rate := dict_item code Salary.currency_to_rub in
  Ok (mid * rate)%float.

(** The validity predicate as the specification words it: as many fields
    as the header and no field empty after white space is trimmed. *)
Definition spec_valid_row (headers row : list str) : bool :=
  bool_decide (length row = length headers)
  && forallb (fun v => negb (str_eqb (strip v) [])) row.

(** [s] has a substring that opens with ['<'] and closes with ['>']. *)
Fixpoint has_tag (s : str) : bool :=
  match s with
  | [] => false
  | c :: r => (c =? char_lt)%N && bool_decide (char_gt ∈ r) || has_tag r
  end.

(** The elements of [l] in the order of their first appearance. *)
Fixpoint first_appearance {A} `{EqDecision A} (l : list A) : list A :=
  match l with
  | [] => []
  | x :: r => x :: filter (fun y => y <> x) (first_appearance r)
  end.

(** The angle brackets of [s], in order. *)
Definition angles (s : list char) : list char :=
  filter (fun c => c = char_lt \/ c = char_gt) s.

(** A dictionary proper: no key twice. *)
Definition dict_wf {K V} (d : dict K V) : Prop := NoDup (dict_keys d).

(** [m] is [d1] overwritten by [d2]: the value of the later dictionary
    wins, and the keys are those of [d1] followed by the new ones of [d2]. *)
Definition overwritten_by {K V} `{EqDecision K} (d1 d2 m : dict K V) : Prop :=
  (forall k, k ∈ dict_keys m <-> k ∈ dict_keys d1 \/ k ∈ dict_keys d2)
  /\ (forall k v, dict_get k d2 = Some v -> dict_get k m = Some v)
  /\ (forall k, dict_get k d2 = None -> dict_get k m = dict_get k d1)
  /\ dict_keys m = dict_keys d1 ++ filter (fun k => k ∉ dict_keys d1) (dict_keys d2)
  /\ ((forall k, k ∈ dict_keys d1 -> k ∉ dict_keys d2) ->
      dict_keys m = dict_keys d1 ++ dict_keys d2).

(** Every stored accumulator carries its own key. *)
Definition keyed (d : dict str YearSalary.t) : Prop :=
  Forall (fun kv => YearSalary.param (snd kv) = fst kv) d.

(** [int(y)] for the strings on which it does not raise. *)
Definition int_or_0 `{Builtins} (y : str) : Z :=
  match int_of_str y with Some n => n | None => 0 end.

(** The mean as the specification words it: [0] for no record, else the
    integer floor of the sum divided by the count. *)
Definition spec_mean (v : YearSalary.t) : result Z :=
  if YearSalary.count_vacancies v =? 0 then Ok 0
  else let* q := float_div_int (YearSalary.salary v) (YearSalary.count_vacancies v) in
       floor_of_float q.

Definition known_currency (v : Vacancy.t) : bool :=
  bool_decide (Salary.salary_currency (Vacancy.salary v) ∈ known_codes).

(** The entry the gap filling inserts for the year [y]:
    [YearSalary(y, Salary("0", "0", "RUR"))]. *)
Definition inserted (y : str) : YearSalary.t := YearSalary.Build_t y 0%float 1.

(** The entry of a year without records of the profession, once its count
    is zeroed. *)
Definition zero_year (y : str) : YearSalary.t := YearSalary.Build_t y 0%float 0.

(** The accumulators [selected] laid along [years], a zero entry standing
    for each year they miss. *)
Fixpoint fill_years (selected : list YearSalary.t) (years : list str)
  : list YearSalary.t :=
  match years with
  | [] => selected
  | y :: later =>
      match selected with
      | p :: rest =>
          if decide (YearSalary.param p = y) then p :: fill_years rest later
          else zero_year y :: fill_years selected later
      | [] => zero_year y :: fill_years [] later
      end
  end.

(** The accumulator of the year [y], or the zero entry. *)
Definition entry_of (selected : list YearSalary.t) (y : str) : YearSalary.t :=
  match find (fun p => bool_decide (YearSalary.param p = y)) selected with
  | Some p => p
  | None => zero_year y
  end.

(** ** Sample files *)

Definition header6 : list str :=
  map U ["name"; "salary_from"; "salary_to"; "salary_currency"; "area_name";
         "published_at"]%string.

Definition row6 (name lo hi code published : string) : list str :=
  map U [name; lo; hi; code; "Moscow"; published]%string.

(** Years 2005 and 2010 only; the profession appears in 2005 only. *)
Definition lines_with_gap : list (list str) :=
  [ header6;
    row6 "Programmer" "100" "200" "RUR" "2005-12-03T17:41:49+0300";
    row6 "Analyst" "100" "200" "RUR" "2010-12-03T17:41:49+0300" ].

(** Years met in the order 2007, 2006, 2005; the profession misses 2005. *)
Definition lines_descending : list (list str) :=
  [ header6;
    row6 "Programmer" "100" "200" "RUR" "2007-12-03T17:41:49+0300";
    row6 "Programmer" "100" "200" "RUR" "2006-12-03T17:41:49+0300";
    row6 "Analyst" "300" "400" "RUR" "2005-12-03T17:41:49+0300" ].

(** Years 2005, 2006, 2007; the profession misses 2006. *)
Definition lines_contiguous : list (list str) :=
  [ header6;
    row6 "Programmer" "100" "200" "RUR" "2005-12-03T17:41:49+0300";
    row6 "Analyst" "300" "400" "RUR" "2006-12-03T17:41:49+0300";
    row6 "Programmer" "300" "400" "USD" "2007-12-03T17:41:49+0300" ].

(** A row whose name is white space only. *)
Definition blank_name_row : list str :=
  row6 "  " "100" "200" "RUR" "2007-12-03T17:41:49+0300".

(** A row with negative bounds. *)
Definition lines_negative : list (list str) :=
  [ header6; row6 "Programmer" "-100" "-101" "RUR" "2007-12-03T17:41:49+0300" ].

(** The accumulator of [lines_negative]: one record, sum -100.5. *)
Definition negative_group : YearSalary.t :=
  YearSalary.Build_t (U "2007") (-100.5)%float 1.

(** Two accumulators, the second one of a year without records. *)
Definition sample_groups : list YearSalary.t :=
  [ YearSalary.Build_t (U "2007") 301%float 2; YearSalary.Build_t (U "2008") 0%float 0 ].

(** The accumulator of one record of 150 roubles in the year [y]. *)
Definition one_record (y : string) : YearSalary.t := YearSalary.Build_t (U y) 150%float 1.

(** A field holding a tag broken over two lines. *)
Definition two_line_tag : str := U "<a" ++ [char_nl] ++ U "b>".

(** ** class SplitCsvFileByYear (also the file 3.2.1) *)

Module SplitCsvFileByYear.
(** One call of [__csv_writer]: the year of the file name and the rows. *)
Definition chunk : Type := str * list (dict str str).

(** The variables of the loop of [__csv_process], and the calls of
    [__csv_writer] made so far. *)
Record state : Type := {
  cur_year : str;
  vacancies_cur_year : list (dict str str);
  written : list chunk
}.

(** [vacancy[-1][:4]] *)
Definition year_of (vacancy : list str) : result str :=
  let* published := or_raise IndexError (last vacancy) in
  Ok (take 4 published).

(** The body of the loop; the guard and the cleaning are those of
    [DataSet.process_vacancies], written with the same expressions. *)
Definition step (headlines : list str) (st : state) (vacancy : list str) : result state :=
  if DataSet.well_filled headlines vacancy then
    let vacancy := map clean_field vacancy in
    let vacancy_dict := dict_of (combine headlines vacancy) in
    let* y := year_of vacancy in
    let st :=
      if negb (str_eqb y (cur_year st)) then
        let st :=
          if negb (length (vacancies_cur_year st) =? 0)%nat
          then {| cur_year := cur_year st; vacancies_cur_year := [];
                  written := written st ++ [(cur_year st, vacancies_cur_year st)] |}
          else st in
        {| cur_year := y; vacancies_cur_year := vacancies_cur_year st;
           written := written st |}
      else st in
    Ok {| cur_year := cur_year st;
          vacancies_cur_year := vacancies_cur_year st ++ [vacancy_dict];
          written := written st |}
  else Ok st.

(** [__csv_process], once [os.mkdir] has made the directory: the calls of
    [__csv_writer], the last one after the loop. *)
Definition csv_process (headlines : list str) (vacancies : list (list str))
  : result (list chunk) :=
  let* st := foldM (step headlines) vacancies
               {| cur_year := U "0"; vacancies_cur_year := []; written := [] |} in
  Ok (written st ++ [(cur_year st, vacancies_cur_year st)]).

(** [f'{self.dir_name}/{name[0]}_{cur_year}.csv'], [root] being [name[0]]. *)
Definition path (dir_name root cur_year : str) : str :=
  dir_name ++ U "/" ++ root ++ U "_" ++ cur_year ++ U ".csv".

(** The files of the new directory after the calls: each call opens its
    file with mode ['w'], replacing what the file held. *)
Definition files (dir_name root : str) (calls : list chunk)
  : dict str (list (dict str str)) :=
  fold_left (fun fs c => dict_set (path dir_name root (fst c)) (snd c) fs) calls [].
End SplitCsvFileByYear.

(** ** class Report: the table of [generate_excel] *)

Module Report.
Inductive cell : Set :=
| CInt (n : Z)
| CStr (s : str).

(** The titles of the columns, as code points. *)
Definition title_year : str := [1043; 1086; 1076]%N.
Definition title_salary : str :=
  [1057; 1088; 1077; 1076; 1085; 1103; 1103; 32; 1079; 1072; 1088; 1087; 1083;
   1072; 1090; 1072]%N.
Definition title_count : str :=
  [1050; 1086; 1083; 1080; 1095; 1077; 1089; 1090; 1074; 1086; 32; 1074; 1072;
   1082; 1072; 1085; 1089; 1080; 1081]%N.

Definition header (profession : str) : list cell :=
  [ CStr title_year; CStr title_salary;
    CStr (title_salary ++ U " - " ++ profession);
    CStr title_count;
    CStr (title_count ++ U " - " ++ profession) ].

(** [l[i]] for an index of [range(...)]. *)
Definition item {A} (l : list A) (i : nat) : result A := or_raise IndexError (l !! i).

(** The rows [[self.years[i], self.average_salary[i], ...]] and the header
    inserted in front. *)
Definition table (profession : str)
    (years average_salary average_salary_profession
     count_vacancies_by_year count_vacancies_by_year_prof : list Z)
  : result (list (list cell)) :=
  let* df :=
    mapM (fun i =>
            let* y := item years i in
            let* a := item average_salary i in
            let* ap := item average_salary_profession i in
            let* c := item count_vacancies_by_year i in
            let* cp := item count_vacancies_by_year_prof i in
            Ok [CInt y; CInt a; CInt ap; CInt c; CInt cp])
         (seq 0 (length years)) in
  Ok (header profession :: df).

(** [value.split(sep)] for a one-character separator. *)
Fixpoint split_on (sep : char) (s : str) : list str :=
  match s with
  | [] => [[]]
  | c :: r =>
      if (c =? sep)%N then [] :: split_on sep r
      else match split_on sep r with
           | w :: ws => (c :: w) :: ws
           | [] => [[c]]
           end
  end.

(** The outcome of the test on the file name, in [generate_excel] and in
    [Graphic]: [os.path.basename(file_name).split('.')[1] != ext]. *)
Inductive name_check : Set :=
| Accepted
| RaisesTypeError
| RaisesIndexError.

Definition check_extension (ext basename : str) : name_check :=
  match split_on 46%N basename !! 1%nat with
  | None => RaisesIndexError
  | Some e => if str_eqb e ext then Accepted else RaisesTypeError
  end.
End Report.

(** ** class CreateStatisticFiles: what [create_files] hands to [Report] *)

Module CreateStatisticFiles.
(** [[d[i] for i in d]] *)
Definition values_of (d : dict Z Z) : result (list Z) :=
  mapM (fun i => dict_item i d) (dict_keys d).

Definition report_table (profession : str) (s : Statistic.stats)
  : result (list (list Report.cell)) :=
  let '(year_salary, year_vacancy, professions_year_salary,
        professions_year_vacancies) := s in
  let years := dict_keys year_salary in
  let* average_salary := values_of year_salary in
  let* average_salary_profession := values_of professions_year_salary in
  let* count_vacancies_by_year := values_of year_vacancy in
  let* count_vacancies_by_year_prof := values_of professions_year_vacancies in
  Report.table profession years average_salary average_salary_profession
    count_vacancies_by_year count_vacancies_by_year_prof.
End CreateStatisticFiles.

(** ** The main block: every file, then the merge *)

(** [r = list(executor.map(stats.process_data, files))] and the loop over
    [r]; the results come in the order of [files], and the first file that
    raises decides the exception. *)
Definition process_corpus `{Builtins} (profession : str)
    (files : list (list (list str))) : result Statistic.stats :=
  let* r := mapM (Statistic.process_data profession) files in
  Ok (merge r).

(** ** class Report: the widths of [__make_max_column_width] *)

Module Worksheet.
(** A cell of [worksheet.rows]: [cell.column] and [cell.value], [None] for
    an empty cell. *)
Definition sheet_cell : Type := Z * option Report.cell.

(** [len(str(n))] for an int. *)
Definition int_len (n : Z) : Z :=
  match Z.to_int n with
  | Decimal.Pos d => Z.of_nat (Decimal.nb_digits d)
  | Decimal.Neg d => Z.of_nat (S (Decimal.nb_digits d))
  end.

(** [len(str(cell.value))]; [str(None)] has four characters. *)
Definition text_length (value : option Report.cell) : Z :=
  match value with
  | None => 4
  | Some (Report.CInt n) => int_len n
  | Some (Report.CStr s) => Z.of_nat (length s)
  end.

(** The body of the inner loop. *)
Definition widen (dims : dict Z Z) (cell : sheet_cell) : dict Z Z :=
  match snd cell with
  | Some _ =>
      dict_set (fst cell)
        (Z.max (match dict_get (fst cell) dims with Some w => w | None => 0 end)
               (text_length (snd cell)))
        dims
  | None => dict_set (fst cell) (text_length (snd cell)) dims
  end.

(** The width given to each column: [value + 2] for each item of [dims]. *)
Definition make_max_column_width (rows : list (list sheet_cell)) : dict Z Z :=
  let dims := fold_left (fun dims row => fold_left widen row dims) rows [] in
  map (fun item => (fst item, snd item + 2)) dims.

(** The text lengths of the cells of a column, in the order of the loops. *)
Definition column_lengths (col : Z) (cells : list sheet_cell) : list Z :=
  map (fun c => text_length (snd c)) (filter (fun c : sheet_cell => fst c = col) cells).
End Worksheet.

(** ** More notions the statements use *)

(** The four mappings have the same years in the same order. *)
Definition aligned (s : Statistic.stats) : Prop :=
  let '(a, b, c, d) := s in
  dict_keys b = dict_keys a /\ dict_keys c = dict_keys a /\ dict_keys d = dict_keys a.

(** No two neighbours of the list are equal. *)
Fixpoint no_repeat {A} (l : list A) : Prop :=
  match l with
  | x :: (y :: _) as r => x <> y /\ no_repeat r
  | _ => True
  end.

(** The required columns the constructor of [Vacancy] reads before it
    parses the salary. *)
Definition first_columns : list str :=
  map U ["name"; "salary_from"; "salary_to"; "salary_currency"]%string.

(** Two white-space characters in a row. *)
Fixpoint has_double_space (s : str) : bool :=
  match s with
  | a :: (b :: _) as r => isspace a && isspace b || has_double_space r
  | _ => false
  end.

(** One of the four mappings of a result, by its place in the tuple. *)
Definition nth_map (i : nat) (s : Statistic.stats) : dict Z Z :=
  let '(a, b, c, d) := s in
  match i with
  | 0%nat => a
  | 1%nat => b
  | 2%nat => c
  | _ => d
  end.

(** The number of records gathered under the key [k], and under all keys. *)
Definition count_under (k : str) (d : dict str YearSalary.t) : Z :=
  match dict_get k d with
  | Some g => YearSalary.count_vacancies g
  | None => 0
  end.

Definition total_count (groups : list YearSalary.t) : Z :=
  foldr (fun g acc => YearSalary.count_vacancies g + acc) 0 groups.

(** The number of records of the year [y]. *)
Definition records_of (y : str) (vacancies : list Vacancy.t) : Z :=
  Z.of_nat (length (filter (fun v => Vacancy.year v = y) vacancies)).

(** The cleaned rows that pass the guard, and the dictionary of a row. *)
Definition kept_rows (headlines : list str) (vacancies : list (list str))
  : list (list str) :=
  map (map clean_field)
      (filter (fun v => DataSet.well_filled headlines v = true) vacancies).

Definition row_dict (headlines cleaned : list str) : dict str str :=
  dict_of (combine headlines cleaned).

(** A run of cleaned rows written in one call, with the year of the call. *)
Definition run : Type := str * list (list str).

Definition call_of (headlines : list str) (r : run) : SplitCsvFileByYear.chunk :=
  (fst r, map (row_dict headlines) (snd r)).

(** What the loop keeps true: [runs] are the calls made, [cur] the rows of
    the current year. *)
Definition split_state (headlines : list str) (st : SplitCsvFileByYear.state)
    (runs : list run) (cur : list (list str)) : Prop :=
  SplitCsvFileByYear.written st = map (call_of headlines) runs
  /\ SplitCsvFileByYear.vacancies_cur_year st = map (row_dict headlines) cur
  /\ Forall (fun r : run =>
               snd r <> []
               /\ Forall (fun row => SplitCsvFileByYear.year_of row = Ok (fst r)) (snd r))
            runs
  /\ Forall (fun row => SplitCsvFileByYear.year_of row
                        = Ok (SplitCsvFileByYear.cur_year st)) cur
  /\ no_repeat (map fst runs ++ [SplitCsvFileByYear.cur_year st])
  /\ (cur = [] -> runs = [] /\ SplitCsvFileByYear.cur_year st = U "0").

(** * Properties *)

(** ** The error monad *)

Lemma bind_ok {A B} (m : result A) (k : A -> result B) (b : B) :
  bind m k = Ok b -> exists a, m = Ok a /\ k a = Ok b.
Proof. destruct m as [a|e]; simpl; [eauto | discriminate]. Qed.

Lemma raises_iff {A} (e : exn) (m : result A) : raises e m = true <-> m = Raise e.
Proof.
  destruct m as [a|e']; simpl; [split; discriminate |].
  destruct e, e'; split; intros Heq; try reflexivity; try discriminate;
    inversion Heq.
Qed.

Lemma mapM_app {A B} (f : A -> result B) (l1 l2 : list A) :
  mapM f (l1 ++ l2)
  = let* r1 := mapM f l1 in let* r2 := mapM f l2 in Ok (r1 ++ r2).
Proof.
  induction l1 as [|x l1 IH]; simpl.
  - destruct (mapM f l2); reflexivity.
  - destruct (f x) as [y|e]; simpl; [| reflexivity].
    rewrite IH. destruct (mapM f l1) as [r1|e]; simpl; [| reflexivity].
    destruct (mapM f l2); reflexivity.
Qed.

Lemma mapM_length {A B} (f : A -> result B) (l : list A) (r : list B) :
  mapM f l = Ok r -> length r = length l.
Proof.
  revert r. induction l as [|x l IH]; simpl; intros r Hr.
  - injection Hr as <-. reflexivity.
  - apply bind_ok in Hr as (y & _ & Hr). apply bind_ok in Hr as (ys & Hys & Hr).
    injection Hr as <-. simpl. f_equal. auto.
Qed.

Lemma mapM_lookup {A B} (f : A -> result B) (l : list A) (r : list B) (i : nat) (x : A) :
  mapM f l = Ok r -> l !! i = Some x -> exists y, f x = Ok y /\ r !! i = Some y.
Proof.
  revert r i. induction l as [|x' l IH]; simpl; intros r i Hr Hx; [discriminate |].
  apply bind_ok in Hr as (y & Hy & Hr). apply bind_ok in Hr as (ys & Hys & Hr).
  injection Hr as <-. destruct i as [|i]; simpl in *.
  - injection Hx as ->. eauto.
  - eauto.
Qed.

Lemma mapM_ok {A B} (f : A -> result B) (l : list A) :
  Forall (fun x => is_ok (f x) = true) l -> exists r, mapM f l = Ok r.
Proof.
  induction 1 as [|x l Hx _ [r Hr]]; simpl; [eauto |].
  destruct (f x) as [y|e]; [| discriminate]. rewrite Hr. simpl. eauto.
Qed.

(** ** Dictionaries *)

Section DictFacts.
Context {K V : Type} `{EqDecision K}.
Implicit Types (d : dict K V) (k : K) (v : V).

Lemma dict_get_set k k' v d :
  dict_get k (dict_set k' v d) = if decide (k = k') then Some v else dict_get k d.
Proof.
  induction d as [|[k1 v1] d IH]; simpl.
  - destruct (decide (k = k')); reflexivity.
  - destruct (decide (k' = k1)) as [->|Hne]; simpl.
    + destruct (decide (k = k1)); reflexivity.
    + destruct (decide (k = k1)) as [->|Hne'].
      * destruct (decide (k1 = k')); congruence.
      * exact IH.
Qed.

Lemma dict_get_None k d : dict_get k d = None <-> k ∉ dict_keys d.
Proof.
  induction d as [|[k1 v1] d IH]; simpl.
  - split; [intros _; apply not_elem_of_nil | reflexivity].
  - rewrite not_elem_of_cons. destruct (decide (k = k1)) as [->|Hne].
    + split; [discriminate | intros [Hk _]; congruence].
    + rewrite IH. tauto.
Qed.

Lemma dict_get_Some_key k v d : dict_get k d = Some v -> k ∈ dict_keys d.
Proof.
  intros Hget. destruct (decide (k ∈ dict_keys d)) as [Hin|Hout]; [exact Hin |].
  apply dict_get_None in Hout. congruence.
Qed.

Lemma dict_get_key k d : k ∈ dict_keys d -> exists v, dict_get k d = Some v.
Proof.
  intros Hin. destruct (dict_get k d) as [v|] eqn:Hget; [eauto |].
  apply dict_get_None in Hget. contradiction.
Qed.

Lemma dict_keys_set k v d :
  dict_keys (dict_set k v d)
  = if decide (k ∈ dict_keys d) then dict_keys d else dict_keys d ++ [k].
Proof.
  induction d as [|[k1 v1] d IH]; simpl.
  - destruct (decide (k ∈ [])) as [Hin|_]; [| reflexivity].
    apply elem_of_nil in Hin. contradiction.
  - destruct (decide (k = k1)) as [->|Hne]; simpl.
    + destruct (decide (k1 ∈ k1 :: dict_keys d)) as [_|Hout]; [reflexivity |].
      exfalso. apply Hout. left.
    + rewrite IH. destruct (decide (k ∈ dict_keys d)) as [Hin|Hout].
      * destruct (decide (k ∈ k1 :: dict_keys d)) as [_|Hout]; [reflexivity |].
        exfalso. apply Hout. right. exact Hin.
      * destruct (decide (k ∈ k1 :: dict_keys d)) as [Hin|_]; [| reflexivity].
        apply elem_of_cons in Hin as [Heq|Hin]; [congruence | contradiction].
Qed.
End DictFacts.

(** ** Salary *)

Lemma float_neq (x y : float) : Prim2SF x <> Prim2SF y -> x <> y.
Proof. intros Hne ->. apply Hne. reflexivity. Qed.

Lemma currency_keys : dict_keys Salary.currency_to_rub = known_codes.
Proof. reflexivity. Qed.

Lemma convert_to_rubles_rate (s : Salary.t) (rate : float) :
  dict_get (Salary.salary_currency s) Salary.currency_to_rub = Some rate ->
  Salary.convert_to_rubles s = Ok (Salary.average_salary s * rate)%float.
Proof. intros Hrate. unfold Salary.convert_to_rubles, dict_item. rewrite Hrate. reflexivity. Qed.

Lemma convert_to_rubles_unknown (s : Salary.t) :
  Salary.salary_currency s ∉ known_codes ->
  Salary.convert_to_rubles s = Raise KeyError.
Proof.
  intros Hout. rewrite <- currency_keys in Hout. apply dict_get_None in Hout.
  unfold Salary.convert_to_rubles, dict_item. rewrite Hout. reflexivity.
Qed.

Lemma convert_to_rubles_known (s : Salary.t) :
  Salary.salary_currency s ∈ known_codes ->
  exists rate, dict_get (Salary.salary_currency s) Salary.currency_to_rub = Some rate
            /\ Salary.convert_to_rubles s = Ok (Salary.average_salary s * rate)%float.
Proof.
  intros Hin. rewrite <- currency_keys in Hin. apply dict_get_key in Hin as [rate Hrate].
  exists rate. split; [exact Hrate | apply convert_to_rubles_rate, Hrate].
Qed.

(** The doctests of [convert_to_rubles] and of [YearSalary]. *)
Example doctest_convert_RUR :
  (let* s := Salary.init (PInt 100) (PInt 200) (U "RUR") in Salary.convert_to_rubles s)
  = Ok 150%float.
Proof. reflexivity. Qed.

Example doctest_convert_AZN :
  (let* s := Salary.init (PInt 100) (PInt 200) (U "AZN") in Salary.convert_to_rubles s)
  = Ok 5352%float.
Proof. reflexivity. Qed.

Example doctest_year_salary :
  (let* s := Salary.init (PInt 1000) (PInt 2000) (U "USD") in
   let* ys := YearSalary.init (U "year") s in Ok (YearSalary.salary ys))
  = Ok 90990%float.
Proof. reflexivity. Qed.

Example doctest_add_salary :
  (let* s1 := Salary.init (PInt 100) (PInt 200) (U "RUR") in
   let* s2 := Salary.init (PInt 200) (PInt 300) (U "RUR") in
   let* ys := YearSalary.init (U "city") s1 in
   let* ys := YearSalary.add_salary ys s2 in
   Ok (YearSalary.salary ys, YearSalary.count_vacancies ys))
  = Ok (400%float, 2).
Proof. reflexivity. Qed.

(** C1, as amended.  The stored representative value is [int(low + high) / 2]:
    the sum of the bounds is truncated to an integer and then halved by a
    true division, so no truncation follows the halving; the conversion
    returns that value times the rate of the currency code. *)
Theorem salary_convert_halves_truncated_sum `{Builtins}
    (a b : pyval) (code : str) (lo hi avg rate : float) (n : Z) :
  py_float a = Ok lo ->
  py_float b = Ok hi ->
  int_of_float (lo + hi)%float = Ok n ->
  int_truediv n 2 = Ok avg ->
  dict_get code Salary.currency_to_rub = Some rate ->
  exists s, Salary.init a b code = Ok s
         /\ Salary.salary_from s = lo /\ Salary.salary_to s = hi
         /\ Salary.average_salary s = avg
         /\ Salary.convert_to_rubles s = Ok (avg * rate)%float.
Proof.
  intros Ha Hb Hn Havg Hrate. unfold Salary.init.
  rewrite Ha, Hb. simpl. rewrite Hn. simpl. rewrite Havg. simpl.
  eexists. split; [reflexivity |]. do 3 (split; [reflexivity |]).
  exact (convert_to_rubles_rate (Salary.Build_t lo hi code avg) rate Hrate).
Qed.

Lemma salary_convert_AZN_witness :
  exists s, Salary.init (PInt 100) (PInt 200) (U "AZN") = Ok s
         /\ Salary.salary_from s = 100%float /\ Salary.salary_to s = 200%float
         /\ Salary.average_salary s = 150%float
         /\ Salary.convert_to_rubles s = Ok 5352%float.
Proof.
  exact (salary_convert_halves_truncated_sum (PInt 100) (PInt 200) (U "AZN")
           100 200 150 35.68 300 eq_refl eq_refl eq_refl eq_refl eq_refl).
Defined.

(** C1, as stated, fails for bounds with an odd sum: [Salary(100, 201, "RUR")]
    stores 150.5 and converts to 150.5, where the truncated midpoint is 150. *)
Lemma salary_midpoint_not_truncated :
  exists s, Salary.init (PInt 100) (PInt 201) (U "RUR") = Ok s
         /\ Salary.average_salary s = 150.5%float
         /\ Salary.convert_to_rubles s = Ok 150.5%float
         /\ spec_representative (Salary.salary_from s) (Salary.salary_to s) = Ok 150%float
         /\ spec_convert (Salary.salary_from s) (Salary.salary_to s)
              (Salary.salary_currency s) = Ok 150%float
         /\ Salary.convert_to_rubles s
            <> spec_convert (Salary.salary_from s) (Salary.salary_to s)
                 (Salary.salary_currency s).
Proof.
  eexists. split; [reflexivity |]. repeat split.
  intros Heq.
  apply (f_equal (fun r => match r with Ok x => Prim2SF x | Raise _ => S754_nan end)) in Heq.
  vm_compute in Heq. discriminate.
Qed.

(** ** Grouping by year *)

Lemma known_currency_false (v : Vacancy.t) :
  known_currency v = false -> Salary.salary_currency (Vacancy.salary v) ∉ known_codes.
Proof. unfold known_currency. apply bool_decide_eq_false. Qed.

Lemma known_currency_true (v : Vacancy.t) :
  known_currency v = true -> Salary.salary_currency (Vacancy.salary v) ∈ known_codes.
Proof. unfold known_currency. apply bool_decide_eq_true. Qed.

Lemma add_vacancy_unknown (d : dict str YearSalary.t) (v : Vacancy.t) :
  known_currency v = false -> Statistic.add_vacancy d v = Raise KeyError.
Proof.
  intros Hv. apply known_currency_false, convert_to_rubles_unknown in Hv.
  unfold Statistic.add_vacancy, YearSalary.init, YearSalary.add_salary.
  destruct (dict_get _ d); rewrite Hv; reflexivity.
Qed.

(** What the loop body stores for a vacancy of a known currency. *)
Lemma add_vacancy_known (d : dict str YearSalary.t) (v : Vacancy.t) :
  known_currency v = true ->
  exists rub,
    Salary.convert_to_rubles (Vacancy.salary v) = Ok rub
    /\ Statistic.add_vacancy d v
       = Ok (dict_set (Vacancy.year v)
               match dict_get (Vacancy.year v) d with
               | None => YearSalary.Build_t (Vacancy.year v) rub 1
               | Some cur =>
                   YearSalary.Build_t (YearSalary.param cur)
                     (YearSalary.salary cur + rub)%float
                     (YearSalary.count_vacancies cur + 1)
               end d).
Proof.
  intros Hv. apply known_currency_true, convert_to_rubles_known in Hv as (rate & _ & Hrub).
  eexists. split; [exact Hrub |].
  unfold Statistic.add_vacancy, YearSalary.init, YearSalary.add_salary.
  destruct (dict_get _ d); rewrite Hrub; reflexivity.
Qed.

Lemma foldM_add_vacancy_unknown (vacancies : list Vacancy.t) (d : dict str YearSalary.t) :
  existsb (fun v => negb (known_currency v)) vacancies = true ->
  foldM Statistic.add_vacancy vacancies d = Raise KeyError.
Proof.
  revert d. induction vacancies as [|v vs IH]; simpl; intros d Hex; [discriminate |].
  destruct (known_currency v) eqn:Hv; simpl in Hex.
  - destruct (add_vacancy_known d v Hv) as (rub & _ & ->). simpl. apply IH, Hex.
  - rewrite (add_vacancy_unknown d v Hv). reflexivity.
Qed.

Lemma convert_to_param_salary_unknown (vacancies : list Vacancy.t) :
  existsb (fun v => negb (known_currency v)) vacancies = true ->
  Statistic.convert_to_param_salary vacancies = Raise KeyError.
Proof.
  intros Hex. unfold Statistic.convert_to_param_salary.
  rewrite (foldM_add_vacancy_unknown _ _ Hex). reflexivity.
Qed.

(** C7.  [convert_to_rubles] raises [KeyError] exactly when the currency code
    is none of the ten known codes and raises nothing else; for a known code
    it returns the representative value times the rate of the code, the rate
    of RUR being 1; the error is not caught on the way up: [YearSalary], the
    grouping by year and [process_data] raise it too. *)
Theorem convert_to_rubles_key_error `{Builtins} (s : Salary.t) :
  raises KeyError (Salary.convert_to_rubles s)
  = negb (bool_decide (Salary.salary_currency s ∈ known_codes))
  /\ length known_codes = 10%nat
  /\ (forall e, Salary.convert_to_rubles s = Raise e -> e = KeyError)
  /\ (Salary.salary_currency s ∈ known_codes ->
      exists rate, dict_get (Salary.salary_currency s) Salary.currency_to_rub = Some rate
                /\ Salary.convert_to_rubles s = Ok (Salary.average_salary s * rate)%float)
  /\ dict_get (U "RUR") Salary.currency_to_rub = Some 1%float
  /\ (forall y, Salary.salary_currency s ∉ known_codes ->
        YearSalary.init y s = Raise KeyError)
  /\ (forall vacancies, existsb (fun v => negb (known_currency v)) vacancies = true ->
        Statistic.convert_to_param_salary vacancies = Raise KeyError)
  /\ (forall profession lines data,
        DataSet.csv_reader lines = Ok data ->
        existsb (fun v => negb (known_currency v)) data = true ->
        Statistic.process_data profession lines = Raise KeyError).
Proof.
  split.
  { destruct (decide (Salary.salary_currency s ∈ known_codes)) as [Hin|Hout].
    - rewrite (bool_decide_eq_true_2 _ Hin).
      destruct (convert_to_rubles_known s Hin) as (rate & _ & ->). reflexivity.
    - rewrite (bool_decide_eq_false_2 _ Hout), (convert_to_rubles_unknown s Hout).
      reflexivity. }
  split; [reflexivity |]. split.
  { intros e. unfold Salary.convert_to_rubles, dict_item.
    destruct (dict_get _ _); simpl; [discriminate | congruence]. }
  split; [apply convert_to_rubles_known |]. split; [reflexivity |]. split.
  { intros y Hout. unfold YearSalary.init.
    rewrite (convert_to_rubles_unknown s Hout). reflexivity. }
  split; [apply convert_to_param_salary_unknown |].
  intros profession lines data Hdata Hex. unfold Statistic.process_data.
  rewrite Hdata. simpl. rewrite (convert_to_param_salary_unknown _ Hex). reflexivity.
Qed.

Lemma convert_to_rubles_key_error_witness :
  raises KeyError
    (Salary.convert_to_rubles (Salary.Build_t 100 200 (U "XYZ") 150)) = true.
Proof.
  exact (proj1 (convert_to_rubles_key_error (Salary.Build_t 100 200 (U "XYZ") 150))).
Defined.

(** ** Selection of the rows *)

Lemma well_filled_spec (headlines vacancy : list str) :
  DataSet.well_filled headlines vacancy = true
  <-> length vacancy = length headlines /\ Forall (fun v => v <> []) vacancy.
Proof.
  unfold DataSet.well_filled. rewrite andb_true_iff, bool_decide_eq_true.
  rewrite forallb_forall, Forall_forall. split; intros [Hlen Hall]; split; try exact Hlen.
  - intros v Hv. apply list_elem_of_In, Hall in Hv.
    apply negb_true_iff, bool_decide_eq_false in Hv. exact Hv.
  - intros v Hv. apply negb_true_iff, bool_decide_eq_false, Hall, list_elem_of_In, Hv.
Qed.

Lemma process_vacancies_from `{Builtins} (headlines : list str)
    (vacancies : list (list str)) (acc : list Vacancy.t) :
  foldM (fun result vacancy =>
           if DataSet.well_filled headlines vacancy
           then let* v := DataSet.to_vacancy headlines vacancy in Ok (result ++ [v])
           else Ok result)
        vacancies acc
  = let* kept := mapM (DataSet.to_vacancy headlines)
                   (filter (fun v => DataSet.well_filled headlines v = true) vacancies) in
    Ok (acc ++ kept).
Proof.
  revert acc. induction vacancies as [|row rows IH]; intros acc; simpl.
  - rewrite app_nil_r. reflexivity.
  - rewrite filter_cons. destruct (DataSet.well_filled headlines row) eqn:Hrow.
    + rewrite decide_True by reflexivity. simpl.
      destruct (DataSet.to_vacancy headlines row) as [v|e]; simpl; [| reflexivity].
      rewrite IH. destruct (mapM _ _) as [kept|e]; simpl; [| reflexivity].
      rewrite <- app_assoc. reflexivity.
    + rewrite decide_False by discriminate. simpl. apply IH.
Qed.

Lemma process_vacancies_filter `{Builtins} (headlines : list str)
    (vacancies : list (list str)) :
  DataSet.process_vacancies headlines vacancies
  = mapM (DataSet.to_vacancy headlines)
      (filter (fun v => DataSet.well_filled headlines v = true) vacancies).
Proof.
  unfold DataSet.process_vacancies. rewrite process_vacancies_from.
  destruct (mapM _ _); reflexivity.
Qed.

Lemma process_vacancies_drop `{Builtins} (headlines : list str)
    (before after : list (list str)) (row : list str) :
  DataSet.well_filled headlines row = false ->
  DataSet.process_vacancies headlines (before ++ row :: after)
  = DataSet.process_vacancies headlines (before ++ after).
Proof.
  intros Hrow. rewrite !process_vacancies_filter, !filter_app, filter_cons.
  rewrite decide_False by (rewrite Hrow; discriminate). reflexivity.
Qed.

(** C2, as amended.  A row becomes a record if and only if it has as many
    fields as the header and no field is the empty string, the fields being
    tested as read, before any trimming: the records are those built, in
    order, from the rows passing this test; a row failing it raises nothing
    and leaves the records and every aggregate as they are without it. *)
Theorem process_vacancies_keeps_well_filled `{Builtins}
    (headlines : list str) (vacancies : list (list str)) :
  DataSet.process_vacancies headlines vacancies
  = mapM (DataSet.to_vacancy headlines)
      (filter (fun v => DataSet.well_filled headlines v = true) vacancies)
  /\ (forall row, DataSet.well_filled headlines row = true
        <-> length row = length headlines /\ Forall (fun v => v <> []) row)
  /\ (forall data, DataSet.process_vacancies headlines vacancies = Ok data ->
        length data
        = length (filter (fun v => DataSet.well_filled headlines v = true) vacancies))
  /\ (forall before row after,
        vacancies = before ++ row :: after ->
        DataSet.well_filled headlines row = false ->
        DataSet.process_vacancies headlines vacancies
        = DataSet.process_vacancies headlines (before ++ after)
        /\ forall profession,
            Statistic.process_data profession (headlines :: vacancies)
            = Statistic.process_data profession (headlines :: before ++ after)).
Proof.
  split; [apply process_vacancies_filter |].
  split; [intros row; apply well_filled_spec |]. split.
  - intros data Hdata. rewrite process_vacancies_filter in Hdata.
    apply mapM_length in Hdata. exact Hdata.
  - intros before row after -> Hrow.
    pose proof (process_vacancies_drop headlines before after row Hrow) as Hdrop.
    split; [exact Hdrop |]. intros profession.
    unfold Statistic.process_data, DataSet.csv_reader. rewrite Hdrop. reflexivity.
Qed.

Lemma process_vacancies_drop_witness :
  DataSet.process_vacancies header6 [ [U "Programmer"; U "100"]; blank_name_row ]
  = DataSet.process_vacancies header6 [ blank_name_row ].
Proof.
  exact (proj1 (proj2 (proj2 (proj2
           (process_vacancies_keeps_well_filled header6
              [ [U "Programmer"; U "100"]; blank_name_row ])))
           [] [U "Programmer"; U "100"] [blank_name_row] eq_refl eq_refl)).
Defined.

(** C2, as stated, fails on a row with a field of white space only: it is
    empty after trimming, and the row is kept all the same, with an empty
    name. *)
Lemma blank_field_row_is_kept :
  spec_valid_row header6 blank_name_row = false
  /\ DataSet.well_filled header6 blank_name_row = true
  /\ exists v, DataSet.process_vacancies header6 [blank_name_row] = Ok [v]
             /\ Vacancy.name v = [] /\ Vacancy.year v = U "2007".
Proof.
  split; [reflexivity |]. split; [reflexivity |].
  eexists. split; [reflexivity |]. split; reflexivity.
Qed.

(** ** Order of the keys and merging *)

Section FirstAppearance.
Context {A : Type} `{EqDecision A}.
Implicit Types (l : list A) (x : A).

Lemma first_appearance_elem x l : x ∈ first_appearance l <-> x ∈ l.
Proof.
  induction l as [|y l IH]; simpl; [reflexivity |].
  rewrite !elem_of_cons, list_elem_of_filter, IH.
  destruct (decide (x = y)); tauto.
Qed.

Lemma first_appearance_NoDup l : NoDup (first_appearance l).
Proof.
  induction l as [|y l IH]; simpl; [constructor |].
  apply NoDup_cons. split.
  - rewrite list_elem_of_filter. tauto.
  - apply NoDup_filter, IH.
Qed.

Lemma first_appearance_id l : NoDup l -> first_appearance l = l.
Proof.
  induction 1 as [|y l Hy _ IH]; simpl; [reflexivity |].
  rewrite IH. f_equal. clear IH.
  induction l as [|z l IH]; [reflexivity |].
  apply not_elem_of_cons in Hy as [Hne Hy].
  rewrite filter_cons_True by congruence. f_equal. apply IH, Hy.
Qed.

Lemma first_appearance_filter (P : A -> Prop) `{!forall x, Decision (P x)} l :
  first_appearance (filter P l) = filter P (first_appearance l).
Proof.
  induction l as [|y l IH]; simpl; [reflexivity |].
  rewrite !filter_cons. destruct (decide (P y)); simpl; rewrite IH.
  - f_equal. rewrite !list_filter_filter. apply list_filter_iff. tauto.
  - rewrite list_filter_filter_l; [reflexivity |]. intros x HP ->. contradiction.
Qed.

End FirstAppearance.

Lemma first_appearance_fmap {A B} `{EqDecision A} `{EqDecision B} (f : A -> B) (l : list A) :
  first_appearance (map f (first_appearance l)) = first_appearance (map f l).
Proof.
  induction l as [|y l IH]; simpl; [reflexivity |]. f_equal.
  rewrite <- IH, <- !(first_appearance_filter (fun b => b <> f y)). f_equal.
  generalize (first_appearance l). clear IH. intros m.
  induction m as [|z m IH]; simpl; [reflexivity |].
  rewrite (filter_cons (fun a => a <> y)).
  destruct (decide (z <> y)) as [Hz|Hz]; simpl.
  - rewrite !filter_cons, IH. reflexivity.
  - apply dec_stable in Hz. subst z. rewrite filter_cons_False by tauto. exact IH.
Qed.

Section DictFold.
Context {K V : Type} `{EqDecision K}.
Implicit Types (d : dict K V) (l : list (K * V)) (k : K) (v : V).

Local Abbreviation set_all := (fold_left (fun d kv => dict_set (fst kv) (snd kv) d)).

(** One more key, seen from the keys that follow it. *)
Lemma dict_keys_set_then k v d (later : list K) :
  dict_keys (dict_set k v d)
    ++ filter (fun x => x ∉ dict_keys (dict_set k v d)) later
  = dict_keys d
    ++ filter (fun x => x ∉ dict_keys d) (k :: filter (fun x => x <> k) later).
Proof.
  rewrite dict_keys_set. destruct (decide (k ∈ dict_keys d)) as [Hin|Hout].
  - rewrite filter_cons_False by tauto.
    rewrite list_filter_filter_l; [reflexivity |]. intros x Hx ->. contradiction.
  - rewrite filter_cons_True by exact Hout. rewrite <- app_assoc. simpl.
    do 2 f_equal. rewrite list_filter_filter. apply list_filter_iff.
    intros x. rewrite elem_of_app, list_elem_of_singleton. tauto.
Qed.

Lemma dict_keys_set_all l d :
  dict_keys (set_all l d)
  = dict_keys d ++ filter (fun k => k ∉ dict_keys d) (first_appearance (map fst l)).
Proof.
  revert d. induction l as [|[k v] l IH]; intros d; simpl.
  - rewrite app_nil_r. reflexivity.
  - rewrite IH. apply dict_keys_set_then.
Qed.

Lemma dict_get_set_all_other k l d :
  k ∉ map fst l -> dict_get k (set_all l d) = dict_get k d.
Proof.
  revert d. induction l as [|[k1 v1] l IH]; intros d Hk; simpl; [reflexivity |].
  simpl in Hk. apply not_elem_of_cons in Hk as [Hne Hk].
  rewrite IH by exact Hk. rewrite dict_get_set.
  destruct (decide (k = k1)); [contradiction | reflexivity].
Qed.

(** The last binding of a key is the one that stays. *)
Lemma dict_get_set_all_last k v l1 l2 d :
  k ∉ map fst l2 -> dict_get k (set_all (l1 ++ (k, v) :: l2) d) = Some v.
Proof.
  intros Hk. rewrite fold_left_app. simpl.
  rewrite dict_get_set_all_other by exact Hk. rewrite dict_get_set.
  destruct (decide (k = k)); [reflexivity | contradiction].
Qed.

Lemma dict_get_update k d other :
  dict_wf other ->
  dict_get k (dict_update d other)
  = match dict_get k other with Some v => Some v | None => dict_get k d end.
Proof.
  unfold dict_update, dict_wf. revert d.
  induction other as [|[k1 v1] l IH]; intros d Hwf; simpl; [reflexivity |].
  simpl in Hwf. apply NoDup_cons in Hwf as [Hk1 Hwf].
  rewrite IH by exact Hwf. rewrite dict_get_set.
  destruct (decide (k = k1)) as [->|Hne]; [| reflexivity].
  apply dict_get_None in Hk1. rewrite Hk1. reflexivity.
Qed.

Lemma dict_of_wf l : dict_wf (dict_of l).
Proof.
  unfold dict_wf, dict_of. rewrite dict_keys_set_all. simpl.
  apply NoDup_filter, first_appearance_NoDup.
Qed.

Lemma dict_set_fresh k v d : k ∉ dict_keys d -> dict_set k v d = d ++ [(k, v)].
Proof.
  induction d as [|[k1 v1] d IH]; simpl; intros Hk; [reflexivity |].
  apply not_elem_of_cons in Hk as [Hne Hk].
  destruct (decide (k = k1)); [contradiction |]. rewrite IH by exact Hk. reflexivity.
Qed.

(** Building a dictionary from the items of a dictionary gives it back. *)
Lemma dict_update_empty d : dict_wf d -> dict_update [] d = d.
Proof.
  unfold dict_update, dict_wf.
  enough (Hgen : forall l d0, NoDup (dict_keys d0 ++ map fst l) -> set_all l d0 = d0 ++ l).
  { intros Hwf. apply (Hgen d []). exact Hwf. }
  clear d. induction l as [|[k v] l IH]; intros d0 Hnd; simpl.
  - rewrite app_nil_r. reflexivity.
  - simpl in Hnd. rewrite dict_set_fresh.
    + rewrite IH; [rewrite <- app_assoc; reflexivity |].
      unfold dict_keys in *. rewrite map_app. simpl. rewrite <- app_assoc. exact Hnd.
    + apply NoDup_app in Hnd as (_ & Hdisj & _). intros Hin.
      apply (Hdisj k Hin). left.
Qed.

Lemma dict_update_overwritten d1 d2 :
  dict_wf d2 -> overwritten_by d1 d2 (dict_update d1 d2).
Proof.
  intros Hwf2.
  assert (Hkeys : dict_keys (dict_update d1 d2)
                  = dict_keys d1 ++ filter (fun k => k ∉ dict_keys d1) (dict_keys d2)).
  { unfold dict_update. rewrite dict_keys_set_all.
    change (map fst d2) with (dict_keys d2).
    rewrite (first_appearance_id _ Hwf2). reflexivity. }
  split; [| split; [| split; [| split]]].
  - intros k. rewrite Hkeys, elem_of_app, list_elem_of_filter.
    destruct (decide (k ∈ dict_keys d1)); tauto.
  - intros k v Hget. rewrite dict_get_update, Hget by exact Hwf2. reflexivity.
  - intros k Hget. rewrite dict_get_update, Hget by exact Hwf2. reflexivity.
  - exact Hkeys.
  - intros Hdisj. rewrite Hkeys. f_equal.
    clear Hkeys Hwf2. induction (dict_keys d2) as [|k l IH]; [reflexivity |].
    destruct (decide (k ∈ dict_keys d1)) as [Hin|Hout].
    + exfalso. apply (Hdisj k Hin). left.
    + rewrite filter_cons_True by exact Hout. f_equal. apply IH.
      intros x Hx Hxl. apply (Hdisj x Hx). right. exact Hxl.
Qed.
End DictFold.

Lemma process_data_wf `{Builtins} (profession : str) (lines : list (list str))
    (a b c d : dict Z Z) :
  Statistic.process_data profession lines = Ok (a, b, c, d) ->
  Forall dict_wf [a; b; c; d].
Proof.
  assert (Hwf : forall groups (x y : dict Z Z),
            Statistic.convert_from_param_salary_to_dict groups = Ok (x, y) ->
            dict_wf x /\ dict_wf y).
  { intros groups x y Hxy. unfold Statistic.convert_from_param_salary_to_dict in Hxy.
    apply bind_ok in Hxy as (years & _ & Hxy). apply bind_ok in Hxy as (means & _ & Hxy).
    apply bind_ok in Hxy as (years' & _ & [= <- <-]). split; apply dict_of_wf. }
  unfold Statistic.process_data. intros Hdata.
  apply bind_ok in Hdata as (data & _ & Hdata).
  apply bind_ok in Hdata as (groups & _ & Hdata).
  apply bind_ok in Hdata as (selected & _ & Hdata).
  apply bind_ok in Hdata as (filled & _ & Hdata).
  apply bind_ok in Hdata as ([a' b'] & Hab & Hdata).
  apply bind_ok in Hdata as ([c' d'] & Hcd & [= <- <- <- <-]).
  destruct (Hwf _ _ _ Hab), (Hwf _ _ _ Hcd). repeat constructor; assumption.
Qed.

(** C8.  Merging the results of two files is key overwrite in the order of
    submission, for each of the four mappings: the merged keys are those of
    either file (those of the first, then the new ones of the second; both
    lists in full when the files share no year), and a year both files
    produce holds the value of the second file. *)
Theorem merge_last_writer_wins (a1 b1 c1 d1 a2 b2 c2 d2 : dict Z Z) :
  Forall dict_wf [a1; b1; c1; d1; a2; b2; c2; d2] ->
  exists a b c d,
    merge [(a1, b1, c1, d1); (a2, b2, c2, d2)] = (a, b, c, d)
    /\ overwritten_by a1 a2 a /\ overwritten_by b1 b2 b
    /\ overwritten_by c1 c2 c /\ overwritten_by d1 d2 d.
Proof.
  intros Hwf.
  repeat match goal with
         | H : Forall _ (_ :: _) |- _ => apply Forall_cons in H as [? H]
         end.
  unfold merge. simpl. rewrite !dict_update_empty by assumption.
  do 4 eexists. split; [reflexivity |].
  split; [| split; [| split]]; apply dict_update_overwritten; assumption.
Qed.

Lemma merge_last_writer_wins_witness :
  exists a b c d,
    merge [ ([(2005, 150)], [(2005, 1)], [(2005, 0)], [(2005, 0)]);
            ([(2005, 170); (2006, 90)], [(2005, 3); (2006, 2)],
             [(2005, 170); (2006, 0)], [(2005, 1); (2006, 0)]) ]
    = (a, b, c, d)
    /\ overwritten_by [(2005, 150)] [(2005, 170); (2006, 90)] a
    /\ overwritten_by [(2005, 1)] [(2005, 3); (2006, 2)] b
    /\ overwritten_by [(2005, 0)] [(2005, 170); (2006, 0)] c
    /\ overwritten_by [(2005, 0)] [(2005, 1); (2006, 0)] d.
Proof.
  apply merge_last_writer_wins.
  repeat (apply Forall_cons; split; [apply (bool_decide_unpack _); reflexivity |]).
  apply Forall_nil. exact I.
Defined.

(** ** The order of the years *)

Lemma keyed_get (d : dict str YearSalary.t) (k : str) (cur : YearSalary.t) :
  keyed d -> dict_get k d = Some cur -> YearSalary.param cur = k.
Proof.
  unfold keyed. induction 1 as [|[k1 v1] d Hkv _ IH]; simpl; [discriminate |].
  destruct (decide (k = k1)) as [->|_]; [| exact IH].
  intros [= <-]. exact Hkv.
Qed.

Lemma keyed_set (d : dict str YearSalary.t) (k : str) (ys : YearSalary.t) :
  keyed d -> YearSalary.param ys = k -> keyed (dict_set k ys d).
Proof.
  unfold keyed. intros Hd Hys. induction Hd as [|[k1 v1] d Hkv Hd IH]; simpl.
  - repeat constructor. exact Hys.
  - destruct (decide (k = k1)) as [->|_]; constructor; auto.
Qed.

Lemma keyed_values (d : dict str YearSalary.t) :
  keyed d -> map YearSalary.param (dict_values d) = dict_keys d.
Proof.
  unfold keyed. induction 1 as [|[k1 v1] d Hkv _ IH]; simpl; [reflexivity |].
  simpl in Hkv. rewrite Hkv. f_equal. exact IH.
Qed.

Lemma add_vacancy_ok (d d' : dict str YearSalary.t) (v : Vacancy.t) :
  Statistic.add_vacancy d v = Ok d' ->
  exists ys, d' = dict_set (Vacancy.year v) ys d
          /\ (keyed d -> YearSalary.param ys = Vacancy.year v).
Proof.
  unfold Statistic.add_vacancy, YearSalary.init, YearSalary.add_salary.
  destruct (dict_get (Vacancy.year v) d) as [cur|] eqn:Hget;
    destruct (Salary.convert_to_rubles _) as [rub|e]; simpl; try discriminate;
    intros [= <-]; eexists; (split; [reflexivity |]); simpl; intros Hd.
  - apply (keyed_get d _ _ Hd Hget).
  - reflexivity.
Qed.

Lemma foldM_add_vacancy_keys (vacancies : list Vacancy.t) (d d' : dict str YearSalary.t) :
  foldM Statistic.add_vacancy vacancies d = Ok d' ->
  keyed d ->
  keyed d'
  /\ dict_keys d'
     = dict_keys d
       ++ filter (fun k => k ∉ dict_keys d) (first_appearance (map Vacancy.year vacancies)).
Proof.
  revert d. induction vacancies as [|v vs IH]; simpl; intros d Hfold Hd.
  - injection Hfold as <-. rewrite app_nil_r. auto.
  - apply bind_ok in Hfold as (d1 & Hstep & Hfold).
    apply add_vacancy_ok in Hstep as (ys & -> & Hys).
    destruct (IH _ Hfold (keyed_set d _ ys Hd (Hys Hd))) as [Hd' Hkeys].
    split; [exact Hd' |]. rewrite Hkeys. apply dict_keys_set_then.
Qed.

Lemma foldM_add_vacancy_total (vacancies : list Vacancy.t) (d : dict str YearSalary.t) :
  Forall (fun v => known_currency v = true) vacancies ->
  exists d', foldM Statistic.add_vacancy vacancies d = Ok d'.
Proof.
  intros Hall. revert d. induction Hall as [|v vs Hv _ IH]; intros d; simpl; [eauto |].
  destruct (add_vacancy_known d v Hv) as (rub & _ & ->). simpl. apply IH.
Qed.

Lemma filter_all {A} (P : A -> Prop) `{!forall x, Decision (P x)} (l : list A) :
  (forall x, P x) -> filter P l = l.
Proof.
  intros HP. induction l as [|x l IH]; [reflexivity |].
  rewrite filter_cons_True by apply HP. f_equal. exact IH.
Qed.

Lemma convert_to_param_salary_params (vacancies : list Vacancy.t) (groups : list YearSalary.t) :
  Statistic.convert_to_param_salary vacancies = Ok groups ->
  map YearSalary.param groups = first_appearance (map Vacancy.year vacancies).
Proof.
  unfold Statistic.convert_to_param_salary. intros Hg.
  apply bind_ok in Hg as (d & Hfold & [= <-]).
  destruct (foldM_add_vacancy_keys _ _ _ Hfold) as [Hd Hkeys]; [constructor |].
  rewrite (keyed_values d Hd), Hkeys. simpl.
  apply filter_all. intros k. apply not_elem_of_nil.
Qed.

Lemma mapM_py_int `{Builtins} (l : list str) (r : list Z) :
  mapM py_int l = Ok r -> r = map int_or_0 l /\ Forall (fun y => is_ok (py_int y) = true) l.
Proof.
  revert r. induction l as [|y l IH]; simpl; intros r Hr.
  - injection Hr as <-. auto.
  - apply bind_ok in Hr as (n & Hn & Hr). apply bind_ok in Hr as (ns & Hns & [= <-]).
    destruct (IH _ Hns) as [-> Hall]. split.
    + simpl. f_equal. unfold py_int, int_or_0 in *.
      destruct (int_of_str y); simpl in Hn; congruence.
    + constructor; [rewrite Hn; reflexivity | exact Hall].
Qed.

Lemma mapM_py_int_ok `{Builtins} (l : list str) :
  Forall (fun y => is_ok (py_int y) = true) l -> mapM py_int l = Ok (map int_or_0 l).
Proof.
  induction 1 as [|y l Hy _ IH]; simpl; [reflexivity |].
  rewrite IH. unfold py_int, int_or_0 in *.
  destruct (int_of_str y); simpl in *; [reflexivity | discriminate].
Qed.

Lemma mapM_map {A B C} (f : B -> result C) (g : A -> B) (l : list A) :
  mapM f (map g l) = mapM (fun x => f (g x)) l.
Proof. induction l as [|x l IH]; simpl; [reflexivity |]. rewrite IH. reflexivity. Qed.

Lemma fst_combine {A B} (l : list A) (k : list B) :
  length l = length k -> map fst (combine l k) = l.
Proof.
  revert k. induction l as [|x l IH]; intros [|y k]; simpl; try discriminate; [reflexivity |].
  intros [= Hlen]. f_equal. apply IH, Hlen.
Qed.

Lemma dict_of_keys {K V} `{EqDecision K} (l : list (K * V)) :
  dict_keys (dict_of l) = first_appearance (map fst l).
Proof.
  unfold dict_of. rewrite dict_keys_set_all. simpl.
  apply filter_all. intros k. apply not_elem_of_nil.
Qed.

(** The keys of the two plain mappings: the integer years of the
    accumulators, in their order. *)
Lemma convert_to_dict_keys `{Builtins} (groups : list YearSalary.t) (salaries counts : dict Z Z) :
  Statistic.convert_from_param_salary_to_dict groups = Ok (salaries, counts) ->
  mapM py_int (map YearSalary.param groups) = Ok (map int_or_0 (map YearSalary.param groups))
  /\ dict_keys salaries = first_appearance (map int_or_0 (map YearSalary.param groups))
  /\ dict_keys counts = first_appearance (map int_or_0 (map YearSalary.param groups)).
Proof.
  unfold Statistic.convert_from_param_salary_to_dict. intros Hd.
  apply bind_ok in Hd as (years & Hyears & Hd).
  apply bind_ok in Hd as (means & Hmeans & Hd).
  apply bind_ok in Hd as (years' & Hyears' & [= <- <-]).
  rewrite Hyears in Hyears'. injection Hyears' as <-.
  pose proof (mapM_length _ _ _ Hmeans) as Hlen.
  rewrite <- mapM_map in Hyears.
  pose proof (mapM_length _ _ _ Hyears) as Hlen'. rewrite length_map in Hlen'.
  destruct (mapM_py_int _ _ Hyears) as [-> Hall].
  split; [apply mapM_py_int_ok, Hall |].
  rewrite !dict_of_keys, !fst_combine; [auto | |]; rewrite ?length_map in *; congruence.
Qed.

(** Gap filling only inserts entries: the accumulators it is given keep
    their years and their order. *)
Lemma alter_count_params (p : nat) (l : list YearSalary.t) :
  map YearSalary.param (alter (YearSalary.set_count_vacancies 0) p l)
  = map YearSalary.param l.
Proof.
  revert p. induction l as [|x l IH]; intros [|p]; simpl; try reflexivity.
  f_equal. apply IH.
Qed.

Lemma add_missing_year_sublist `{Builtins} (years s_years : list str)
    (param_salary filled : list YearSalary.t) (y : str) :
  Statistic.add_missing_year years s_years param_salary y = Ok filled ->
  sublist (map YearSalary.param param_salary) (map YearSalary.param filled).
Proof.
  unfold Statistic.add_missing_year, Statistic.insert_blank_year, Statistic.zero_count_at.
  destruct (bool_decide (y ∈ s_years)).
  - intros [= <-]. reflexivity.
  - intros Hstep. apply bind_ok in Hstep as (l1 & Hins & Hstep).
    apply bind_ok in Hins as (i & _ & Hins). apply bind_ok in Hins as (new & _ & [= <-]).
    apply bind_ok in Hstep as (i' & _ & Hstep).
    destruct (py_index _ i') as [p|]; [| discriminate]. injection Hstep as <-.
    rewrite alter_count_params. unfold py_insert.
    rewrite map_app. simpl. rewrite fmap_take, fmap_drop.
    rewrite <- (take_drop (py_insert_pos (length param_salary) i)
                  (map YearSalary.param param_salary)) at 1.
    apply sublist_app; [reflexivity |]. apply sublist_cons. reflexivity.
Qed.

Lemma add_missing_years_sublist `{Builtins} (selected year_salary filled : list YearSalary.t) :
  Statistic.add_missing_years selected year_salary = Ok filled ->
  sublist (map YearSalary.param selected) (map YearSalary.param filled).
Proof.
  unfold Statistic.add_missing_years.
  generalize (map YearSalary.param year_salary) at 2 as later.
  generalize (map YearSalary.param selected) at 1 as s_years.
  intros s_years later. revert selected.
  induction later as [|y later IH]; simpl; intros selected Hfold.
  - injection Hfold as <-. reflexivity.
  - apply bind_ok in Hfold as (l1 & Hstep & Hfold).
    transitivity (map YearSalary.param l1).
    + eapply add_missing_year_sublist, Hstep.
    + apply IH, Hfold.
Qed.

(** C9.  Grouping by year yields the years in the order of their first
    appearance in the records, not sorted, and the plain mappings built
    from the groups keep this order: their keys are the integer years of
    the records in the order of first appearance, down to the mappings
    [process_data] returns; gap filling only inserts entries between the
    groups it is given, which keep their order. *)
Theorem year_groups_in_order_of_first_appearance `{Builtins} (vacancies : list Vacancy.t) :
  Forall (fun v => known_currency v = true) vacancies ->
  exists groups,
    Statistic.convert_to_param_salary vacancies = Ok groups
    /\ map YearSalary.param groups = first_appearance (map Vacancy.year vacancies)
    /\ (forall salaries counts,
         Statistic.convert_from_param_salary_to_dict groups = Ok (salaries, counts) ->
         exists years,
           mapM py_int (map Vacancy.year vacancies) = Ok years
           /\ dict_keys salaries = first_appearance years
           /\ dict_keys counts = first_appearance years)
    /\ (forall profession lines year_salary year_vacancy prof_salary prof_vacancies,
         DataSet.csv_reader lines = Ok vacancies ->
         Statistic.process_data profession lines
         = Ok (year_salary, year_vacancy, prof_salary, prof_vacancies) ->
         exists years,
           mapM py_int (map Vacancy.year vacancies) = Ok years
           /\ dict_keys year_salary = first_appearance years
           /\ dict_keys year_vacancy = first_appearance years)
    /\ (forall selected filled,
         Statistic.add_missing_years selected groups = Ok filled ->
         sublist (map YearSalary.param selected) (map YearSalary.param filled)).
Proof.
  intros Hknown.
  destruct (foldM_add_vacancy_total vacancies [] Hknown) as [d Hfold].
  assert (Hg : Statistic.convert_to_param_salary vacancies = Ok (dict_values d)).
  { unfold Statistic.convert_to_param_salary. rewrite Hfold. reflexivity. }
  exists (dict_values d). split; [exact Hg |].
  pose proof (convert_to_param_salary_params _ _ Hg) as Hparams.
  split; [exact Hparams |].
  assert (Hplain : forall salaries counts,
    Statistic.convert_from_param_salary_to_dict (dict_values d) = Ok (salaries, counts) ->
    exists years,
      mapM py_int (map Vacancy.year vacancies) = Ok years
      /\ dict_keys salaries = first_appearance years
      /\ dict_keys counts = first_appearance years).
  { intros salaries counts Hdict.
    destruct (convert_to_dict_keys _ _ _ Hdict) as (Hints & Hs & Hc).
    rewrite Hparams in Hints, Hs, Hc. rewrite first_appearance_fmap in Hs, Hc.
    exists (map int_or_0 (map Vacancy.year vacancies)). split; [| auto].
    apply mapM_py_int_ok. apply mapM_py_int in Hints as [_ Hall].
    rewrite Forall_forall in *. intros y Hy. apply Hall, first_appearance_elem, Hy. }
  split; [exact Hplain |].
  split; [| intros selected filled; apply add_missing_years_sublist].
  intros profession lines ys yv ps pv Hcsv Hdata.
  unfold Statistic.process_data in Hdata. rewrite Hcsv in Hdata. cbn [bind] in Hdata.
  rewrite Hg in Hdata. cbn [bind] in Hdata.
  apply bind_ok in Hdata as (selected & _ & Hdata).
  apply bind_ok in Hdata as (filled & _ & Hdata).
  apply bind_ok in Hdata as ([ys' yv'] & Hall & Hdata).
  apply bind_ok in Hdata as ([ps' pv'] & _ & [= <- <- <- <-]).
  apply (Hplain _ _ Hall).
Qed.

Lemma year_groups_witness :
  exists groups,
    Statistic.convert_to_param_salary
      [ Vacancy.Build_t (U "a") (Salary.Build_t 1 3 (U "RUR") 2) (U "m") (U "2007-01") (U "2007");
        Vacancy.Build_t (U "b") (Salary.Build_t 1 3 (U "USD") 2) (U "m") (U "2005-01") (U "2005");
        Vacancy.Build_t (U "c") (Salary.Build_t 1 3 (U "RUR") 2) (U "m") (U "2007-02") (U "2007") ]
    = Ok groups
    /\ map YearSalary.param groups = [U "2007"; U "2005"].
Proof.
  destruct (year_groups_in_order_of_first_appearance
              [ Vacancy.Build_t (U "a") (Salary.Build_t 1 3 (U "RUR") 2) (U "m") (U "2007-01") (U "2007");
                Vacancy.Build_t (U "b") (Salary.Build_t 1 3 (U "USD") 2) (U "m") (U "2005-01") (U "2005");
                Vacancy.Build_t (U "c") (Salary.Build_t 1 3 (U "RUR") 2) (U "m") (U "2007-02") (U "2007") ])
    as (groups & Hg & Hp & _).
  - repeat constructor.
  - exists groups. split; [exact Hg | exact Hp].
Defined.

(** ** The plain mappings *)

Lemma floor_of_nonnegative (q : float) (m : Z) :
  int_of_float q = Ok m -> is_negative q = false -> floor_of_float q = Ok m.
Proof.
  unfold int_of_float, floor_of_float, is_negative.
  destruct (Prim2SF q) as [s| s| |s mant e]; try (intros; assumption).
  intros Hm ->. exact Hm.
Qed.

Lemma combine_lookup_split {A B} (ks : list A) (vs : list B) (i : nat) (k : A) (v : B) :
  ks !! i = Some k -> vs !! i = Some v ->
  combine ks vs
  = combine (take i ks) (take i vs) ++ (k, v) :: combine (drop (S i) ks) (drop (S i) vs).
Proof.
  revert ks vs. induction i as [|i IH]; intros [|k0 ks] [|v0 vs]; simpl; try discriminate.
  - intros [= ->] [= ->]. reflexivity.
  - intros Hk Hv. f_equal. apply IH; assumption.
Qed.

Lemma fst_combine_elem {A B} (ks : list A) (vs : list B) (k : A) :
  k ∈ map fst (combine ks vs) -> k ∈ ks.
Proof.
  revert vs. induction ks as [|k0 ks IH]; intros [|v0 vs]; simpl; intros Hk;
    try (apply elem_of_nil in Hk; contradiction).
  apply elem_of_cons in Hk as [->|Hk]; [left | right; eapply IH, Hk].
Qed.

(** In a dictionary comprehension over [zip(keys, values)] a key holds the
    value paired with its last occurrence. *)
Lemma dict_of_combine_last {K V} `{EqDecision K} (ks : list K) (vs : list V)
    (i : nat) (k : K) (v : V) :
  ks !! i = Some k -> vs !! i = Some v ->
  (forall j k', (i < j)%nat -> ks !! j = Some k' -> k' <> k) ->
  dict_get k (dict_of (combine ks vs)) = Some v.
Proof.
  intros Hk Hv Hlast. unfold dict_of.
  rewrite (combine_lookup_split ks vs i k v Hk Hv).
  apply dict_get_set_all_last. intros Hin.
  apply fst_combine_elem, list_elem_of_lookup in Hin as [j Hj].
  rewrite lookup_drop in Hj. apply (Hlast _ k) in Hj; [contradiction | lia].
Qed.

Lemma mean_salary_spec (v : YearSalary.t) (mean : Z) :
  Statistic.mean_salary v = Ok mean ->
  (YearSalary.count_vacancies v = 0 -> mean = 0)
  /\ (YearSalary.count_vacancies v <> 0 ->
      exists d, float_of_int (YearSalary.count_vacancies v) = Ok d
             /\ int_of_float (YearSalary.salary v / d)%float = Ok mean
             /\ (is_negative (YearSalary.salary v / d)%float = false ->
                 floor_of_float (YearSalary.salary v / d)%float = Ok mean)).
Proof.
  unfold Statistic.mean_salary, float_div_int. intros Hmean. split.
  - intros H0. rewrite H0 in Hmean. simpl in Hmean. congruence.
  - intros Hne. apply Z.eqb_neq in Hne. rewrite Hne in Hmean.
    apply bind_ok in Hmean as (q & Hq & Hmean).
    apply bind_ok in Hq as (d & Hd & [= <-]).
    exists d. split; [exact Hd |]. split; [exact Hmean |].
    apply floor_of_nonnegative, Hmean.
Qed.

(** C6, as amended.  Converting a sequence of accumulators whose years and
    means can be computed yields two mappings in which the year of an
    accumulator (the last one of that year) maps to its count and to its
    mean: 0 when the count is 0, and otherwise the sum divided by the count
    and truncated toward zero by [int], which is the integer floor when the
    quotient is not negative. *)
Theorem plain_mappings_truncate `{Builtins} (groups : list YearSalary.t) :
  Forall (fun v => is_ok (py_int (YearSalary.param v)) = true
                   /\ is_ok (Statistic.mean_salary v) = true) groups ->
  exists salaries counts,
    Statistic.convert_from_param_salary_to_dict groups = Ok (salaries, counts)
    /\ forall i v,
         groups !! i = Some v ->
         (forall j w, (i < j)%nat -> groups !! j = Some w ->
                      int_or_0 (YearSalary.param w) <> int_or_0 (YearSalary.param v)) ->
         py_int (YearSalary.param v) = Ok (int_or_0 (YearSalary.param v))
         /\ dict_get (int_or_0 (YearSalary.param v)) counts
            = Some (YearSalary.count_vacancies v)
         /\ exists mean,
              dict_get (int_or_0 (YearSalary.param v)) salaries = Some mean
              /\ (YearSalary.count_vacancies v = 0 -> mean = 0)
              /\ (YearSalary.count_vacancies v <> 0 ->
                  exists d, float_of_int (YearSalary.count_vacancies v) = Ok d
                         /\ int_of_float (YearSalary.salary v / d)%float = Ok mean
                         /\ (is_negative (YearSalary.salary v / d)%float = false ->
                             floor_of_float (YearSalary.salary v / d)%float = Ok mean)).
Proof.
  intros Hall.
  assert (Hyears : mapM (fun r => py_int (YearSalary.param r)) groups
                   = Ok (map int_or_0 (map YearSalary.param groups))).
  { rewrite <- mapM_map. apply mapM_py_int_ok.
    apply Forall_forall. intros y Hy.
    apply list_elem_of_fmap in Hy as (v & -> & Hv).
    apply (proj1 (Forall_forall _ _) Hall v Hv). }
  destruct (mapM_ok Statistic.mean_salary groups) as [means Hmeans].
  { eapply Forall_impl; [exact Hall |]. intros v [_ Hv]. exact Hv. }
  unfold Statistic.convert_from_param_salary_to_dict.
  rewrite Hyears, Hmeans. simpl.
  do 2 eexists. split; [reflexivity |]. intros i v Hv Hlast.
  assert (Hkey : map int_or_0 (map YearSalary.param groups) !! i
                 = Some (int_or_0 (YearSalary.param v))).
  { rewrite !list_lookup_fmap, Hv. reflexivity. }
  assert (Hlater : forall j k', (i < j)%nat ->
            map int_or_0 (map YearSalary.param groups) !! j = Some k' ->
            k' <> int_or_0 (YearSalary.param v)).
  { intros j k' Hij Hj. rewrite !list_lookup_fmap in Hj.
    destruct (groups !! j) as [w|] eqn:Hw; [| discriminate].
    injection Hj as <-. apply (Hlast j w Hij Hw). }
  split.
  { destruct (proj1 (Forall_forall _ _) Hall v) as [Hint _].
    - apply list_elem_of_lookup. eauto.
    - unfold py_int, int_or_0 in *. destruct (int_of_str _); [reflexivity | discriminate]. }
  split.
  { apply (dict_of_combine_last _ _ i); [exact Hkey | | exact Hlater].
    rewrite list_lookup_fmap, Hv. reflexivity. }
  destruct (mapM_lookup _ _ _ i v Hmeans Hv) as (mean & Hmean & Hi).
  exists mean. split.
  { apply (dict_of_combine_last _ _ i); [exact Hkey | exact Hi | exact Hlater]. }
  apply mean_salary_spec, Hmean.
Qed.

Lemma plain_mappings_truncate_witness :
  exists salaries counts,
    Statistic.convert_from_param_salary_to_dict sample_groups = Ok (salaries, counts)
    /\ dict_get 2007 counts = Some 2
    /\ dict_get 2007 salaries = Some 150
    /\ dict_get 2008 counts = Some 0
    /\ dict_get 2008 salaries = Some 0.
Proof.
  destruct (plain_mappings_truncate sample_groups) as (salaries & counts & Hd & _).
  - repeat constructor.
  - exists salaries, counts. split; [exact Hd |].
    injection Hd as <- <-. repeat split.
Defined.

(** C6, as stated, fails on a negative sum: one record with the bounds -100
    and -101 gives the sum -100.5, whose mean is -100 where the integer floor
    is -101. *)
Lemma mean_of_negative_sum_is_not_floor :
  Statistic.process_data (U "Programmer") lines_negative
  = Ok ([(2007, -100)], [(2007, 1)], [(2007, -100)], [(2007, 1)])
  /\ (let* data := DataSet.csv_reader lines_negative in
      Statistic.convert_to_param_salary data) = Ok [negative_group]
  /\ Statistic.convert_from_param_salary_to_dict [negative_group]
     = Ok ([(2007, -100)], [(2007, 1)])
  /\ Statistic.mean_salary negative_group = Ok (-100)
  /\ spec_mean negative_group = Ok (-101).
Proof. repeat split. Qed.

(** ** Filling the missing years *)

Lemma blank_year_ok `{Builtins} (y : str) : Statistic.blank_year y = Ok (inserted y).
Proof.
  unfold Statistic.blank_year, Salary.init, py_float. rewrite float_of_str_0.
  reflexivity.
Qed.

Lemma py_insert_pos_le (len : nat) (i : Z) : (py_insert_pos len i <= len)%nat.
Proof. unfold py_insert_pos. destruct (i <? 0) eqn:Hi; lia. Qed.

Lemma py_insert_pos_beyond (len : nat) (i : Z) :
  Z.of_nat len < i -> py_insert_pos len i = len.
Proof. intros Hi. unfold py_insert_pos. destruct (i <? 0) eqn:Hneg; lia. Qed.

Lemma py_insert_pos_negative (len : nat) (i : Z) :
  i < 0 -> Z.of_nat (py_insert_pos len i) = Z.max 0 (i + Z.of_nat len).
Proof. intros Hi. unfold py_insert_pos. destruct (i <? 0) eqn:Hneg; lia. Qed.

Lemma py_insert_pos_within (len : nat) (i : Z) :
  0 <= i <= Z.of_nat len -> Z.of_nat (py_insert_pos len i) = i.
Proof. intros Hi. unfold py_insert_pos. destruct (i <? 0) eqn:Hneg; lia. Qed.

Lemma py_insert_length {A} (i : Z) (x : A) (l : list A) :
  length (py_insert i x l) = S (length l).
Proof.
  unfold py_insert. pose proof (py_insert_pos_le (length l) i).
  rewrite length_app, length_take. simpl. rewrite length_drop. lia.
Qed.

Lemma py_insert_lookup {A} (i : Z) (x : A) (l : list A) :
  py_insert i x l !! py_insert_pos (length l) i = Some x.
Proof.
  unfold py_insert. pose proof (py_insert_pos_le (length l) i).
  rewrite lookup_app_r; rewrite length_take; [| lia].
  replace (_ - _)%nat with 0%nat by lia. reflexivity.
Qed.

Lemma py_insert_beyond {A} (i : Z) (x : A) (l : list A) :
  Z.of_nat (length l) < i -> py_insert i x l = l ++ [x].
Proof.
  intros Hi. unfold py_insert. rewrite (py_insert_pos_beyond _ _ Hi).
  rewrite firstn_all, drop_all. reflexivity.
Qed.

Lemma py_index_beyond (len : nat) (i : Z) : Z.of_nat len <= i -> py_index len i = None.
Proof.
  intros Hi. unfold py_index.
  destruct (0 <=? i) eqn:H0; destruct (i <? Z.of_nat len) eqn:H1;
    destruct (i <? 0) eqn:H2; simpl; try reflexivity; lia.
Qed.

Lemma zero_count_beyond (i : Z) (l : list YearSalary.t) :
  Z.of_nat (length l) <= i -> Statistic.zero_count_at i l = Raise IndexError.
Proof.
  intros Hi. unfold Statistic.zero_count_at. rewrite (py_index_beyond _ _ Hi). reflexivity.
Qed.

Lemma insert_blank_year_ok `{Builtins} (years : list str)
    (param_salary : list YearSalary.t) (y : str) (i : Z) :
  Statistic.year_offset years y = Ok i ->
  Statistic.insert_blank_year years param_salary y
  = Ok (py_insert i (inserted y) param_salary).
Proof.
  intros Hi. unfold Statistic.insert_blank_year. rewrite Hi, blank_year_ok. reflexivity.
Qed.

(** C5, as amended.  For a missing year the insertion goes ahead whatever the
    computed index, the code checking no bound; but the list insertion
    itself clamps the index: beyond the length of the sequence the entry is
    appended, and a negative index counts from the end and stops at the
    front, so the entry is at the computed index only when that index lies
    between 0 and the length. *)
Theorem insert_blank_year_clamps `{Builtins} (years : list str)
    (param_salary : list YearSalary.t) (y : str) (i : Z) :
  Statistic.year_offset years y = Ok i ->
  exists p filled,
    Statistic.insert_blank_year years param_salary y = Ok filled
    /\ filled = take p param_salary ++ inserted y :: drop p param_salary
    /\ length filled = S (length param_salary)
    /\ filled !! p = Some (inserted y)
    /\ (p <= length param_salary)%nat
    /\ (Z.of_nat (length param_salary) < i -> p = length param_salary)
    /\ (i < 0 -> Z.of_nat p = Z.max 0 (i + Z.of_nat (length param_salary)))
    /\ (0 <= i <= Z.of_nat (length param_salary) -> Z.of_nat p = i).
Proof.
  intros Hi. exists (py_insert_pos (length param_salary) i). eexists.
  split; [apply insert_blank_year_ok, Hi |]. split; [reflexivity |].
  split; [apply py_insert_length |]. split; [apply py_insert_lookup |].
  split; [apply py_insert_pos_le |]. split; [apply py_insert_pos_beyond |].
  split; [apply py_insert_pos_negative | apply py_insert_pos_within].
Qed.

Lemma insert_blank_year_clamps_witness :
  exists p filled,
    Statistic.insert_blank_year [U "2005"; U "2010"] [one_record "2005"] (U "2010")
    = Ok filled
    /\ filled = take p [one_record "2005"] ++ inserted (U "2010") :: drop p [one_record "2005"]
    /\ length filled = 2%nat
    /\ filled !! p = Some (inserted (U "2010"))
    /\ (p <= 1)%nat
    /\ (1 < 5 -> p = 1%nat)
    /\ (5 < 0 -> Z.of_nat p = Z.max 0 (5 + 1))
    /\ (0 <= 5 <= 1 -> Z.of_nat p = 5).
Proof.
  exact (insert_blank_year_clamps [U "2005"; U "2010"] [one_record "2005"] (U "2010") 5
           eq_refl).
Defined.

(** C5, as stated, fails: with the computed index 5 on a sequence of length 1
    the entry lands at index 1 and nothing is at index 5; with the computed
    index -2 on a sequence of length 2 it lands at index 0, which is not the
    entry the index -2 then denotes. *)
Lemma insertion_index_is_clamped :
  Statistic.year_offset [U "2005"; U "2010"] (U "2010") = Ok 5
  /\ Statistic.insert_blank_year [U "2005"; U "2010"] [one_record "2005"] (U "2010")
     = Ok [one_record "2005"; inserted (U "2010")]
  /\ [one_record "2005"; inserted (U "2010")] !! 5%nat = None
  /\ Statistic.year_offset [U "2007"; U "2006"; U "2005"] (U "2005") = Ok (-2)
  /\ Statistic.insert_blank_year [U "2007"; U "2006"; U "2005"]
       [one_record "2007"; one_record "2006"] (U "2005")
     = Ok [inserted (U "2005"); one_record "2007"; one_record "2006"]
  /\ py_index 3 (-2) = Some 1%nat.
Proof. repeat split. Qed.

Lemma add_missing_year_beyond `{Builtins} (years s_years : list str)
    (param_salary : list YearSalary.t) (y : str) (i : Z) :
  y ∉ s_years ->
  Statistic.year_offset years y = Ok i ->
  Z.of_nat (length param_salary) < i ->
  Statistic.insert_blank_year years param_salary y = Ok (param_salary ++ [inserted y])
  /\ Statistic.add_missing_year years s_years param_salary y = Raise IndexError.
Proof.
  intros Hy Hi Hlen. unfold Statistic.add_missing_year.
  rewrite (bool_decide_eq_false_2 _ Hy), (insert_blank_year_ok _ _ _ _ Hi), Hi.
  rewrite (py_insert_beyond _ _ _ Hlen). split; [reflexivity |]. simpl.
  apply zero_count_beyond. rewrite length_app. simpl. lia.
Qed.

(** C10.  [process_data] raises [IndexError] on a file all of whose rows are
    well formed and in known currencies: with records in 2005 and 2010 only
    and the profession in 2005 only, the year 2010 is missing at offset 5
    from a sequence of length 1; the insertion appends the entry, and the
    assignment that zeroes its count indexes past the end.  This is so for
    every missing year whose offset exceeds the current length. *)
Theorem process_data_raises_index_error :
  (forall (B : Builtins) years s_years param_salary y i,
      y ∉ s_years ->
      Statistic.year_offset years y = Ok i ->
      Z.of_nat (length param_salary) < i ->
      Statistic.insert_blank_year years param_salary y = Ok (param_salary ++ [inserted y])
      /\ Statistic.add_missing_year years s_years param_salary y = Raise IndexError)
  /\ exists profession headlines vacancies data,
      Forall (fun row => DataSet.well_filled headlines row = true) vacancies
      /\ DataSet.csv_reader (headlines :: vacancies) = Ok data
      /\ length data = length vacancies
      /\ Forall (fun v => known_currency v = true) data
      /\ map Vacancy.year data = [U "2005"; U "2010"]
      /\ map Vacancy.year
           (filter (fun d => str_in profession (Vacancy.name d) = true) data)
         = [U "2005"]
      /\ Statistic.process_data profession (headlines :: vacancies) = Raise IndexError.
Proof.
  split; [intros B; apply add_missing_year_beyond |].
  exists (U "Programmer"), header6, (tail lines_with_gap). eexists.
  split; [repeat constructor |]. split; [reflexivity |]. split; [reflexivity |].
  split; [repeat constructor |]. repeat split.
Qed.

Lemma add_missing_year_beyond_witness :
  Statistic.insert_blank_year [U "2005"; U "2010"] [one_record "2005"] (U "2010")
  = Ok ([one_record "2005"] ++ [inserted (U "2010")])
  /\ Statistic.add_missing_year [U "2005"; U "2010"] [U "2005"] [one_record "2005"] (U "2010")
     = Raise IndexError.
Proof.
  apply (proj1 process_data_raises_index_error dec_builtins
           [U "2005"; U "2010"] [U "2005"] [one_record "2005"] (U "2010") 5).
  - apply (bool_decide_unpack _). reflexivity.
  - reflexivity.
  - reflexivity.
Defined.

(** The example of the specification: with the years 2005, 2006, 2007 and
    the profession in 2005 and 2007, the year 2006 is filled with salary 0
    and count 0, in the order of the years. *)
Example gap_fill_contiguous :
  Statistic.process_data (U "Programmer") lines_contiguous
  = Ok ([(2005, 150); (2006, 350); (2007, 21231)], [(2005, 1); (2006, 1); (2007, 1)],
        [(2005, 150); (2006, 0); (2007, 21231)], [(2005, 1); (2006, 0); (2007, 1)]).
Proof. reflexivity. Qed.

(** C4 fails on the code.  With the years met in the order 2007, 2006, 2005
    and the profession absent from 2005, the entry of 2005 is inserted at
    the front by the index -2, and the assignment that follows zeroes the
    count of the entry of 2007 instead: 2005 keeps the count 1, and the
    profession loses its 2007 figures.  With the years 2005 and 2010 only,
    no mapping is produced at all. *)
Theorem gap_fill_breaks_off_contiguous_years :
  (let* data := DataSet.csv_reader lines_descending in
   let* year_salary := Statistic.convert_to_param_salary data in
   let* selected :=
     Statistic.convert_to_param_salary
       (filter (fun d => str_in (U "Programmer") (Vacancy.name d) = true) data) in
   Statistic.add_missing_years selected year_salary)
  = Ok [ inserted (U "2005");
         YearSalary.Build_t (U "2007") 150%float 0;
         YearSalary.Build_t (U "2006") 150%float 1 ]
  /\ Statistic.process_data (U "Programmer") lines_descending
     = Ok ([(2007, 150); (2006, 150); (2005, 350)], [(2007, 1); (2006, 1); (2005, 1)],
           [(2005, 0); (2007, 0); (2006, 150)], [(2005, 1); (2007, 0); (2006, 1)])
  /\ Statistic.process_data (U "Programmer") lines_with_gap = Raise IndexError.
Proof. repeat split. Qed.

(** *** Years in ascending order without gaps *)

Lemma find_absent (selected : list YearSalary.t) (y : str) :
  y ∉ map YearSalary.param selected ->
  find (fun p => bool_decide (YearSalary.param p = y)) selected = None.
Proof.
  induction selected as [|p rest IH]; simpl; intros Hy; [reflexivity |].
  apply not_elem_of_cons in Hy as [Hne Hy].
  rewrite bool_decide_eq_false_2 by congruence. apply IH, Hy.
Qed.

Lemma fill_years_absent (selected : list YearSalary.t) (y : str) (later : list str) :
  y ∉ map YearSalary.param selected ->
  fill_years selected (y :: later) = zero_year y :: fill_years selected later.
Proof.
  destruct selected as [|p rest]; simpl; intros Hy; [reflexivity |].
  apply not_elem_of_cons in Hy as [Hne _].
  destruct (decide (YearSalary.param p = y)); [congruence | reflexivity].
Qed.

(** A subsequence of years without repetition either starts with the first
    year or lies within the later ones. *)
Lemma sublist_head (params : list str) (y : str) (later : list str) :
  sublist params (y :: later) -> NoDup (y :: later) ->
  ((y ∉ params) /\ sublist params later)
  \/ exists rest, params = y :: rest /\ (y ∉ rest) /\ sublist rest later.
Proof.
  intros Hsub Hnd. apply NoDup_cons in Hnd as [Hy _].
  apply sublist_cons_r in Hsub as [Hsub|(rest & -> & Hsub)].
  - left. split; [| exact Hsub]. intros Hin. apply Hy.
    eapply elem_of_sublist; eassumption.
  - right. exists rest. split; [reflexivity |]. split; [| exact Hsub].
    intros Hin. apply Hy. eapply elem_of_sublist; eassumption.
Qed.

Lemma fill_years_lookup (selected : list YearSalary.t) (years : list str) :
  sublist (map YearSalary.param selected) years -> NoDup years ->
  map YearSalary.param (fill_years selected years) = years
  /\ forall k y, years !! k = Some y ->
       fill_years selected years !! k = Some (entry_of selected y).
Proof.
  revert selected. induction years as [|y0 later IH]; intros selected Hsub Hnd.
  - apply sublist_nil_r, map_eq_nil in Hsub. subst. split; [reflexivity |].
    intros k y Hk. discriminate.
  - pose proof (NoDup_cons_1_2 _ _ Hnd) as Hnd'.
    destruct (sublist_head _ _ _ Hsub Hnd) as [[Hy0 Hsub']|(rest & Heq & Hy0 & Hsub')].
    + rewrite (fill_years_absent _ _ _ Hy0).
      destruct (IH selected Hsub' Hnd') as [Hparams Hlook]. split.
      * simpl. rewrite Hparams. reflexivity.
      * intros [|k] y Hk; simpl in *.
        -- injection Hk as <-. unfold entry_of. rewrite (find_absent _ _ Hy0). reflexivity.
        -- apply Hlook, Hk.
    + destruct selected as [|p selected']; [discriminate |]. simpl in Heq.
      injection Heq as Hp Hrest. subst rest. simpl.
      destruct (decide (YearSalary.param p = y0)) as [_|Hne]; [| contradiction].
      destruct (IH selected' Hsub' Hnd') as [Hparams Hlook]. split.
      * simpl. rewrite Hparams, Hp. reflexivity.
      * intros [|k] y Hk; simpl in *.
        -- injection Hk as <-. unfold entry_of. simpl.
           rewrite bool_decide_eq_true_2 by exact Hp. reflexivity.
        -- rewrite (Hlook k y Hk). unfold entry_of. simpl.
           rewrite bool_decide_eq_false_2; [reflexivity |].
           intros Heq. apply NoDup_cons in Hnd as [Hout _]. apply Hout.
           rewrite <- Hp, Heq. apply list_elem_of_lookup. eauto.
Qed.

Lemma zero_count_at_middle (done rest : list YearSalary.t) (y : str) :
  Statistic.zero_count_at (Z.of_nat (length done)) (done ++ inserted y :: rest)
  = Ok (done ++ zero_year y :: rest).
Proof.
  unfold Statistic.zero_count_at, py_index. rewrite length_app. simpl.
  rewrite (proj2 (Z.leb_le 0 _)) by lia.
  rewrite (proj2 (Z.ltb_lt _ _)) by lia.
  simpl. rewrite Nat2Z.id.
  rewrite alter_app_r_alt by lia. replace (_ - _)%nat with 0%nat by lia. reflexivity.
Qed.

Lemma py_insert_middle {A} (done rest : list A) (x : A) :
  py_insert (Z.of_nat (length done)) x (done ++ rest) = done ++ x :: rest.
Proof.
  unfold py_insert. rewrite <- (Nat2Z.id (py_insert_pos _ _)).
  rewrite py_insert_pos_within by (rewrite length_app; lia).
  rewrite Nat2Z.id, take_app_length, drop_app_length. reflexivity.
Qed.

(** The loop, from the state [done ++ rest]: [done] holds the entries of
    the years gone through, [rest] the accumulators of the years to come. *)
Lemma add_missing_years_from `{Builtins} (years s_years later : list str)
    (done rest : list YearSalary.t) :
  NoDup later ->
  sublist (map YearSalary.param rest) later ->
  (forall y, y ∈ later -> (y ∈ s_years <-> y ∈ map YearSalary.param rest)) ->
  (forall j y, later !! j = Some y ->
     Statistic.year_offset years y = Ok (Z.of_nat (length done + j))) ->
  foldM (Statistic.add_missing_year years s_years) later (done ++ rest)
  = Ok (done ++ fill_years rest later).
Proof.
  revert done rest. induction later as [|y later IH]; intros done rest Hnd Hsub Hin Hoff.
  - reflexivity.
  - pose proof (NoDup_cons_1_2 _ _ Hnd) as Hnd'.
    pose proof (NoDup_cons_1_1 _ _ Hnd) as Hy.
    assert (Hoff' : forall z, forall j y', later !! j = Some y' ->
              Statistic.year_offset years y'
              = Ok (Z.of_nat (length (done ++ [z]) + j))).
    { intros z j y' Hj. rewrite (Hoff (S j) y' Hj), length_app. simpl. do 2 f_equal. lia. }
    simpl foldM. unfold Statistic.add_missing_year at 1.
    destruct (sublist_head _ _ _ Hsub Hnd) as [[Hy0 Hsub']|(ps & Heq & Hy0 & Hsub')].
    + rewrite bool_decide_eq_false_2
        by (intros Hs; apply Hy0, (Hin y); [left | exact Hs]).
      pose proof (Hoff 0%nat y eq_refl) as Hi. rewrite Nat.add_0_r in Hi.
      rewrite (insert_blank_year_ok _ _ _ _ Hi), Hi. cbn [bind].
      rewrite py_insert_middle, zero_count_at_middle. cbn [bind].
      rewrite (fill_years_absent _ _ _ Hy0).
      change (done ++ zero_year y :: rest) with (done ++ [zero_year y] ++ rest).
      rewrite app_assoc, IH; [rewrite <- app_assoc; reflexivity | | | |]; auto.
      intros z Hz. apply Hin. right. exact Hz.
    + destruct rest as [|p rest']; [discriminate |]. simpl in Heq.
      injection Heq as Hp Hps. subst ps.
      rewrite bool_decide_eq_true_2 by (apply (Hin y); [left | simpl; rewrite Hp; left]).
      simpl. destruct (decide (YearSalary.param p = y)) as [_|Hne]; [| contradiction].
      change (done ++ p :: rest') with (done ++ [p] ++ rest').
      rewrite app_assoc, IH; [rewrite <- app_assoc; reflexivity | | | |]; auto.
      intros z Hz. rewrite (Hin z) by (right; exact Hz). simpl.
      rewrite elem_of_cons. split; [| tauto].
      intros [->|Hzr]; [| exact Hzr]. rewrite Hp in Hz. contradiction.
Qed.

(** X17.  When the years of the file are met in ascending order without gaps
    (the reference year at position [k] reads [first + k]) and the selected
    accumulators follow that order, the gap filling returns, aligned with
    the reference years: position [k] holds the accumulator of the
    profession for that year, or salary 0 and count 0. *)
Theorem add_missing_years_contiguous `{Builtins} (first : Z)
    (selected year_salary : list YearSalary.t) :
  (forall k y, map YearSalary.param year_salary !! k = Some y ->
               py_int y = Ok (first + Z.of_nat k)) ->
  sublist (map YearSalary.param selected) (map YearSalary.param year_salary) ->
  exists filled,
    Statistic.add_missing_years selected year_salary = Ok filled
    /\ map YearSalary.param filled = map YearSalary.param year_salary
    /\ forall k y, map YearSalary.param year_salary !! k = Some y ->
         filled !! k = Some (entry_of selected y).
Proof.
  intros Hint Hsub. set (years := map YearSalary.param year_salary) in *.
  assert (Hnd : NoDup years).
  { apply NoDup_alt. intros i j y Hi Hj.
    pose proof (Hint i y Hi) as Ei. rewrite (Hint j y Hj) in Ei.
    injection Ei as Ei. lia. }
  assert (Hoff : forall j y, years !! j = Some y ->
            Statistic.year_offset years y = Ok (Z.of_nat j)).
  { intros j y Hj. unfold Statistic.year_offset. rewrite (Hint j y Hj). simpl.
    destruct years as [|y0 later] eqn:Hyears; [discriminate |]. simpl.
    rewrite (Hint 0%nat y0 eq_refl). simpl. f_equal. lia. }
  exists (fill_years selected years). split.
  - unfold Statistic.add_missing_years. fold years.
    apply (add_missing_years_from years _ years [] selected Hnd Hsub).
    + intros y _. reflexivity.
    + intros j y Hj. apply Hoff, Hj.
  - apply fill_years_lookup; assumption.
Qed.

Lemma add_missing_years_contiguous_witness :
  exists filled,
    Statistic.add_missing_years [one_record "2005"; one_record "2007"]
      [one_record "2005"; one_record "2006"; one_record "2007"] = Ok filled
    /\ map YearSalary.param filled = [U "2005"; U "2006"; U "2007"]
    /\ forall k y, [U "2005"; U "2006"; U "2007"] !! k = Some y ->
         filled !! k = Some (entry_of [one_record "2005"; one_record "2007"] y).
Proof.
  apply (add_missing_years_contiguous 2005).
  - intros [|[|[|k]]] y Hk; try discriminate; injection Hk as <-; reflexivity.
  - apply sublist_skip, sublist_cons, sublist_skip, sublist_nil.
Defined.

(** ** Cleaning the fields *)

Lemma split_from_words (w s : str) :
  Forall (fun c => isspace c = false) w ->
  Forall (Forall (fun c => isspace c = false)) (split_from w s).
Proof.
  revert w. induction s as [|c r IH]; intros w Hw; simpl.
  - destruct w; [constructor | constructor; [exact Hw | constructor]].
  - destruct (isspace c) eqn:Hc.
    + destruct w as [|c0 w]; [apply IH; constructor |].
      constructor; [exact Hw | apply IH; constructor].
    + apply IH. apply Forall_app. split; [exact Hw | repeat constructor; exact Hc].
Qed.

Lemma join_elem (c : char) (sep : str) (words : list str) :
  c ∈ join sep words -> c ∈ sep \/ exists w, w ∈ words /\ c ∈ w.
Proof.
  induction words as [|w ws IH]; simpl; intros Hc.
  - apply elem_of_nil in Hc. contradiction.
  - destruct ws as [|w' ws].
    + right. exists w. split; [left | exact Hc].
    + apply elem_of_app in Hc as [Hc|Hc]; [right; exists w; split; [left | exact Hc] |].
      apply elem_of_app in Hc as [Hc|Hc]; [left; exact Hc |].
      destruct (IH Hc) as [Hsep|(w0 & Hw0 & Hc0)]; [left; exact Hsep |].
      right. exists w0. split; [right; exact Hw0 | exact Hc0].
Qed.

(** A cleaned field has no white space but single spaces: no newline. *)
Lemma clean_field_no_newline (value : str) : char_nl ∉ clean_field value.
Proof.
  unfold clean_field, split. intros Hin.
  apply join_elem in Hin as [Hsep|(w & Hw & Hc)].
  - apply list_elem_of_singleton in Hsep. discriminate.
  - pose proof (split_from_words [] (replace char_nl (U "; ") (re_sub_tags value))
                  (Forall_nil_2 _)) as Hwords.
    rewrite Forall_forall in Hwords. specialize (Hwords w Hw).
    rewrite Forall_forall in Hwords. specialize (Hwords _ Hc). discriminate.
Qed.

Lemma drop_elem {A} (x : A) (n : nat) (l : list A) : x ∈ drop n l -> x ∈ l.
Proof.
  intros Hx. apply list_elem_of_lookup in Hx as [j Hj]. rewrite lookup_drop in Hj.
  apply list_elem_of_lookup. eauto.
Qed.

(** The substitution only removes characters. *)
Lemma re_sub_tags_elem (c : char) (s : str) : c ∈ re_sub_tags s -> c ∈ s.
Proof.
  funelim (re_sub_tags s); intros Hc.
  - exact Hc.
  - right. eapply drop_elem, H, Hc.
  - apply elem_of_cons in Hc as [->|Hc]; [left | right; auto].
  - apply elem_of_cons in Hc as [->|Hc]; [left | right; auto].
Qed.

Lemma tag_end_None (s : str) : char_nl ∉ s -> tag_end s = None -> char_gt ∉ s.
Proof.
  induction s as [|c r IH]; simpl; intros Hnl Hend; [apply not_elem_of_nil |].
  apply not_elem_of_cons in Hnl as [Hc Hnl].
  destruct (c =? char_gt)%N eqn:Hgt; [discriminate |].
  destruct (c =? char_nl)%N eqn:Hcnl; [apply N.eqb_eq in Hcnl; congruence |].
  destruct (tag_end r); [discriminate |].
  apply not_elem_of_cons. split; [| apply IH; auto].
  apply N.eqb_neq in Hgt. congruence.
Qed.

(** On a field of one line the substitution leaves no tag. *)
Lemma re_sub_tags_no_tag (s : str) : char_nl ∉ s -> has_tag (re_sub_tags s) = false.
Proof.
  funelim (re_sub_tags s); intros Hnl.
  - reflexivity.
  - apply H. intros Hin. apply Hnl. right. eapply drop_elem, Hin.
  - apply not_elem_of_cons in Hnl as [_ Hnl]. simpl.
    rewrite (H Hnl), orb_false_r. apply andb_false_iff. right.
    apply bool_decide_eq_false. intros Hgt.
    apply re_sub_tags_elem in Hgt. revert Hgt. apply tag_end_None; assumption.
  - apply not_elem_of_cons in Hnl as [_ Hnl]. simpl.
    rewrite (H Hnl), orb_false_r. apply andb_false_iff. left. exact Heq.
Qed.

Lemma replace_absent (old : char) (new s : str) : old ∉ s -> replace old new s = s.
Proof.
  unfold replace. induction s as [|c r IH]; simpl; intros Hold; [reflexivity |].
  apply not_elem_of_cons in Hold as [Hc Hold].
  destruct (c =? old)%N eqn:Heq; [apply N.eqb_eq in Heq; congruence |].
  simpl. f_equal. apply IH, Hold.
Qed.

Lemma angles_elem (c : char) (s : str) :
  c = char_lt \/ c = char_gt -> (c ∈ angles s <-> c ∈ s).
Proof. intros Hc. unfold angles. rewrite list_elem_of_filter. tauto. Qed.

(** Whether a string has a tag depends on its angle brackets only. *)
Lemma has_tag_angles (s : str) : has_tag (angles s) = has_tag s.
Proof.
  unfold angles. induction s as [|c r IH]; [reflexivity |].
  rewrite filter_cons. destruct (decide (c = char_lt \/ c = char_gt)) as [Hc|Hc]; simpl.
  - rewrite IH. do 2 f_equal. apply bool_decide_ext.
    apply (angles_elem char_gt r). right. reflexivity.
  - rewrite IH. destruct (c =? char_lt)%N eqn:Hlt; [| reflexivity].
    apply N.eqb_eq in Hlt. tauto.
Qed.

Lemma angles_app (a b : str) : angles (a ++ b) = angles a ++ angles b.
Proof. apply filter_app. Qed.

Lemma angles_space (c : char) : isspace c = true -> angles [c] = [].
Proof.
  intros Hc. unfold angles. rewrite filter_cons_False; [reflexivity |].
  intros [->| ->]; discriminate.
Qed.

Lemma angles_join (words : list str) :
  angles (join [char_sp] words) = angles (concat words).
Proof.
  induction words as [|w ws IH]; [reflexivity |].
  destruct ws as [|w' ws]; [simpl; rewrite app_nil_r; reflexivity |].
  change (join [char_sp] (w :: w' :: ws))
    with (w ++ [char_sp] ++ join [char_sp] (w' :: ws)).
  change (concat (w :: w' :: ws)) with (w ++ concat (w' :: ws)).
  rewrite !angles_app, IH, (angles_space char_sp) by reflexivity. reflexivity.
Qed.

Lemma angles_split_from (w s : str) :
  angles (concat (split_from w s)) = angles (w ++ s).
Proof.
  revert w. induction s as [|c r IH]; intros w; simpl.
  - destruct w; simpl; rewrite ?app_nil_r; reflexivity.
  - destruct (isspace c) eqn:Hc.
    + change (c :: r) with ([c] ++ r). rewrite !angles_app, (angles_space c Hc). simpl.
      destruct w as [|c0 w].
      * rewrite IH. reflexivity.
      * change (concat ((c0 :: w) :: split_from [] r))
          with ((c0 :: w) ++ concat (split_from [] r)).
        rewrite angles_app, IH. reflexivity.
    + rewrite IH, <- app_assoc. reflexivity.
Qed.

(** X18.  The defect of C3 is confined to tags broken over several lines:
    a field of one line is cleaned of every tag. *)
Lemma clean_field_no_tag_one_line (value : str) :
  char_nl ∉ value -> has_tag (clean_field value) = false.
Proof.
  intros Hnl. unfold clean_field, split.
  rewrite replace_absent by (intros Hin; apply Hnl, re_sub_tags_elem, Hin).
  rewrite <- has_tag_angles, angles_join, angles_split_from. simpl.
  rewrite has_tag_angles. apply re_sub_tags_no_tag, Hnl.
Qed.

(** C3 fails on the code.  The pattern [<.*?>] does not match across a
    newline, so a tag broken over two lines stays, and the replacement of
    the newline then leaves the tag-like [<a; b>] in the cleaned field, down
    to the record built from the row. *)
Theorem clean_field_keeps_two_line_tag :
  re_sub_tags two_line_tag = two_line_tag
  /\ clean_field two_line_tag = U "<a; b>"
  /\ has_tag (clean_field two_line_tag) = true
  /\ exists v,
      DataSet.process_vacancies header6
        [ [two_line_tag; U "100"; U "200"; U "RUR"; U "Moscow"; U "2007-12-03"] ]
      = Ok [v]
      /\ Vacancy.name v = U "<a; b>".
Proof.
  split; [reflexivity |]. split; [reflexivity |]. split; [reflexivity |].
  eexists. split; reflexivity.
Qed.


(** * Further properties *)

(** ** The shape of a cleaned field *)

Lemma split_from_nonempty (w s : str) :
  Forall (fun x : str => x <> []) (split_from w s).
Proof.
  revert w. induction s as [|c r IH]; intros w; simpl.
  - destruct w; repeat constructor. discriminate.
  - destruct (isspace c).
    + destruct w; [apply IH | constructor; [discriminate | apply IH]].
    + apply IH.
Qed.

Lemma has_double_space_word (w r : str) :
  Forall (fun c => isspace c = false) w ->
  has_double_space (w ++ r) = has_double_space r.
Proof.
  induction 1 as [|a w Ha _ IH]; [reflexivity |].
  simpl. destruct (w ++ r) eqn:Hwr.
  - destruct w; [simpl in Hwr; subst; reflexivity | discriminate].
  - rewrite Ha. simpl. exact IH.
Qed.

(** The words of a cleaned field: not empty, without white space. *)
Lemma clean_field_words (value : str) :
  exists words,
    clean_field value = join [char_sp] words
    /\ Forall (fun w : str => w <> [] /\ Forall (fun c => isspace c = false) w) words.
Proof.
  eexists. split; [reflexivity |]. unfold split.
  apply Forall_and. split; [apply split_from_nonempty |].
  apply split_from_words. constructor.
Qed.

Lemma join_words_shape (words : list str) :
  Forall (fun w : str => w <> [] /\ Forall (fun c => isspace c = false) w) words ->
  (forall c, head (join [char_sp] words) = Some c -> isspace c = false)
  /\ (forall c, last (join [char_sp] words) = Some c -> isspace c = false)
  /\ has_double_space (join [char_sp] words) = false.
Proof.
  induction 1 as [|w ws [Hne Hw] Hws (IHh & IHl & IHd)].
  - repeat split; discriminate.
  - destruct ws as [|w' ws].
    + simpl. split; [| split].
      * intros c Hc. destruct w as [|a w]; [discriminate |].
        injection Hc as <-. apply (Forall_inv Hw).
      * intros c Hc. apply last_Some in Hc as [l' ->].
        apply Forall_app in Hw as [_ Hw]. apply (Forall_inv Hw).
      * rewrite <- (app_nil_r w). apply has_double_space_word, Hw.
    + change (join [char_sp] (w :: w' :: ws))
        with (w ++ char_sp :: join [char_sp] (w' :: ws)).
      split; [| split].
      * intros c Hc. destruct w as [|a w]; [contradiction |].
        injection Hc as <-. apply (Forall_inv Hw).
      * intros c Hc. apply IHl.
        destruct (join [char_sp] (w' :: ws)) as [|b rest] eqn:Hj.
        -- exfalso. apply Forall_inv in Hws as [Hw' _].
           destruct w' as [|x w']; [contradiction |].
           destruct ws; simpl in Hj; discriminate.
        -- rewrite last_app_cons, last_cons_cons in Hc. exact Hc.
      * rewrite (has_double_space_word _ _ Hw).
        destruct (join [char_sp] (w' :: ws)) as [|b rest] eqn:Hj; [reflexivity |].
        change (has_double_space (char_sp :: b :: rest))
          with (isspace char_sp && isspace b || has_double_space (b :: rest)).
        rewrite IHd, (IHh b eq_refl). reflexivity.
Qed.

(** X1.  A cleaned field is single spaced: its only white space is the
    plain space, it neither starts nor ends with white space, and it has no
    two white-space characters in a row. *)
Theorem clean_field_single_spaced (value : str) :
  (forall c, c ∈ clean_field value -> isspace c = true -> c = char_sp)
  /\ (forall c, head (clean_field value) = Some c -> isspace c = false)
  /\ (forall c, last (clean_field value) = Some c -> isspace c = false)
  /\ has_double_space (clean_field value) = false.
Proof.
  destruct (clean_field_words value) as (words & -> & Hwords). split.
  - intros c Hc Hsp. apply join_elem in Hc as [Hc|(w & Hw & Hc)].
    + apply list_elem_of_singleton in Hc. exact Hc.
    + rewrite Forall_forall in Hwords. destruct (Hwords w Hw) as [_ Hfree].
      rewrite Forall_forall in Hfree. rewrite (Hfree c Hc) in Hsp. discriminate.
  - apply join_words_shape, Hwords.
Qed.

Lemma clean_field_single_spaced_witness :
  clean_field (U "  a  b ") = U "a b"
  /\ has_double_space (clean_field (U "  a  b ")) = false.
Proof.
  split; [reflexivity |].
  exact (proj2 (proj2 (proj2 (clean_field_single_spaced (U "  a  b "))))).
Defined.

Lemma clean_field_one_line_witness :
  has_tag (clean_field (U "<b>bold</b> and <i>more")) = false.
Proof.
  apply clean_field_no_tag_one_line. apply (bool_decide_unpack _). reflexivity.
Defined.

(** ** The counts of the groups *)

Lemma dict_get_elem {K V} `{EqDecision K} (d : dict K V) (k : K) (v : V) :
  dict_wf d -> (k, v) ∈ d -> dict_get k d = Some v.
Proof.
  unfold dict_wf. induction d as [|[k1 v1] d IH]; simpl; intros Hwf Hin.
  - apply elem_of_nil in Hin. contradiction.
  - apply NoDup_cons in Hwf as [Hk1 Hwf].
    apply elem_of_cons in Hin as [[= -> ->]|Hin].
    + rewrite decide_True by reflexivity. reflexivity.
    + destruct (decide (k = k1)) as [->|_]; [| apply IH; assumption].
      exfalso. apply Hk1. apply list_elem_of_fmap. exists (k1, v). auto.
Qed.

Lemma add_vacancy_count (d d' : dict str YearSalary.t) (v : Vacancy.t) :
  Statistic.add_vacancy d v = Ok d' ->
  exists ys, d' = dict_set (Vacancy.year v) ys d
          /\ YearSalary.count_vacancies ys = count_under (Vacancy.year v) d + 1.
Proof.
  unfold Statistic.add_vacancy, YearSalary.init, YearSalary.add_salary, count_under.
  destruct (dict_get (Vacancy.year v) d) as [cur|];
    destruct (Salary.convert_to_rubles _) as [rub|e]; simpl; try discriminate;
    intros [= <-]; eexists; split; reflexivity.
Qed.

Lemma count_under_set (k k' : str) (ys : YearSalary.t) (d : dict str YearSalary.t) :
  count_under k (dict_set k' ys d)
  = if decide (k = k') then YearSalary.count_vacancies ys else count_under k d.
Proof. unfold count_under. rewrite dict_get_set. destruct (decide (k = k')); reflexivity. Qed.

Lemma foldM_add_vacancy_count (vacancies : list Vacancy.t) (d d' : dict str YearSalary.t) :
  foldM Statistic.add_vacancy vacancies d = Ok d' ->
  forall k, count_under k d' = count_under k d + records_of k vacancies.
Proof.
  unfold records_of. revert d.
  induction vacancies as [|v vs IH]; simpl; intros d Hfold k.
  - injection Hfold as <-. lia.
  - apply bind_ok in Hfold as (d1 & Hstep & Hfold).
    apply add_vacancy_count in Hstep as (ys & -> & Hys).
    rewrite (IH _ Hfold k), count_under_set, filter_cons.
    destruct (decide (k = Vacancy.year v)) as [->|Hne].
    + rewrite decide_True by reflexivity. simpl length. lia.
    + rewrite decide_False by congruence. lia.
Qed.

Lemma total_count_set (k : str) (ys : YearSalary.t) (d : dict str YearSalary.t) :
  total_count (dict_values (dict_set k ys d))
  = total_count (dict_values d) - count_under k d + YearSalary.count_vacancies ys.
Proof.
  unfold count_under. induction d as [|[k1 g1] d IH]; simpl; [lia |].
  destruct (decide (k = k1)) as [->|Hne]; simpl; [lia |]. rewrite IH. lia.
Qed.

Lemma foldM_add_vacancy_total_count (vacancies : list Vacancy.t)
    (d d' : dict str YearSalary.t) :
  foldM Statistic.add_vacancy vacancies d = Ok d' ->
  total_count (dict_values d') = total_count (dict_values d) + Z.of_nat (length vacancies).
Proof.
  revert d. induction vacancies as [|v vs IH]; simpl; intros d Hfold.
  - injection Hfold as <-. lia.
  - apply bind_ok in Hfold as (d1 & Hstep & Hfold).
    apply add_vacancy_count in Hstep as (ys & -> & Hys).
    rewrite (IH _ Hfold), total_count_set. lia.
Qed.

(** The groups of a record list, seen through the dictionary of the loop. *)
Lemma convert_to_param_salary_dict (vacancies : list Vacancy.t) (groups : list YearSalary.t) :
  Statistic.convert_to_param_salary vacancies = Ok groups ->
  exists d, foldM Statistic.add_vacancy vacancies [] = Ok d
         /\ groups = dict_values d /\ keyed d /\ dict_wf d
         /\ dict_keys d = first_appearance (map Vacancy.year vacancies).
Proof.
  unfold Statistic.convert_to_param_salary. intros Hg.
  apply bind_ok in Hg as (d & Hfold & [= <-]). exists d.
  destruct (foldM_add_vacancy_keys _ _ _ Hfold) as [Hd Hkeys]; [constructor |].
  simpl in Hkeys. rewrite filter_all in Hkeys by (intros k; apply not_elem_of_nil).
  repeat split; try assumption.
  unfold dict_wf. rewrite Hkeys. apply first_appearance_NoDup.
Qed.

Lemma group_count (vacancies : list Vacancy.t) (groups : list YearSalary.t) (g : YearSalary.t) :
  Statistic.convert_to_param_salary vacancies = Ok groups ->
  g ∈ groups ->
  YearSalary.param g ∈ map Vacancy.year vacancies
  /\ YearSalary.count_vacancies g = records_of (YearSalary.param g) vacancies.
Proof.
  intros Hg Hin.
  destruct (convert_to_param_salary_dict _ _ Hg) as (d & Hfold & -> & Hkeyed & Hwf & Hkeys).
  apply list_elem_of_fmap in Hin as ([k g'] & -> & Hkg). simpl.
  assert (Hk : YearSalary.param g' = k).
  { unfold keyed in Hkeyed. rewrite Forall_forall in Hkeyed. apply (Hkeyed _ Hkg). }
  rewrite Hk. split.
  - apply first_appearance_elem. rewrite <- Hkeys.
    apply list_elem_of_fmap. exists (k, g'). auto.
  - pose proof (foldM_add_vacancy_count _ _ _ Hfold k) as Hcount.
    unfold count_under in Hcount at 1 2.
    rewrite (dict_get_elem d k g' Hwf Hkg) in Hcount. simpl in Hcount. lia.
Qed.

Lemma records_of_pos (y : str) (vacancies : list Vacancy.t) :
  y ∈ map Vacancy.year vacancies -> 1 <= records_of y vacancies.
Proof.
  intros Hy. apply list_elem_of_fmap in Hy as (v & -> & Hv). unfold records_of.
  assert (Hin : v ∈ filter (fun v0 => Vacancy.year v0 = Vacancy.year v) vacancies)
    by (apply list_elem_of_filter; auto).
  destruct (filter _ vacancies); [apply elem_of_nil in Hin; contradiction | simpl; lia].
Qed.

(** X2.  In the groups of a record list no year comes twice, the count of
    a group is the number of records of its year, at least 1, and the
    counts add up to the number of records. *)
Theorem group_counts_are_record_counts (vacancies : list Vacancy.t)
    (groups : list YearSalary.t) :
  Statistic.convert_to_param_salary vacancies = Ok groups ->
  NoDup (map YearSalary.param groups)
  /\ (forall g, g ∈ groups ->
        YearSalary.count_vacancies g = records_of (YearSalary.param g) vacancies
        /\ 1 <= YearSalary.count_vacancies g)
  /\ total_count groups = Z.of_nat (length vacancies).
Proof.
  intros Hg. split; [| split].
  - rewrite (convert_to_param_salary_params _ _ Hg). apply first_appearance_NoDup.
  - intros g Hin. destruct (group_count _ _ g Hg Hin) as [Hy Hcount].
    split; [exact Hcount |]. rewrite Hcount. apply records_of_pos, Hy.
  - destruct (convert_to_param_salary_dict _ _ Hg) as (d & Hfold & -> & _).
    rewrite (foldM_add_vacancy_total_count _ _ _ Hfold). reflexivity.
Qed.

Lemma group_counts_witness :
  NoDup (map YearSalary.param [one_record "2007"])
  /\ (forall g, g ∈ [one_record "2007"] ->
        YearSalary.count_vacancies g
        = records_of (YearSalary.param g)
            [Vacancy.Build_t (U "a") (Salary.Build_t 100 200 (U "RUR") 150)
               (U "m") (U "2007-01") (U "2007")]
        /\ 1 <= YearSalary.count_vacancies g)
  /\ total_count [one_record "2007"] = Z.of_nat 1.
Proof.
  exact (group_counts_are_record_counts
           [Vacancy.Build_t (U "a") (Salary.Build_t 100 200 (U "RUR") 150)
              (U "m") (U "2007-01") (U "2007")]
           [one_record "2007"] eq_refl).
Defined.

Lemma convert_to_param_salary_known (vacancies : list Vacancy.t) (groups : list YearSalary.t) :
  Statistic.convert_to_param_salary vacancies = Ok groups ->
  Forall (fun v => known_currency v = true) vacancies.
Proof.
  intros Hg. destruct (existsb (fun v => negb (known_currency v)) vacancies) eqn:Hex.
  - rewrite (convert_to_param_salary_unknown _ Hex) in Hg. discriminate.
  - apply Forall_forall. intros v Hv.
    destruct (known_currency v) eqn:Hk; [reflexivity |].
    assert (Htrue : existsb (fun v => negb (known_currency v)) vacancies = true).
    { apply existsb_exists. exists v. split; [apply list_elem_of_In, Hv |].
      rewrite Hk. reflexivity. }
    congruence.
Qed.

Lemma convert_to_param_salary_total (vacancies : list Vacancy.t) :
  Forall (fun v => known_currency v = true) vacancies ->
  exists groups, Statistic.convert_to_param_salary vacancies = Ok groups.
Proof.
  intros Hall. destruct (foldM_add_vacancy_total vacancies [] Hall) as [d Hd].
  unfold Statistic.convert_to_param_salary. rewrite Hd. simpl. eauto.
Qed.

Lemma records_of_filter (P : Vacancy.t -> Prop) `{!forall v, Decision (P v)}
    (y : str) (vacancies : list Vacancy.t) :
  records_of y (filter P vacancies) <= records_of y vacancies.
Proof.
  unfold records_of. apply inj_le.
  rewrite list_filter_filter.
  rewrite (list_filter_iff _ (fun v => P v /\ Vacancy.year v = y)) by tauto.
  rewrite <- list_filter_filter. apply length_filter.
Qed.

(** X3.  When the records group without error, so do the records of the
    profession, and every group of the profession belongs to a year of the
    whole file whose group counts at least as many records. *)
Theorem profession_groups_within_all (profession : str)
    (data : list Vacancy.t) (groups : list YearSalary.t) :
  Statistic.convert_to_param_salary data = Ok groups ->
  exists selected,
    Statistic.convert_to_param_salary
      (filter (fun d => str_in profession (Vacancy.name d) = true) data) = Ok selected
    /\ forall s, s ∈ selected ->
         1 <= YearSalary.count_vacancies s
         /\ exists g, g ∈ groups
                   /\ YearSalary.param g = YearSalary.param s
                   /\ YearSalary.count_vacancies s <= YearSalary.count_vacancies g.
Proof.
  intros Hg. set (P := fun d => str_in profession (Vacancy.name d) = true).
  destruct (convert_to_param_salary_total (filter P data)) as [selected Hs].
  { apply Forall_forall. intros v Hv. apply list_elem_of_filter in Hv as [_ Hv].
    pose proof (convert_to_param_salary_known _ _ Hg) as Hall.
    rewrite Forall_forall in Hall. apply Hall, Hv. }
  exists selected. split; [exact Hs |]. intros s Hin.
  destruct (group_count _ _ s Hs Hin) as [Hy Hcount].
  split; [rewrite Hcount; apply records_of_pos, Hy |].
  assert (Hy' : YearSalary.param s ∈ map YearSalary.param groups).
  { rewrite (convert_to_param_salary_params _ _ Hg). apply first_appearance_elem.
    apply list_elem_of_fmap in Hy as (v & Hv & Hin').
    apply list_elem_of_filter in Hin' as [_ Hin'].
    apply list_elem_of_fmap. exists v. auto. }
  apply list_elem_of_fmap in Hy' as (g & Hparam & Hgin).
  exists g. split; [exact Hgin |]. split; [symmetry; exact Hparam |].
  destruct (group_count _ _ g Hg Hgin) as [_ Hgcount].
  rewrite Hcount, Hgcount, <- Hparam. apply records_of_filter.
Qed.

Lemma profession_groups_witness :
  exists selected,
    Statistic.convert_to_param_salary
      (filter (fun d => str_in (U "a") (Vacancy.name d) = true)
         [Vacancy.Build_t (U "a") (Salary.Build_t 100 200 (U "RUR") 150)
            (U "m") (U "2007-01") (U "2007")]) = Ok selected
    /\ forall s, s ∈ selected ->
         1 <= YearSalary.count_vacancies s
         /\ exists g, g ∈ [one_record "2007"]
                   /\ YearSalary.param g = YearSalary.param s
                   /\ YearSalary.count_vacancies s <= YearSalary.count_vacancies g.
Proof.
  exact (profession_groups_within_all (U "a")
           [Vacancy.Build_t (U "a") (Salary.Build_t 100 200 (U "RUR") 150)
              (U "m") (U "2007-01") (U "2007")]
           [one_record "2007"] eq_refl).
Defined.

(** ** Files without records, headers without columns, salaries that do not parse *)

Lemma filter_none {A} (P : A -> Prop) `{!forall x, Decision (P x)} (l : list A) :
  Forall (fun x => ~ P x) l -> filter P l = [].
Proof.
  induction 1 as [|x l Hx _ IH]; [reflexivity |].
  rewrite filter_cons_False by exact Hx. exact IH.
Qed.

(** X4.  A file none of whose rows passes the guard gives no record and
    four empty mappings, without error; a file without even a header row
    raises [IndexError]. *)
Theorem process_data_without_records `{Builtins} (profession : str)
    (headlines : list str) (vacancies : list (list str)) :
  Forall (fun row => DataSet.well_filled headlines row = false) vacancies ->
  DataSet.csv_reader (headlines :: vacancies) = Ok []
  /\ Statistic.process_data profession (headlines :: vacancies) = Ok ([], [], [], [])
  /\ Statistic.process_data profession [] = Raise IndexError.
Proof.
  intros Hnone.
  assert (Hcsv : DataSet.csv_reader (headlines :: vacancies) = Ok []).
  { simpl. rewrite process_vacancies_filter, filter_none; [reflexivity |].
    eapply Forall_impl; [exact Hnone |]. intros row Hrow. simpl in Hrow.
    rewrite Hrow. discriminate. }
  split; [exact Hcsv |]. split; [| reflexivity].
  unfold Statistic.process_data. rewrite Hcsv. reflexivity.
Qed.

Lemma process_data_without_records_witness :
  DataSet.csv_reader (header6 :: [[U "only"; U "two"]; []]) = Ok []
  /\ Statistic.process_data (U "x") (header6 :: [[U "only"; U "two"]; []])
     = Ok ([], [], [], [])
  /\ Statistic.process_data (U "x") [] = Raise IndexError.
Proof.
  apply (process_data_without_records (U "x") header6 [[U "only"; U "two"]; []]).
  repeat constructor.
Defined.

Lemma row_dict_keys (headlines values : list str) (col : str) :
  col ∉ headlines -> dict_get col (dict_of (combine headlines values)) = None.
Proof.
  intros Hcol. apply dict_get_None. rewrite dict_of_keys. intros Hin.
  apply first_appearance_elem, fst_combine_elem in Hin. contradiction.
Qed.

Lemma to_vacancy_missing_column `{Builtins} (headlines row : list str) (col : str) :
  col ∈ first_columns -> col ∉ headlines ->
  DataSet.to_vacancy headlines row = Raise KeyError.
Proof.
  intros Hcol Hout. unfold DataSet.to_vacancy, Vacancy.init, dict_item.
  pose proof (row_dict_keys headlines (map clean_field row) col Hout) as Hnone.
  unfold first_columns in Hcol. simpl in Hcol.
  repeat (apply elem_of_cons in Hcol as [->|Hcol]);
    [| | | | apply elem_of_nil in Hcol; contradiction].
  all: repeat match goal with
         | |- context [dict_get ?k ?d] =>
             lazymatch goal with
             | H : dict_get k d = None |- _ => rewrite H
             | _ => destruct (dict_get k d) eqn:?
             end; cbn [or_raise bind]
         end; try reflexivity.
Qed.

Lemma mapM_first_raise {A B} (f : A -> result B) (x : A) (l : list A) (e : exn) :
  f x = Raise e -> mapM f (x :: l) = Raise e.
Proof. intros Hx. simpl. rewrite Hx. reflexivity. Qed.

(** X5.  When the header lacks one of the columns [name], [salary_from],
    [salary_to], [salary_currency], no row becomes a record: the file
    raises [KeyError] as soon as one row passes the guard, and yields no
    record otherwise. *)
Theorem missing_column_raises_key_error `{Builtins} (headlines : list str) (col : str)
    (vacancies : list (list str)) :
  col ∈ first_columns -> col ∉ headlines ->
  (forall row, DataSet.to_vacancy headlines row = Raise KeyError)
  /\ DataSet.process_vacancies headlines vacancies
     = if existsb (DataSet.well_filled headlines) vacancies then Raise KeyError else Ok [].
Proof.
  intros Hcol Hout. split; [intros row; eapply to_vacancy_missing_column; eassumption |].
  rewrite process_vacancies_filter.
  induction vacancies as [|row rows IH]; [reflexivity |].
  rewrite filter_cons. simpl existsb.
  destruct (DataSet.well_filled headlines row) eqn:Hrow.
  - rewrite decide_True by reflexivity. simpl orb.
    apply mapM_first_raise. eapply to_vacancy_missing_column; eassumption.
  - rewrite decide_False by discriminate. exact IH.
Qed.

Lemma missing_column_witness :
  (forall row, DataSet.to_vacancy [U "name"; U "published_at"] row = Raise KeyError)
  /\ DataSet.process_vacancies [U "name"; U "published_at"]
       [[U "Programmer"; U "2007-12-03"]]
     = if existsb (DataSet.well_filled [U "name"; U "published_at"])
            [[U "Programmer"; U "2007-12-03"]]
       then Raise KeyError else Ok [].
Proof.
  apply (missing_column_raises_key_error [U "name"; U "published_at"] (U "salary_from")).
  - apply (bool_decide_unpack _). reflexivity.
  - apply (bool_decide_unpack _). reflexivity.
Defined.

(** A row under the six-column header: each field goes, cleaned, to the
    attribute of its column. *)
Lemma to_vacancy_header6 `{Builtins} (n lo hi cur area pub : str) :
  DataSet.to_vacancy header6 [n; lo; hi; cur; area; pub]
  = let* salary := Salary.init (PStr (clean_field lo)) (PStr (clean_field hi))
                     (clean_field cur) in
    Ok (Vacancy.Build_t (clean_field n) salary (clean_field area) (clean_field pub)
          (take 4 (clean_field pub))).
Proof. reflexivity. Qed.

Lemma salary_init_unparsable `{Builtins} (lo hi : str) (code : str) :
  float_of_str lo = None \/ float_of_str hi = None ->
  Salary.init (PStr lo) (PStr hi) code = Raise ValueError.
Proof.
  intros Hbad. unfold Salary.init, py_float.
  destruct (float_of_str lo) as [x|] eqn:Hlo; [| reflexivity].
  destruct Hbad as [Hbad|Hbad]; [discriminate |]. rewrite Hbad. reflexivity.
Qed.

(** X6.  Under the six-column header a row that passes the guard and whose
    lower or upper bound does not parse as a number is not dropped: the
    whole file raises [ValueError], the rows before it having made their
    records. *)
Theorem unparsable_salary_aborts `{Builtins} (profession : str)
    (before after : list (list str)) (n lo hi cur area pub : str) :
  Forall (fun r => DataSet.well_filled header6 r = true ->
                   is_ok (DataSet.to_vacancy header6 r) = true) before ->
  DataSet.well_filled header6 [n; lo; hi; cur; area; pub] = true ->
  float_of_str (clean_field lo) = None \/ float_of_str (clean_field hi) = None ->
  DataSet.process_vacancies header6 (before ++ [n; lo; hi; cur; area; pub] :: after)
  = Raise ValueError
  /\ Statistic.process_data profession
       (header6 :: before ++ [n; lo; hi; cur; area; pub] :: after)
     = Raise ValueError.
Proof.
  intros Hbefore Hrow Hbad.
  assert (Hp : DataSet.process_vacancies header6
                 (before ++ [n; lo; hi; cur; area; pub] :: after) = Raise ValueError).
  { rewrite process_vacancies_filter, filter_app, filter_cons.
    rewrite decide_True by exact Hrow. rewrite mapM_app.
    destruct (mapM_ok (DataSet.to_vacancy header6)
                (filter (fun v => DataSet.well_filled header6 v = true) before))
      as [made Hmade].
    { apply Forall_forall. intros r Hr. apply list_elem_of_filter in Hr as [Hwf Hr].
      rewrite Forall_forall in Hbefore. apply (Hbefore r Hr Hwf). }
    rewrite Hmade. cbn [bind]. rewrite (mapM_first_raise _ _ _ ValueError); [reflexivity |].
    rewrite to_vacancy_header6, (salary_init_unparsable _ _ _ Hbad). reflexivity. }
  split; [exact Hp |].
  unfold Statistic.process_data, DataSet.csv_reader. rewrite Hp. reflexivity.
Qed.

Lemma unparsable_salary_witness :
  DataSet.process_vacancies header6
    ([] ++ [U "a"; U "ten"; U "200"; U "RUR"; U "m"; U "2007-01"] :: [])
  = Raise ValueError
  /\ Statistic.process_data (U "a")
       (header6 :: [] ++ [U "a"; U "ten"; U "200"; U "RUR"; U "m"; U "2007-01"] :: [])
     = Raise ValueError.
Proof.
  apply (unparsable_salary_aborts (U "a") [] []
           (U "a") (U "ten") (U "200") (U "RUR") (U "m") (U "2007-01")).
  - constructor.
  - reflexivity.
  - left. reflexivity.
Defined.

(** ** Merging any number of files *)

Lemma first_appearance_app {A} `{EqDecision A} (l1 l2 : list A) :
  first_appearance (l1 ++ l2)
  = first_appearance l1 ++ filter (fun x => x ∉ l1) (first_appearance l2).
Proof.
  induction l1 as [|x l1 IH]; simpl.
  - rewrite filter_all by (intros y; apply not_elem_of_nil). reflexivity.
  - f_equal. rewrite IH, filter_app. f_equal.
    rewrite list_filter_filter. apply list_filter_iff.
    intros y. rewrite not_elem_of_cons. tauto.
Qed.

Lemma dict_update_keys {K V} `{EqDecision K} (d other : dict K V) :
  dict_keys (dict_update d other)
  = dict_keys d ++ filter (fun k => k ∉ dict_keys d) (first_appearance (dict_keys other)).
Proof. apply dict_keys_set_all. Qed.

Lemma dict_update_all_keys {K V} `{EqDecision K} (ds : list (dict K V)) (acc : dict K V) :
  dict_keys (fold_left dict_update ds acc)
  = dict_keys acc
    ++ filter (fun k => k ∉ dict_keys acc) (first_appearance (concat (map dict_keys ds))).
Proof.
  revert acc. induction ds as [|d ds IH]; intros acc; simpl.
  - rewrite app_nil_r. reflexivity.
  - rewrite IH, dict_update_keys, first_appearance_app, filter_app, <- app_assoc.
    do 2 f_equal. rewrite list_filter_filter. apply list_filter_iff.
    intros k. rewrite not_elem_of_app, list_elem_of_filter, first_appearance_elem. tauto.
Qed.

Lemma dict_update_all_get_none {K V} `{EqDecision K} (ds : list (dict K V))
    (acc : dict K V) (k : K) :
  Forall (fun d => dict_get k d = None) ds ->
  dict_get k (fold_left dict_update ds acc) = dict_get k acc.
Proof.
  intros Hnone. revert acc. induction Hnone as [|d ds Hd _ IH]; intros acc; simpl.
  - reflexivity.
  - rewrite IH. unfold dict_update. apply dict_get_set_all_other.
    apply dict_get_None, Hd.
Qed.

Lemma dict_update_all_get_last {K V} `{EqDecision K} (l1 l2 : list (dict K V))
    (d acc : dict K V) (k : K) (v : V) :
  dict_wf d -> dict_get k d = Some v ->
  Forall (fun d' => dict_get k d' = None) l2 ->
  dict_get k (fold_left dict_update (l1 ++ d :: l2) acc) = Some v.
Proof.
  intros Hwf Hget Hnone. rewrite fold_left_app. simpl.
  rewrite (dict_update_all_get_none _ _ _ Hnone).
  rewrite (dict_get_update _ _ _ Hwf), Hget. reflexivity.
Qed.

Lemma merge_nth (i : nat) (r : list Statistic.stats) (acc : Statistic.stats) :
  nth_map i (fold_left update_all r acc)
  = fold_left dict_update (map (nth_map i) r) (nth_map i acc).
Proof.
  revert acc. induction r as [|el r IH]; intros acc; simpl; [reflexivity |].
  rewrite IH. f_equal.
  destruct acc as [[[a1 a2] a3] a4], el as [[[e1 e2] e3] e4].
  destruct i as [|[|[|i]]]; reflexivity.
Qed.

(** X7.  For any number of files, and for each of the four mappings: the
    merged years are those of the files in the order of their first
    appearance over the files in submission order; a year holds the value of
    the last file that has it, and a year no file has is absent. *)
Theorem merge_many_files (i : nat) (r : list Statistic.stats) :
  dict_keys (nth_map i (merge r))
  = first_appearance (concat (map (fun el => dict_keys (nth_map i el)) r))
  /\ (forall k before el after v,
        r = before ++ el :: after ->
        dict_wf (nth_map i el) ->
        dict_get k (nth_map i el) = Some v ->
        Forall (fun el' => dict_get k (nth_map i el') = None) after ->
        dict_get k (nth_map i (merge r)) = Some v)
  /\ (forall k, Forall (fun el => dict_get k (nth_map i el) = None) r ->
                dict_get k (nth_map i (merge r)) = None).
Proof.
  unfold merge. rewrite merge_nth.
  replace (nth_map i ([], [], [], [])) with ([] : dict Z Z)
    by (destruct i as [|[|[|i]]]; reflexivity).
  split; [| split].
  - rewrite dict_update_all_keys. simpl. rewrite map_map.
    apply filter_all. intros k. apply not_elem_of_nil.
  - intros k before el after v -> Hwf Hget Hnone.
    rewrite map_app. simpl. apply dict_update_all_get_last; try assumption.
    apply Forall_fmap. exact Hnone.
  - intros k Hnone. rewrite dict_update_all_get_none; [reflexivity |].
    apply Forall_fmap. exact Hnone.
Qed.

Lemma merge_many_files_witness :
  dict_get 2005
    (nth_map 0 (merge [ ([(2005, 1)], [], [], []); ([(2005, 2); (2006, 3)], [], [], []);
                        ([(2006, 4)], [], [], []) ])) = Some 2.
Proof.
  apply (proj1 (proj2 (merge_many_files 0
           [ ([(2005, 1)], [], [], []); ([(2005, 2); (2006, 3)], [], [], []);
             ([(2006, 4)], [], [], []) ]))
         2005 [([(2005, 1)], [], [], [])] ([(2005, 2); (2006, 3)], [], [], [])
         [([(2006, 4)], [], [], [])] 2).
  - reflexivity.
  - apply (bool_decide_unpack _). reflexivity.
  - reflexivity.
  - repeat constructor.
Defined.

Lemma update_all_aligned (acc el : Statistic.stats) :
  aligned acc -> aligned el -> aligned (update_all acc el).
Proof.
  destruct acc as [[[a1 a2] a3] a4], el as [[[e1 e2] e3] e4].
  simpl. intros (H2 & H3 & H4) (E2 & E3 & E4).
  rewrite !dict_update_keys, H2, H3, H4, E2, E3, E4. auto.
Qed.

(** X8.  Merging keeps the four mappings aligned: when each file gives four
    mappings over the same years in the same order, so does the merge, for
    any number of files. *)
Theorem merge_keeps_alignment (r : list Statistic.stats) :
  Forall aligned r -> aligned (merge r).
Proof.
  intros Hall. unfold merge.
  assert (H0 : aligned ([], [], [], [])) by (repeat split).
  revert H0. generalize (([], [], [], []) : Statistic.stats).
  induction Hall as [|el r Hel _ IH]; intros acc Hacc; simpl; [exact Hacc |].
  apply IH, update_all_aligned; assumption.
Qed.

Lemma merge_keeps_alignment_witness :
  aligned (merge [ ([(2005, 150)], [(2005, 1)], [(2005, 0)], [(2005, 0)]);
                   ([(2006, 90)], [(2006, 2)], [(2006, 90)], [(2006, 2)]) ]).
Proof.
  apply merge_keeps_alignment. repeat constructor.
Defined.

(** ** The corpus *)

Lemma mapM_raise {A B} (f : A -> result B) (l : list A) (e : exn) :
  mapM f l = Raise e
  <-> exists before x after,
        l = before ++ x :: after
        /\ Forall (fun y => is_ok (f y) = true) before
        /\ f x = Raise e.
Proof.
  split.
  - induction l as [|y l IH]; simpl; [discriminate |].
    destruct (f y) as [b|e'] eqn:Hy; simpl.
    + destruct (mapM f l) as [bs|e''] eqn:Hl; simpl; [discriminate |].
      intros [= ->]. destruct (IH eq_refl) as (before & x & after & -> & Hok & Hx).
      exists (y :: before), x, after. split; [reflexivity |].
      split; [| exact Hx]. constructor; [rewrite Hy; reflexivity | exact Hok].
    + intros [= ->]. exists [], y, l. auto.
  - intros (before & x & after & -> & Hok & Hx). rewrite mapM_app.
    destruct (mapM_ok f before Hok) as [made ->]. simpl. rewrite Hx. reflexivity.
Qed.

Lemma mapM_Forall2 {A B} (f : A -> result B) (l : list A) (r : list B) :
  mapM f l = Ok r <-> Forall2 (fun x y => f x = Ok y) l r.
Proof.
  revert r. induction l as [|x l IH]; simpl; intros r.
  - split; [intros [= <-]; constructor | intros Hr; inversion Hr; reflexivity].
  - split.
    + intros Hr. apply bind_ok in Hr as (y & Hy & Hr).
      apply bind_ok in Hr as (ys & Hys & [= <-]). constructor; [exact Hy | apply IH, Hys].
    + intros Hr. inversion Hr as [|? y ? ys Hy Hys]; subst.
      rewrite Hy. simpl. apply IH in Hys. rewrite Hys. reflexivity.
Qed.

(** X9.  One failing file aborts the corpus: the corpus raises the
    exception of the first file, in the order of submission, that raises;
    when no file raises, the corpus gives the merge of the results of the
    files in that order, and an empty corpus gives four empty mappings. *)
Theorem process_corpus_outcome `{Builtins} (profession : str)
    (files : list (list (list str))) :
  (forall e, process_corpus profession files = Raise e
     <-> exists before file after,
           files = before ++ file :: after
           /\ Forall (fun f => is_ok (Statistic.process_data profession f) = true) before
           /\ Statistic.process_data profession file = Raise e)
  /\ (forall s, process_corpus profession files = Ok s
     <-> exists r, Forall2 (fun f x => Statistic.process_data profession f = Ok x) files r
                /\ s = merge r)
  /\ process_corpus profession [] = Ok ([], [], [], []).
Proof.
  unfold process_corpus. split; [| split; [| reflexivity]].
  - intros e. rewrite <- mapM_raise.
    destruct (mapM _ files); simpl; split; congruence.
  - intros s. split.
    + intros Hs. apply bind_ok in Hs as (r & Hr & [= <-]).
      exists r. split; [apply mapM_Forall2, Hr | reflexivity].
    + intros (r & Hr & ->). apply mapM_Forall2 in Hr. rewrite Hr. reflexivity.
Qed.

Lemma process_corpus_witness :
  process_corpus (U "Programmer") [lines_contiguous; lines_with_gap; []]
  = Raise IndexError.
Proof.
  apply (proj1 (process_corpus_outcome (U "Programmer")
                  [lines_contiguous; lines_with_gap; []]) IndexError).
  exists [lines_contiguous], lines_with_gap, [[]].
  split; [reflexivity |]. split; [| reflexivity].
  repeat constructor.
Defined.

(** ** A file of a single year *)

Lemma foldM_add_vacancy_raise (vacancies : list Vacancy.t) (d : dict str YearSalary.t)
    (e : exn) :
  foldM Statistic.add_vacancy vacancies d = Raise e -> e = KeyError.
Proof.
  revert d. induction vacancies as [|v vs IH]; simpl; intros d; [discriminate |].
  destruct (known_currency v) eqn:Hv.
  - destruct (add_vacancy_known d v Hv) as (rub & _ & ->). simpl. apply IH.
  - rewrite (add_vacancy_unknown d v Hv). simpl. congruence.
Qed.

Lemma convert_to_param_salary_raise (vacancies : list Vacancy.t) (e : exn) :
  Statistic.convert_to_param_salary vacancies = Raise e -> e = KeyError.
Proof.
  unfold Statistic.convert_to_param_salary.
  destruct (foldM _ _ _) as [d|e'] eqn:Hfold; simpl; [discriminate |].
  intros [= <-]. eapply foldM_add_vacancy_raise, Hfold.
Qed.

Lemma mean_salary_raise (v : YearSalary.t) (e : exn) :
  Statistic.mean_salary v = Raise e -> e <> IndexError /\ e <> KeyError.
Proof.
  unfold Statistic.mean_salary, float_div_int, float_of_int, finite_or_overflow, int_of_float.
  destruct (_ =? 0); [discriminate |].
  destruct (binary_normalize _ _ _ _ _); simpl; try (intros [= <-]; split; discriminate).
  all: destruct (Prim2SF _); simpl; intros [= <-]; split; discriminate.
Qed.

Lemma first_appearance_constant {A} `{EqDecision A} (l : list A) (y : A) :
  l <> [] -> Forall (fun x => x = y) l -> first_appearance l = [y].
Proof.
  intros Hne Hall. destruct Hall as [|x l -> Hall]; [contradiction |]. clear Hne.
  simpl. f_equal. apply filter_none.
  apply Forall_forall. intros z Hz. apply (proj1 (first_appearance_elem _ _)) in Hz.
  rewrite Forall_forall in Hall. rewrite (Hall z Hz). tauto.
Qed.

Lemma convert_to_dict_single `{Builtins} (g : YearSalary.t) (n : Z) :
  py_int (YearSalary.param g) = Ok n ->
  Statistic.convert_from_param_salary_to_dict [g]
  = let* m := Statistic.mean_salary g in
    Ok ([(n, m)], [(n, YearSalary.count_vacancies g)]).
Proof.
  intros Hn. unfold Statistic.convert_from_param_salary_to_dict. simpl.
  rewrite Hn. simpl. destruct (Statistic.mean_salary g); reflexivity.
Qed.

(** Gap filling against a single reference year. *)
Lemma add_missing_years_single `{Builtins} (selected : list YearSalary.t)
    (g : YearSalary.t) (n : Z) :
  py_int (YearSalary.param g) = Ok n ->
  map YearSalary.param selected = [] \/ map YearSalary.param selected = [YearSalary.param g] ->
  Statistic.add_missing_years selected [g]
  = Ok (match selected with [] => [zero_year (YearSalary.param g)] | _ => selected end).
Proof.
  intros Hn [Hs|Hs]; unfold Statistic.add_missing_years; rewrite Hs; simpl;
    unfold Statistic.add_missing_year.
  - apply map_eq_nil in Hs. subst selected.
    rewrite bool_decide_eq_false_2 by apply not_elem_of_nil.
    unfold Statistic.insert_blank_year, Statistic.year_offset. simpl.
    rewrite Hn, blank_year_ok. simpl. rewrite Z.sub_diag. reflexivity.
  - rewrite bool_decide_eq_true_2 by left. simpl.
    destruct selected; [discriminate | reflexivity].
Qed.

(** X10.  On a file whose records all bear the same year, gap filling
    cannot fail: [process_data] never raises [IndexError], and when it
    returns, each of the four mappings has that year as its only key, the
    profession having salary 0 and count 0 when none of the records is of
    the profession. *)
Theorem single_year_file `{Builtins} (profession : str) (lines : list (list str))
    (data : list Vacancy.t) (y : str) (n : Z) :
  DataSet.csv_reader lines = Ok data ->
  data <> [] ->
  Forall (fun v => Vacancy.year v = y) data ->
  py_int y = Ok n ->
  raises IndexError (Statistic.process_data profession lines) = false
  /\ forall a b c d,
       Statistic.process_data profession lines = Ok (a, b, c, d) ->
       dict_keys a = [n] /\ dict_keys b = [n] /\ dict_keys c = [n] /\ dict_keys d = [n]
       /\ (filter (fun v => str_in profession (Vacancy.name v) = true) data = [] ->
           c = [(n, 0)] /\ d = [(n, 0)]).
Proof.
  intros Hcsv Hne Hyear Hn. unfold Statistic.process_data. rewrite Hcsv. cbn [bind].
  set (chosen := filter (fun v => str_in profession (Vacancy.name v) = true) data).
  destruct (Statistic.convert_to_param_salary data) as [groups|e] eqn:Hg; cbn [bind].
  2: { apply convert_to_param_salary_raise in Hg. subst e.
       split; [reflexivity | discriminate]. }
  pose proof (convert_to_param_salary_params _ _ Hg) as Hparams.
  rewrite (first_appearance_constant _ y) in Hparams
    by (try (intros Hnil; apply map_eq_nil in Hnil; contradiction);
        apply Forall_fmap; exact Hyear).
  destruct groups as [|g [|g' groups]]; try discriminate.
  simpl in Hparams. injection Hparams as Hgy.
  destruct (convert_to_param_salary_total chosen) as [selected Hs].
  { apply Forall_forall. intros v Hv. apply list_elem_of_filter in Hv as [_ Hv].
    pose proof (convert_to_param_salary_known _ _ Hg) as Hall.
    rewrite Forall_forall in Hall. apply Hall, Hv. }
  rewrite Hs. cbn [bind].
  pose proof (convert_to_param_salary_params _ _ Hs) as Hsel.
  assert (Hsel' : map YearSalary.param selected = []
                  \/ map YearSalary.param selected = [YearSalary.param g]).
  { destruct chosen as [|v chosen'] eqn:Hch; [left; exact Hsel | right].
    rewrite Hsel, Hgy. apply first_appearance_constant; [discriminate |].
    apply Forall_fmap. apply Forall_forall. intros w Hw.
    assert (Hin : w ∈ chosen) by (rewrite Hch; exact Hw).
    apply list_elem_of_filter in Hin as [_ Hin].
    rewrite Forall_forall in Hyear. apply (Hyear w Hin). }
  rewrite <- Hgy in Hn.
  rewrite (add_missing_years_single selected g n Hn Hsel'). cbn [bind].
  rewrite (convert_to_dict_single g n Hn).
  destruct (Statistic.mean_salary g) as [m|e] eqn:Hm; cbn [bind].
  2: { apply mean_salary_raise in Hm as [Hm _].
       split; [destruct e; try reflexivity; contradiction | discriminate]. }
  assert (Hfilled : exists f,
            match selected with [] => [zero_year (YearSalary.param g)] | _ => selected end
            = [f] /\ YearSalary.param f = YearSalary.param g
            /\ (chosen = [] -> f = zero_year (YearSalary.param g))).
  { destruct selected as [|s [|s' selected]].
    - eexists. split; [reflexivity |]. split; [reflexivity | reflexivity].
    - exists s. split; [reflexivity |]. destruct Hsel' as [Hsel'|Hsel']; [discriminate |].
      injection Hsel' as Hsy. split; [exact Hsy |]. intros Hch.
      rewrite Hch in Hs. discriminate.
    - destruct Hsel' as [Hsel'|Hsel']; discriminate. }
  destruct Hfilled as (f & -> & Hfy & Hzero).
  rewrite <- Hfy in Hn. rewrite (convert_to_dict_single f n Hn).
  destruct (Statistic.mean_salary f) as [mf|e] eqn:Hmf; cbn [bind].
  2: { apply mean_salary_raise in Hmf as [Hmf _].
       split; [destruct e; try reflexivity; contradiction | discriminate]. }
  split; [reflexivity |]. intros a b c d [= <- <- <- <-].
  do 4 (split; [reflexivity |]). intros Hch. rewrite (Hzero Hch) in Hmf |- *.
  unfold Statistic.mean_salary in Hmf. simpl in Hmf. injection Hmf as <-.
  split; reflexivity.
Qed.

Lemma single_year_file_witness :
  raises IndexError
    (Statistic.process_data (U "Tester")
       [header6; row6 "Programmer" "100" "200" "RUR" "2007-12-03"]) = false
  /\ forall a b c d,
       Statistic.process_data (U "Tester")
         [header6; row6 "Programmer" "100" "200" "RUR" "2007-12-03"] = Ok (a, b, c, d) ->
       dict_keys a = [2007] /\ dict_keys b = [2007] /\ dict_keys c = [2007]
       /\ dict_keys d = [2007]
       /\ (filter (fun v => str_in (U "Tester") (Vacancy.name v) = true)
             [Vacancy.Build_t (U "Programmer") (Salary.Build_t 100 200 (U "RUR") 150)
                (U "Moscow") (U "2007-12-03") (U "2007")] = [] ->
           c = [(2007, 0)] /\ d = [(2007, 0)]).
Proof.
  apply (single_year_file (U "Tester")
           [header6; row6 "Programmer" "100" "200" "RUR" "2007-12-03"]
           [Vacancy.Build_t (U "Programmer") (Salary.Build_t 100 200 (U "RUR") 150)
              (U "Moscow") (U "2007-12-03") (U "2007")] (U "2007") 2007).
  - reflexivity.
  - discriminate.
  - repeat constructor.
  - reflexivity.
Defined.

(** ** The table of the report *)

Lemma values_of_wf (d : dict Z Z) :
  dict_wf d -> CreateStatisticFiles.values_of d = Ok (dict_values d).
Proof.
  intros Hwf. unfold CreateStatisticFiles.values_of, dict_keys, dict_values.
  enough (Hgen : forall l : list (Z * Z), Forall (fun kv => kv ∈ d) l ->
            mapM (fun i => dict_item i d) (map fst l) = Ok (map snd l)).
  { apply Hgen. apply Forall_forall. auto. }
  induction 1 as [|[k v] l Hkv _ IH]; simpl; [reflexivity |].
  unfold dict_item at 1. rewrite (dict_get_elem d k v Hwf Hkv). simpl.
  rewrite IH. reflexivity.
Qed.

Lemma lookup_fst_snd {A B} (l : list (A * B)) (i : nat) (x : A) (y : B) :
  l !! i = Some (x, y) -> map fst l !! i = Some x /\ map snd l !! i = Some y.
Proof. intros Hl. rewrite !list_lookup_fmap, Hl. auto. Qed.

(** X11.  The table handed to the spreadsheet has the header and one row
    per year of the overall mapping; row [i] pairs the [i]-th entries of the
    four mappings, in the column order year, salary, salary of the
    profession, count, count of the profession.  When the four mappings are
    aligned, every row therefore shows the four values of its own year. *)
Theorem report_table_rows (profession : str) (a b c d : dict Z Z) :
  Forall dict_wf [a; b; c; d] ->
  length b = length a -> length c = length a -> length d = length a ->
  exists rows,
    CreateStatisticFiles.report_table profession (a, b, c, d)
    = Ok (Report.header profession :: rows)
    /\ length rows = length a
    /\ (forall i y va yb vb yc vc yd vd,
          a !! i = Some (y, va) -> b !! i = Some (yb, vb) ->
          c !! i = Some (yc, vc) -> d !! i = Some (yd, vd) ->
          rows !! i
          = Some [Report.CInt y; Report.CInt va; Report.CInt vc; Report.CInt vb;
                  Report.CInt vd])
    /\ (aligned (a, b, c, d) ->
        forall i y, dict_keys a !! i = Some y ->
          exists va vb vc vd,
            dict_get y a = Some va /\ dict_get y b = Some vb
            /\ dict_get y c = Some vc /\ dict_get y d = Some vd
            /\ rows !! i
               = Some [Report.CInt y; Report.CInt va; Report.CInt vc; Report.CInt vb;
                       Report.CInt vd]).
Proof.
  intros Hwf Hb Hc Hd.
  apply Forall_cons in Hwf as [Ha Hwf]. apply Forall_cons in Hwf as [Hwb Hwf].
  apply Forall_cons in Hwf as [Hwc Hwf]. apply Forall_cons in Hwf as [Hwd _].
  unfold CreateStatisticFiles.report_table.
  rewrite !values_of_wf by assumption. cbn [bind]. unfold Report.table.
  set (body := fun i : nat =>
         let* y := Report.item (dict_keys a) i in
         let* va := Report.item (dict_values a) i in
         let* vc := Report.item (dict_values c) i in
         let* vb := Report.item (dict_values b) i in
         let* vd := Report.item (dict_values d) i in
         Ok [Report.CInt y; Report.CInt va; Report.CInt vc; Report.CInt vb; Report.CInt vd]).
  assert (Hbody : forall i y va yb vb yc vc yd vd,
            a !! i = Some (y, va) -> b !! i = Some (yb, vb) ->
            c !! i = Some (yc, vc) -> d !! i = Some (yd, vd) ->
            body i = Ok [Report.CInt y; Report.CInt va; Report.CInt vc; Report.CInt vb;
                         Report.CInt vd]).
  { intros i y va yb vb yc vc yd vd Hia Hib Hic Hid.
    unfold body, Report.item, dict_keys, dict_values.
    destruct (lookup_fst_snd _ _ _ _ Hia) as [-> ->].
    destruct (lookup_fst_snd _ _ _ _ Hib) as [_ ->].
    destruct (lookup_fst_snd _ _ _ _ Hic) as [_ ->].
    destruct (lookup_fst_snd _ _ _ _ Hid) as [_ ->]. reflexivity. }
  assert (Hentry : forall (m : dict Z Z) i, length m = length a -> (i < length a)%nat ->
            exists k v, m !! i = Some (k, v)).
  { intros m i Hm Hi. destruct (lookup_lt_is_Some_2 m i) as [[k v] Hkv]; [lia | eauto]. }
  destruct (mapM_ok body (seq 0 (length (dict_keys a)))) as [rows Hrows].
  { apply Forall_forall. intros i Hi. apply elem_of_seq in Hi as [_ Hi].
    unfold dict_keys in Hi. rewrite length_map in Hi. simpl in Hi.
    destruct (Hentry a i eq_refl Hi) as (y & va & Hia).
    destruct (Hentry b i Hb Hi) as (yb & vb & Hib).
    destruct (Hentry c i Hc Hi) as (yc & vc & Hic).
    destruct (Hentry d i Hd Hi) as (yd & vd & Hid).
    rewrite (Hbody _ _ _ _ _ _ _ _ _ Hia Hib Hic Hid). reflexivity. }
  fold body. rewrite Hrows. cbn [bind]. exists rows.
  split; [reflexivity |].
  pose proof (mapM_length _ _ _ Hrows) as Hlen.
  rewrite length_seq in Hlen. unfold dict_keys in Hlen. rewrite length_map in Hlen.
  split; [exact Hlen |].
  assert (Hrow : forall i y va yb vb yc vc yd vd,
            a !! i = Some (y, va) -> b !! i = Some (yb, vb) ->
            c !! i = Some (yc, vc) -> d !! i = Some (yd, vd) ->
            rows !! i
            = Some [Report.CInt y; Report.CInt va; Report.CInt vc; Report.CInt vb;
                    Report.CInt vd]).
  { intros i y va yb vb yc vc yd vd Hia Hib Hic Hid.
    assert (Hi : (i < length a)%nat) by (eapply lookup_lt_Some, Hia).
    destruct (mapM_lookup _ _ _ i i Hrows) as (row & Hrow & Hri).
    { apply lookup_seq. unfold dict_keys. rewrite length_map. split; [reflexivity | lia]. }
    rewrite (Hbody _ _ _ _ _ _ _ _ _ Hia Hib Hic Hid) in Hrow. congruence. }
  split; [exact Hrow |].
  intros (Kb & Kc & Kd) i y Hy.
  assert (Hi : (i < length a)%nat).
  { apply lookup_lt_Some in Hy. unfold dict_keys in Hy. rewrite length_map in Hy. exact Hy. }
  destruct (Hentry a i eq_refl Hi) as (y' & va & Hia).
  destruct (Hentry b i Hb Hi) as (yb & vb & Hib).
  destruct (Hentry c i Hc Hi) as (yc & vc & Hic).
  destruct (Hentry d i Hd Hi) as (yd & vd & Hid).
  assert (Hkey : forall (m : dict Z Z) k v, dict_keys m = dict_keys a ->
            m !! i = Some (k, v) -> k = y).
  { intros m k v Hm Hkv. apply lookup_fst_snd in Hkv as [Hk _].
    fold (dict_keys m) in Hk. rewrite Hm, Hy in Hk. congruence. }
  pose proof (Hkey a y' va eq_refl Hia) as ->.
  pose proof (Hkey b yb vb Kb Hib) as ->.
  pose proof (Hkey c yc vc Kc Hic) as ->.
  pose proof (Hkey d yd vd Kd Hid) as ->.
  exists va, vb, vc, vd.
  repeat split; try (apply dict_get_elem; [assumption | eapply list_elem_of_lookup_2; eassumption]).
  apply (Hrow i y va y vb y vc y vd); assumption.
Qed.

Lemma report_table_rows_witness :
  exists rows,
    CreateStatisticFiles.report_table (U "Programmer")
      ([(2005, 150); (2006, 350)], [(2005, 1); (2006, 1)],
       [(2005, 150); (2006, 0)], [(2005, 1); (2006, 0)])
    = Ok (Report.header (U "Programmer") :: rows)
    /\ rows = [ [Report.CInt 2005; Report.CInt 150; Report.CInt 150; Report.CInt 1;
                 Report.CInt 1];
                [Report.CInt 2006; Report.CInt 350; Report.CInt 0; Report.CInt 1;
                 Report.CInt 0] ].
Proof.
  destruct (report_table_rows (U "Programmer")
              [(2005, 150); (2006, 350)] [(2005, 1); (2006, 1)]
              [(2005, 150); (2006, 0)] [(2005, 1); (2006, 0)])
    as (rows & Htable & _); try reflexivity.
  - repeat (apply Forall_cons; split; [apply (bool_decide_unpack _); reflexivity |]).
    apply Forall_nil. exact I.
  - exists rows. split; [exact Htable |]. injection Htable as <-. reflexivity.
Defined.

(** The rows of a file whose years are met in descending order: the
    profession columns of the row of 2007 are those of 2005. *)
Example report_table_misaligned :
  (let* s := Statistic.process_data (U "Programmer") lines_descending in
   CreateStatisticFiles.report_table (U "Programmer") s)
  = Ok [ Report.header (U "Programmer");
         [Report.CInt 2007; Report.CInt 150; Report.CInt 0; Report.CInt 1; Report.CInt 1];
         [Report.CInt 2006; Report.CInt 150; Report.CInt 0; Report.CInt 1; Report.CInt 0];
         [Report.CInt 2005; Report.CInt 350; Report.CInt 150; Report.CInt 1; Report.CInt 1] ].
Proof. reflexivity. Qed.

(** ** The test on the file names *)

Lemma split_on_no_sep (sep : char) (s : str) :
  sep ∉ s -> Report.split_on sep s = [s].
Proof.
  induction s as [|c r IH]; simpl; intros Hs; [reflexivity |].
  apply not_elem_of_cons in Hs as [Hc Hs].
  destruct (c =? sep)%N eqn:Heq; [apply N.eqb_eq in Heq; congruence |].
  rewrite (IH Hs). reflexivity.
Qed.

Lemma split_on_nonempty (sep : char) (s : str) : Report.split_on sep s <> [].
Proof.
  induction s as [|c r IH]; simpl; [discriminate |].
  destruct (c =? sep)%N; [discriminate |].
  destruct (Report.split_on sep r); discriminate.
Qed.

Lemma split_on_app (sep : char) (a r : str) :
  sep ∉ a -> Report.split_on sep (a ++ sep :: r) = a :: Report.split_on sep r.
Proof.
  induction a as [|c a IH]; simpl; intros Ha.
  - rewrite N.eqb_refl. reflexivity.
  - apply not_elem_of_cons in Ha as [Hc Ha].
    destruct (c =? sep)%N eqn:Heq; [apply N.eqb_eq in Heq; congruence |].
    rewrite (IH Ha). reflexivity.
Qed.

Lemma first_sep (sep : char) (s : str) :
  sep ∉ s \/ exists a r, s = a ++ sep :: r /\ sep ∉ a.
Proof.
  induction s as [|c s IH]; [left; apply not_elem_of_nil |].
  destruct (decide (c = sep)) as [->|Hne].
  - right. exists [], s. split; [reflexivity | apply not_elem_of_nil].
  - destruct IH as [Hs|(a & r & -> & Ha)].
    + left. apply not_elem_of_cons. auto.
    + right. exists (c :: a), r. split; [reflexivity |]. apply not_elem_of_cons. auto.
Qed.

Lemma first_sep_unique (sep : char) (a b r r' : str) :
  sep ∉ a -> sep ∉ b -> a ++ sep :: r = b ++ sep :: r' -> a = b /\ r = r'.
Proof.
  revert b. induction a as [|c a IH]; intros [|c' b] Ha Hb Heq; simpl in Heq.
  - injection Heq as <-. auto.
  - injection Heq as <- _. exfalso. apply Hb. left.
  - injection Heq as -> _. exfalso. apply Ha. left.
  - injection Heq as <- Heq.
    apply not_elem_of_cons in Ha as [_ Ha]. apply not_elem_of_cons in Hb as [_ Hb].
    destruct (IH b Ha Hb Heq) as [-> ->]. auto.
Qed.

(** The first component of a string, as [split] cuts it. *)
Lemma split_on_head (sep : char) (s w : str) :
  head (Report.split_on sep s) = Some w
  <-> (sep ∉ w) /\ (s = w \/ exists r, s = w ++ sep :: r).
Proof.
  destruct (first_sep sep s) as [Hs|(a & r & -> & Ha)].
  - rewrite (split_on_no_sep _ _ Hs). simpl. split.
    + intros [= <-]. auto.
    + intros [Hw [->|(r & ->)]]; [reflexivity |].
      exfalso. apply Hs. apply elem_of_app. right. left.
  - rewrite (split_on_app _ _ _ Ha). simpl. split.
    + intros [= <-]. split; [exact Ha |]. right. eauto.
    + intros [Hw [<-|(r' & Heq)]].
      * exfalso. apply Hw. apply elem_of_app. right. left.
      * destruct (first_sep_unique _ _ _ _ _ Ha Hw Heq) as [-> _]. reflexivity.
Qed.

(** X12.  The test on a file name reads the second component of the base
    name between dots and nothing else: a base name without a dot raises
    [IndexError], not [TypeError]; a name is accepted exactly when the
    extension follows the first dot and is followed by the end of the name
    or by another dot, so [report.xlsx.bak] passes and [report.v2.xlsx]
    does not. *)
Theorem check_extension_second_component (ext basename : str) :
  46%N ∉ ext ->
  (Report.check_extension ext basename = Report.RaisesIndexError <-> 46%N ∉ basename)
  /\ (Report.check_extension ext basename = Report.Accepted
      <-> exists stem rest,
            basename = stem ++ 46%N :: ext ++ rest
            /\ (46%N ∉ stem)
            /\ (rest = [] \/ exists r, rest = 46%N :: r)).
Proof.
  intros Hext. unfold Report.check_extension.
  destruct (first_sep 46%N basename) as [Hb|(a & r & -> & Ha)].
  - rewrite (split_on_no_sep _ _ Hb). simpl. split; [tauto |].
    split; [discriminate |]. intros (stem & rest & -> & _).
    exfalso. apply Hb. apply elem_of_app. right. left.
  - rewrite (split_on_app _ _ _ Ha). simpl.
    change (Report.split_on 46%N r !! 0%nat) with (head (Report.split_on 46%N r)) ||
      rewrite <- head_lookup.
    destruct (head (Report.split_on 46%N r)) as [w|] eqn:Hw.
    2: { pose proof (split_on_nonempty 46%N r). destruct (Report.split_on 46%N r);
           [contradiction | discriminate]. }
    split.
    { split; [destruct (str_eqb w ext); discriminate |].
      intros Hno. exfalso. apply Hno. apply elem_of_app. right. left. }
    apply split_on_head in Hw as [Hwdot Hr].
    unfold str_eqb. destruct (bool_decide (w = ext)) eqn:Heq.
    + apply bool_decide_eq_true in Heq. subst w. split; [intros _ | reflexivity].
      destruct Hr as [->|(r' & ->)].
      * exists a, []. rewrite app_nil_r. auto.
      * exists a, (46%N :: r'). split; [reflexivity |]. split; [exact Ha |]. right. eauto.
    + apply bool_decide_eq_false in Heq. split; [discriminate |].
      intros (stem & rest & Hsplit & Hstem & Hrest). exfalso. apply Heq.
      destruct (first_sep_unique _ _ _ _ _ Ha Hstem Hsplit) as [_ ->].
      destruct Hr as [Hr|(r' & Hr)]; destruct Hrest as [->|(r2 & ->)].
      * rewrite app_nil_r in Hr. auto.
      * exfalso. apply Hwdot. rewrite <- Hr. apply elem_of_app. right. left.
      * rewrite app_nil_r in Hr. exfalso. apply Hext. rewrite Hr.
        apply elem_of_app. right. left.
      * symmetry in Hr. destruct (first_sep_unique _ _ _ _ _ Hwdot Hext Hr). auto.
Qed.

Lemma check_extension_witness :
  Report.check_extension (U "xlsx") (U "report.xlsx") = Report.Accepted
  /\ Report.check_extension (U "xlsx") (U "report.xlsx.bak") = Report.Accepted
  /\ Report.check_extension (U "xlsx") (U "report.v2.xlsx") = Report.RaisesTypeError
  /\ Report.check_extension (U "png") (U "graph") = Report.RaisesIndexError.
Proof.
  split; [| repeat split].
  apply (proj2 (proj2 (check_extension_second_component (U "xlsx") (U "report.xlsx")
                         ltac:(apply (bool_decide_unpack _); reflexivity)))).
  exists (U "report"), []. split; [reflexivity |]. split; [| left; reflexivity].
  apply (bool_decide_unpack _). reflexivity.
Defined.

(** ** Splitting a file by year *)

Lemma no_repeat_snoc {A} (l : list A) (a b : A) :
  no_repeat (l ++ [a]) -> a <> b -> no_repeat (l ++ [a; b]).
Proof.
  induction l as [|x l IH]; simpl; intros Hl Hab; [auto |].
  destruct l as [|y l]; simpl in *.
  - destruct Hl as [Hxa _]. auto.
  - destruct Hl as [Hxy Hl]. split; [exact Hxy | apply IH; assumption].
Qed.

Lemma split_step (headlines : list str) (st st' : SplitCsvFileByYear.state)
    (runs : list run) (cur : list (list str)) (vacancy : list str) :
  split_state headlines st runs cur ->
  SplitCsvFileByYear.step headlines st vacancy = Ok st' ->
  exists runs' cur',
    split_state headlines st' runs' cur'
    /\ concat (map snd runs') ++ cur'
       = (concat (map snd runs) ++ cur) ++ kept_rows headlines [vacancy].
Proof.
  intros (Hw & Hc & Hruns & Hcur & Hrep & Hempty) Hstep.
  unfold SplitCsvFileByYear.step in Hstep. unfold kept_rows. rewrite filter_cons.
  destruct (DataSet.well_filled headlines vacancy) eqn:Hwf.
  2: { injection Hstep as <-. rewrite decide_False by discriminate.
       exists runs, cur. simpl. rewrite app_nil_r.
       split; [| reflexivity].
       exact (conj Hw (conj Hc (conj Hruns (conj Hcur (conj Hrep Hempty))))). }
  rewrite decide_True by reflexivity. simpl.
  set (row := map clean_field vacancy) in *.
  apply bind_ok in Hstep as (y & Hy & [= <-]).
  unfold str_eqb. destruct (decide (y = SplitCsvFileByYear.cur_year st)) as [->|Hne].
  - rewrite bool_decide_eq_true_2 by reflexivity. cbn [negb].
    exists runs, (cur ++ [row]). split; [| rewrite !app_assoc; reflexivity].
    unfold split_state. cbn [SplitCsvFileByYear.written SplitCsvFileByYear.cur_year
                               SplitCsvFileByYear.vacancies_cur_year].
    split; [exact Hw |]. split; [rewrite Hc, map_app; reflexivity |].
    split; [exact Hruns |].
    split; [apply Forall_app; split; [exact Hcur | repeat constructor; exact Hy] |].
    split; [exact Hrep |]. intros Hnil. destruct cur; discriminate.
  - rewrite bool_decide_eq_false_2 by exact Hne. cbn [negb].
    rewrite Hc, length_map. destruct cur as [|row0 cur0] eqn:Hcur0.
    + destruct (Hempty eq_refl) as [-> H0].
      cbn [length Nat.eqb negb SplitCsvFileByYear.written SplitCsvFileByYear.cur_year
           SplitCsvFileByYear.vacancies_cur_year].
      exists [], [row]. split; [| reflexivity].
      unfold split_state. cbn [SplitCsvFileByYear.written SplitCsvFileByYear.cur_year
                                 SplitCsvFileByYear.vacancies_cur_year].
      split; [exact Hw |]. split; [rewrite ?Hc; reflexivity |].
      split; [constructor |]. split; [repeat constructor; exact Hy |].
      split; [exact I | discriminate].
    + cbn [length Nat.eqb negb SplitCsvFileByYear.written SplitCsvFileByYear.cur_year
           SplitCsvFileByYear.vacancies_cur_year].
      exists (runs ++ [(SplitCsvFileByYear.cur_year st, row0 :: cur0)]), [row].
      split.
      * unfold split_state. cbn [SplitCsvFileByYear.written SplitCsvFileByYear.cur_year
                                   SplitCsvFileByYear.vacancies_cur_year].
        split; [rewrite ?Hw, ?Hc, ?map_app; reflexivity |]. split; [rewrite ?Hc; reflexivity |].
        split; [apply Forall_app; split; [exact Hruns |];
                constructor; [split; [discriminate | exact Hcur] | constructor] |].
        split; [repeat constructor; exact Hy |].
        split; [| discriminate].
        rewrite map_app, <- app_assoc. simpl. apply no_repeat_snoc; [exact Hrep | auto].
      * rewrite map_app, concat_app. simpl. rewrite app_nil_r, <- !app_assoc. reflexivity.
Qed.

Lemma kept_rows_cons (headlines : list str) (vacancy : list str) (vacancies : list (list str)) :
  kept_rows headlines (vacancy :: vacancies)
  = kept_rows headlines [vacancy] ++ kept_rows headlines vacancies.
Proof. unfold kept_rows. rewrite <- map_app, <- filter_app. reflexivity. Qed.

Lemma split_loop (headlines : list str) (vacancies : list (list str))
    (st st' : SplitCsvFileByYear.state) (runs : list run) (cur : list (list str)) :
  split_state headlines st runs cur ->
  foldM (SplitCsvFileByYear.step headlines) vacancies st = Ok st' ->
  exists runs' cur',
    split_state headlines st' runs' cur'
    /\ concat (map snd runs') ++ cur'
       = (concat (map snd runs) ++ cur) ++ kept_rows headlines vacancies.
Proof.
  revert st runs cur. induction vacancies as [|v vs IH]; simpl; intros st runs cur Hst Hfold.
  - injection Hfold as <-. exists runs, cur. unfold kept_rows. simpl.
    rewrite app_nil_r. auto.
  - apply bind_ok in Hfold as (st1 & Hstep & Hfold).
    destruct (split_step _ _ _ _ _ _ Hst Hstep) as (runs1 & cur1 & Hst1 & Hc1).
    destruct (IH _ _ _ Hst1 Hfold) as (runs2 & cur2 & Hst2 & Hc2).
    exists runs2, cur2. split; [exact Hst2 |].
    rewrite Hc2, Hc1, (kept_rows_cons headlines v vs), <- !app_assoc. reflexivity.
Qed.

(** X13.  The calls of the writer cut the cleaned rows that pass the guard
    into runs, in order, without losing or repeating a row: every row of a
    call bears the year of the call, two calls in a row bear different
    years, and no call is empty, except the only call, of the year "0",
    made when no row passes the guard. *)
Theorem csv_process_runs (headlines : list str) (vacancies : list (list str))
    (calls : list SplitCsvFileByYear.chunk) :
  SplitCsvFileByYear.csv_process headlines vacancies = Ok calls ->
  exists runs : list run,
    calls = map (call_of headlines) runs
    /\ concat (map snd runs) = kept_rows headlines vacancies
    /\ Forall (fun r : run =>
                 Forall (fun row => SplitCsvFileByYear.year_of row = Ok (fst r)) (snd r))
              runs
    /\ no_repeat (map fst runs)
    /\ (kept_rows headlines vacancies = [] -> runs = [(U "0", [])])
    /\ (kept_rows headlines vacancies <> [] -> Forall (fun r : run => snd r <> []) runs).
Proof.
  unfold SplitCsvFileByYear.csv_process. intros Hcalls.
  apply bind_ok in Hcalls as (st & Hfold & [= <-]).
  destruct (split_loop headlines vacancies
              (SplitCsvFileByYear.Build_state (U "0") [] []) st [] [])
    as (runs & cur & Hst & Hcat); [| exact Hfold |].
  { unfold split_state. simpl. repeat split; constructor. }
  destruct Hst as (Hw & Hc & Hruns & Hcur & Hrep & Hempty). simpl in Hcat.
  exists (runs ++ [(SplitCsvFileByYear.cur_year st, cur)]).
  split; [rewrite map_app, Hw; simpl; unfold call_of at 2; simpl; rewrite Hc; reflexivity |].
  split; [rewrite map_app, concat_app; simpl; rewrite app_nil_r; exact Hcat |].
  split.
  { apply Forall_app. split; [| repeat constructor; exact Hcur].
    eapply Forall_impl; [exact Hruns |]. intros r [_ Hr]. exact Hr. }
  split; [rewrite map_app; exact Hrep |]. split.
  - intros Hnone. rewrite Hnone in Hcat.
    apply app_eq_nil in Hcat as [_ ->]. destruct (Hempty eq_refl) as [-> ->]. reflexivity.
  - intros Hsome. apply Forall_app. split.
    + eapply Forall_impl; [exact Hruns |]. intros r [Hr _]. exact Hr.
    + repeat constructor. simpl. intros ->. destruct (Hempty eq_refl) as [-> _].
      simpl in Hcat. congruence.
Qed.

Lemma csv_process_runs_witness :
  exists runs : list run,
    [(U "2007", [row_dict [U "name"; U "published_at"] [U "a"; U "2007-01"]]);
     (U "2008", [row_dict [U "name"; U "published_at"] [U "b"; U "2008-01"]])]
    = map (call_of [U "name"; U "published_at"]) runs
    /\ concat (map snd runs)
       = kept_rows [U "name"; U "published_at"]
           [[U "a"; U "2007-01"]; [U "short"]; [U "b"; U "2008-01"]]
    /\ Forall (fun r : run =>
                 Forall (fun row => SplitCsvFileByYear.year_of row = Ok (fst r)) (snd r))
              runs
    /\ no_repeat (map fst runs)
    /\ (kept_rows [U "name"; U "published_at"]
          [[U "a"; U "2007-01"]; [U "short"]; [U "b"; U "2008-01"]] = [] ->
        runs = [(U "0", [])])
    /\ (kept_rows [U "name"; U "published_at"]
          [[U "a"; U "2007-01"]; [U "short"]; [U "b"; U "2008-01"]] <> [] ->
        Forall (fun r : run => snd r <> []) runs).
Proof.
  exact (csv_process_runs [U "name"; U "published_at"]
           [[U "a"; U "2007-01"]; [U "short"]; [U "b"; U "2008-01"]] _ eq_refl).
Defined.






Lemma path_inj (dir_name root y1 y2 : str) :
  SplitCsvFileByYear.path dir_name root y1 = SplitCsvFileByYear.path dir_name root y2 ->
  y1 = y2.
Proof.
  unfold SplitCsvFileByYear.path. intros Heq.
  do 4 apply app_inv_head in Heq. apply app_inv_tail in Heq. exact Heq.
Qed.

Lemma first_appearance_inj {A B} `{EqDecision A} `{EqDecision B} (f : A -> B) (l : list A) :
  (forall x y, f x = f y -> x = y) ->
  first_appearance (map f l) = map f (first_appearance l).
Proof.
  intros Hinj. induction l as [|x l IH]; simpl; [reflexivity |]. f_equal.
  rewrite IH. generalize (first_appearance l). intros m.
  induction m as [|z m IHm]; [reflexivity |]. simpl map.
  rewrite !filter_cons. destruct (decide (z <> x)) as [Hz|Hz].
  - rewrite decide_True by (intros Heq; apply Hz, Hinj, Heq). simpl. f_equal. exact IHm.
  - apply dec_stable in Hz. subst z. rewrite decide_False by tauto. exact IHm.
Qed.

Lemma files_as_dict (dir_name root : str) (calls : list SplitCsvFileByYear.chunk) :
  SplitCsvFileByYear.files dir_name root calls
  = dict_of (map (fun c => (SplitCsvFileByYear.path dir_name root (fst c), snd c)) calls).
Proof.
  unfold SplitCsvFileByYear.files, dict_of. generalize ([] : dict str (list (dict str str))).
  induction calls as [|c calls IH]; intros fs; simpl; [reflexivity |]. apply IH.
Qed.

(** X14.  The file of a year holds the rows of the last call made for that
    year, each call replacing the file: all the rows written reach the
    files only when no year has two calls, that is when the rows of a year
    come in one run.  The files are those of the years, in the order of
    their first call. *)
Theorem files_hold_last_call (dir_name root : str) (calls : list SplitCsvFileByYear.chunk) :
  (forall before y rows after,
      calls = before ++ (y, rows) :: after ->
      y ∉ map fst after ->
      dict_get (SplitCsvFileByYear.path dir_name root y)
        (SplitCsvFileByYear.files dir_name root calls) = Some rows)
  /\ (NoDup (map fst calls) ->
      forall y rows, (y, rows) ∈ calls ->
        dict_get (SplitCsvFileByYear.path dir_name root y)
          (SplitCsvFileByYear.files dir_name root calls) = Some rows)
  /\ dict_keys (SplitCsvFileByYear.files dir_name root calls)
     = map (SplitCsvFileByYear.path dir_name root) (first_appearance (map fst calls)).
Proof.
  assert (Hlast : forall before y rows after,
      calls = before ++ (y, rows) :: after ->
      y ∉ map fst after ->
      dict_get (SplitCsvFileByYear.path dir_name root y)
        (SplitCsvFileByYear.files dir_name root calls) = Some rows).
  { intros before y rows after -> Hy. rewrite files_as_dict, map_app. simpl.
    apply dict_get_set_all_last. rewrite map_map. simpl. intros Hin.
    apply list_elem_of_fmap in Hin as ([y' rows'] & Heq & Hin). simpl in Heq.
    apply path_inj in Heq. subst y'. apply Hy.
    apply list_elem_of_fmap. exists (y, rows'). auto. }
  split; [exact Hlast |]. split.
  - intros Hnd y rows Hin. apply list_elem_of_split in Hin as (before & after & ->).
    apply (Hlast before y rows after eq_refl).
    rewrite map_app in Hnd. apply NoDup_app in Hnd as (_ & _ & Hnd).
    simpl in Hnd. apply NoDup_cons in Hnd as [Hy _]. exact Hy.
  - rewrite files_as_dict, dict_of_keys, map_map. simpl.
    rewrite <- (map_map fst (SplitCsvFileByYear.path dir_name root)).
    apply first_appearance_inj. intros y1 y2. apply path_inj.
Qed.

Lemma files_hold_last_call_witness :
  dict_get (SplitCsvFileByYear.path (U " vacancies_by_year") (U "vacancies") (U "2007"))
    (SplitCsvFileByYear.files (U " vacancies_by_year") (U "vacancies")
       [(U "2007", [[(U "name", U "a")]]); (U "2008", [[(U "name", U "b")]]);
        (U "2007", [[(U "name", U "c")]])])
  = Some [[(U "name", U "c")]].
Proof.
  apply (proj1 (files_hold_last_call (U " vacancies_by_year") (U "vacancies")
                  [(U "2007", [[(U "name", U "a")]]); (U "2008", [[(U "name", U "b")]]);
                   (U "2007", [[(U "name", U "c")]])])
           [(U "2007", [[(U "name", U "a")]]); (U "2008", [[(U "name", U "b")]])]
           (U "2007") [[(U "name", U "c")]] []).
  - reflexivity.
  - apply not_elem_of_nil.
Defined.

(** Rows of 2007, 2008 and 2007 again: the file of 2007 keeps the last row
    only. *)
Example split_unsorted_loses_rows :
  (let* calls := SplitCsvFileByYear.csv_process [U "name"; U "published_at"]
                   [[U "a"; U "2007-01"]; [U "b"; U "2008-01"]; [U "c"; U "2007-02"]] in
   Ok (SplitCsvFileByYear.files (U "d") (U "f") calls))
  = Ok [ (U "d/f_2007.csv", [[(U "name", U "c"); (U "published_at", U "2007-02")]]);
         (U "d/f_2008.csv", [[(U "name", U "b"); (U "published_at", U "2008-01")]]) ].
Proof. reflexivity. Qed.

(** ** The widths of the columns *)

Lemma widen_rows (rows : list (list Worksheet.sheet_cell)) (dims : dict Z Z) :
  fold_left (fun dims row => fold_left Worksheet.widen row dims) rows dims
  = fold_left Worksheet.widen (concat rows) dims.
Proof.
  revert dims. induction rows as [|row rows IH]; intros dims; simpl; [reflexivity |].
  rewrite fold_left_app. apply IH.
Qed.

Lemma widen_get (col : Z) (dims : dict Z Z) (cell : Worksheet.sheet_cell) :
  dict_get col (Worksheet.widen dims cell)
  = if decide (col = fst cell)
    then Some (match snd cell with
               | Some _ => Z.max (match dict_get col dims with Some w => w | None => 0 end)
                                 (Worksheet.text_length (snd cell))
               | None => 4
               end)
    else dict_get col dims.
Proof.
  unfold Worksheet.widen. destruct cell as [c [v|]]; simpl; rewrite dict_get_set;
    destruct (decide (col = c)) as [->|_]; reflexivity.
Qed.

Lemma widen_column (col : Z) (cells : list Worksheet.sheet_cell) (dims : dict Z Z) :
  Forall (fun c : Worksheet.sheet_cell => fst c = col -> snd c <> None) cells ->
  dict_get col (fold_left Worksheet.widen cells dims)
  = match Worksheet.column_lengths col cells with
    | [] => dict_get col dims
    | ls => Some (fold_left Z.max ls (match dict_get col dims with Some w => w | None => 0 end))
    end.
Proof.
  unfold Worksheet.column_lengths. intros Hall. revert dims.
  induction Hall as [|[c v] cells Hc _ IH]; intros dims; simpl; [reflexivity |].
  rewrite IH, widen_get, filter_cons. simpl.
  destruct (decide (col = c)) as [->|Hne].
  - rewrite decide_True by reflexivity. simpl.
    destruct v as [v|]; [| exfalso; apply (Hc eq_refl); reflexivity].
    match goal with
    | |- context [match ?l with [] => _ | _ :: _ => _ end] => destruct l
    end; reflexivity.
  - rewrite decide_False by congruence. reflexivity.
Qed.

Lemma fold_max_ge (ls : list Z) (a x : Z) :
  x ∈ ls -> x <= fold_left Z.max ls a.
Proof.
  assert (Hmono : forall l b, b <= fold_left Z.max l b).
  { induction l as [|y l IH]; intros b; simpl; [lia |]. specialize (IH (Z.max b y)). lia. }
  revert a. induction ls as [|y ls IH]; intros a Hx; [apply elem_of_nil in Hx; contradiction |].
  simpl. apply elem_of_cons in Hx as [->|Hx]; [| apply IH, Hx].
  specialize (Hmono ls (Z.max a y)). lia.
Qed.

Lemma widths_get (col : Z) (dims : dict Z Z) :
  dict_get col (map (fun item : Z * Z => (fst item, snd item + 2)) dims)
  = option_map (fun w => w + 2) (dict_get col dims).
Proof.
  induction dims as [|[k w] dims IH]; simpl; [reflexivity |].
  destruct (decide (col = k)); [reflexivity | exact IH].
Qed.

(** X16.  A column none of whose cells is empty gets the width of its
    longest text plus 2, so every cell of the column fits; an empty cell
    sets the column back to the four characters of ["None"], and a column
    whose last cell is empty gets the width 6 whatever the cells above. *)
Theorem column_width_fits (rows : list (list Worksheet.sheet_cell)) (col : Z) :
  (Forall (fun c : Worksheet.sheet_cell => fst c = col -> snd c <> None) (concat rows) ->
   Worksheet.column_lengths col (concat rows) <> [] ->
   dict_get col (Worksheet.make_max_column_width rows)
   = Some (fold_left Z.max (Worksheet.column_lengths col (concat rows)) 0 + 2)
   /\ forall c, c ∈ concat rows -> fst c = col ->
        Worksheet.text_length (snd c) + 2
        <= fold_left Z.max (Worksheet.column_lengths col (concat rows)) 0 + 2)
  /\ (forall above below,
        concat rows = above ++ (col, None) :: below ->
        Forall (fun c : Worksheet.sheet_cell => fst c <> col) below ->
        dict_get col (Worksheet.make_max_column_width rows) = Some 6).
Proof.
  unfold Worksheet.make_max_column_width. rewrite widths_get, widen_rows. split.
  - intros Hfull Hsome. rewrite (widen_column col _ [] Hfull). simpl.
    destruct (Worksheet.column_lengths col (concat rows)) as [|l ls] eqn:Hls;
      [contradiction |]. split; [reflexivity |].
    intros c Hc Hcol. apply Z.add_le_mono_r. apply fold_max_ge.
    rewrite <- Hls. unfold Worksheet.column_lengths.
    apply list_elem_of_fmap. exists c. split; [reflexivity |].
    apply list_elem_of_filter. auto.
  - intros above below -> Hbelow. rewrite fold_left_app. simpl.
    rewrite widen_column.
    + unfold Worksheet.column_lengths. rewrite filter_none.
      * simpl. rewrite widen_get. simpl. rewrite decide_True by reflexivity. reflexivity.
      * eapply Forall_impl; [exact Hbelow |]. intros c Hc. exact Hc.
    + eapply Forall_impl; [exact Hbelow |]. intros c Hc Heq. contradiction.
Qed.

Lemma column_width_fits_witness :
  dict_get 1
    (Worksheet.make_max_column_width
       [ [(1, Some (Report.CStr Report.title_year)); (2, Some (Report.CStr Report.title_count))];
         [(1, Some (Report.CInt 2007)); (2, Some (Report.CInt 12))] ])
  = Some 6
  /\ forall c,
       c ∈ concat
             [ [(1, Some (Report.CStr Report.title_year));
                (2, Some (Report.CStr Report.title_count))];
               [(1, Some (Report.CInt 2007)); (2, Some (Report.CInt 12))] ] ->
       fst c = 1 ->
       Worksheet.text_length (snd c) + 2 <= 6.
Proof.
  apply (proj1 (column_width_fits
           [ [(1, Some (Report.CStr Report.title_year));
              (2, Some (Report.CStr Report.title_count))];
             [(1, Some (Report.CInt 2007)); (2, Some (Report.CInt 12))] ] 1)).
  - repeat constructor; discriminate.
  - discriminate.
Defined.

(** ** What gap filling keeps, whatever the years *)

Lemma add_missing_year_grows `{Builtins} (years s_years : list str)
    (param_salary filled : list YearSalary.t) (y : str) :
  Statistic.add_missing_year years s_years param_salary y = Ok filled ->
  (y ∈ s_years -> filled = param_salary)
  /\ (y ∉ s_years ->
      length filled = S (length param_salary) /\ y ∈ map YearSalary.param filled).
Proof.
  unfold Statistic.add_missing_year. intros Hstep.
  destruct (decide (y ∈ s_years)) as [Hin|Hout].
  - rewrite bool_decide_eq_true_2 in Hstep by exact Hin. injection Hstep as <-.
    split; [reflexivity | contradiction].
  - rewrite bool_decide_eq_false_2 in Hstep by exact Hout.
    split; [contradiction |]. intros _.
    apply bind_ok in Hstep as (l1 & Hins & Hstep).
    apply bind_ok in Hstep as (i' & _ & Hstep).
    unfold Statistic.insert_blank_year in Hins.
    apply bind_ok in Hins as (i & _ & Hins). rewrite blank_year_ok in Hins.
    simpl in Hins. injection Hins as <-.
    unfold Statistic.zero_count_at in Hstep.
    destruct (py_index _ i') as [p|]; [| discriminate]. injection Hstep as <-.
    split.
    + rewrite length_alter. apply py_insert_length.
    + rewrite alter_count_params. apply list_elem_of_fmap.
      exists (inserted y). split; [reflexivity |].
      apply list_elem_of_lookup. eexists. apply py_insert_lookup.
Qed.

Lemma add_missing_years_loop `{Builtins} (years s_years later : list str)
    (param_salary filled : list YearSalary.t) :
  foldM (Statistic.add_missing_year years s_years) later param_salary = Ok filled ->
  (forall y, y ∈ s_years -> y ∈ map YearSalary.param param_salary) ->
  sublist (map YearSalary.param param_salary) (map YearSalary.param filled)
  /\ (forall y, y ∈ later -> y ∈ map YearSalary.param filled)
  /\ length filled
     = (length param_salary + length (filter (fun y => y ∉ s_years) later))%nat.
Proof.
  revert param_salary. induction later as [|y later IH]; simpl; intros ps Hfold Hs.
  - injection Hfold as <-. split; [reflexivity |]. split; [| lia].
    intros y Hy. apply elem_of_nil in Hy. contradiction.
  - apply bind_ok in Hfold as (l1 & Hstep & Hfold).
    pose proof (add_missing_year_sublist _ _ _ _ _ Hstep) as Hsub1.
    destruct (add_missing_year_grows _ _ _ _ _ Hstep) as [Hkeep Hgrow].
    destruct (IH l1 Hfold) as (Hsub & Hall & Hlen).
    { intros z Hz. eapply elem_of_sublist; [apply Hs, Hz | exact Hsub1]. }
    split; [etransitivity; eassumption |]. split.
    + intros z Hz. apply elem_of_cons in Hz as [->|Hz]; [| apply Hall, Hz].
      eapply elem_of_sublist; [| exact Hsub].
      destruct (decide (y ∈ s_years)) as [Hin|Hout].
      * rewrite (Hkeep Hin). apply Hs, Hin.
      * apply (Hgrow Hout).
    + rewrite Hlen, filter_cons. destruct (decide (y ∉ s_years)) as [Hout|Hin].
      * destruct (Hgrow Hout) as [-> _]. simpl. lia.
      * apply dec_stable in Hin. rewrite (Hkeep Hin). lia.
Qed.

(** X19.  Whenever gap filling returns, whatever the order of the years:
    every year of the reference is among the entries, the years of the
    accumulators given are all there in their order, and the entries added
    are as many as the reference years the selection lacks. *)
Theorem add_missing_years_covers `{Builtins} (selected year_salary filled : list YearSalary.t) :
  Statistic.add_missing_years selected year_salary = Ok filled ->
  (forall y, y ∈ map YearSalary.param year_salary -> y ∈ map YearSalary.param filled)
  /\ sublist (map YearSalary.param selected) (map YearSalary.param filled)
  /\ length filled
     = (length selected
        + length (filter (fun y => y ∉ map YearSalary.param selected)
                    (map YearSalary.param year_salary)))%nat.
Proof.
  unfold Statistic.add_missing_years. intros Hfold.
  destruct (add_missing_years_loop _ _ _ _ _ Hfold) as (Hsub & Hall & Hlen); auto.
Qed.

Lemma add_missing_years_covers_witness :
  (forall y, y ∈ map YearSalary.param [one_record "2007"; one_record "2006"; one_record "2005"] ->
             y ∈ map YearSalary.param
                   [inserted (U "2005"); YearSalary.Build_t (U "2007") 150 0;
                    one_record "2006"])
  /\ sublist (map YearSalary.param [one_record "2007"; one_record "2006"])
       (map YearSalary.param
          [inserted (U "2005"); YearSalary.Build_t (U "2007") 150 0; one_record "2006"])
  /\ length [inserted (U "2005"); YearSalary.Build_t (U "2007") 150 0; one_record "2006"]
     = (length [one_record "2007"; one_record "2006"]
        + length (filter (fun y => y ∉ map YearSalary.param
                                         [one_record "2007"; one_record "2006"])
                    (map YearSalary.param
                       [one_record "2007"; one_record "2006"; one_record "2005"])))%nat.
Proof.
  exact (add_missing_years_covers [one_record "2007"; one_record "2006"]
           [one_record "2007"; one_record "2006"; one_record "2005"] _ eq_refl).
Defined.

(** ** The division guards *)

Lemma bind_not_raise {A B} (e : exn) (m : result A) (k : A -> result B) :
  m <> Raise e -> (forall a, k a <> Raise e) -> bind m k <> Raise e.
Proof.
  intros Hm Hk. destruct m as [a|e']; [exact (Hk a) |].
  simpl. intros Heq. apply Hm. injection Heq as ->. reflexivity.
Qed.

Lemma foldM_not_raise {A S} (e : exn) (body : S -> A -> result S) (l : list A) (s : S) :
  (forall s a, body s a <> Raise e) -> foldM body l s <> Raise e.
Proof.
  intros Hbody. revert s. induction l as [|a l IH]; simpl; intros s; [discriminate |].
  apply bind_not_raise; auto.
Qed.

Lemma mapM_not_raise {A B} (e : exn) (f : A -> result B) (l : list A) :
  (forall a, f a <> Raise e) -> mapM f l <> Raise e.
Proof.
  intros Hf. induction l as [|a l IH]; simpl; [discriminate |].
  apply bind_not_raise; [apply Hf |]. intros b.
  apply bind_not_raise; [exact IH | discriminate].
Qed.

Lemma or_raise_not_raise {A} (e e' : exn) (o : option A) :
  e <> e' -> or_raise e o <> Raise e'.
Proof. destruct o; simpl; congruence. Qed.

Lemma finite_or_overflow_no_zero_division (x : spec_float) :
  finite_or_overflow x <> Raise ZeroDivisionError.
Proof. destruct x; discriminate. Qed.

Lemma int_of_float_no_zero_division (x : float) :
  int_of_float x <> Raise ZeroDivisionError.
Proof. unfold int_of_float. destruct (Prim2SF x); discriminate. Qed.

Lemma salary_init_no_zero_division `{Builtins} (lo hi code : str) :
  Salary.init (PStr lo) (PStr hi) code <> Raise ZeroDivisionError.
Proof.
  unfold Salary.init, py_float.
  apply bind_not_raise; [apply or_raise_not_raise; discriminate |]. intros a.
  apply bind_not_raise; [apply or_raise_not_raise; discriminate |]. intros b.
  apply bind_not_raise; [apply int_of_float_no_zero_division |]. intros n.
  apply bind_not_raise; [| discriminate].
  unfold int_truediv. change (2 =? 0) with false. cbv iota.
  apply finite_or_overflow_no_zero_division.
Qed.

Lemma convert_to_rubles_no_zero_division (s : Salary.t) :
  Salary.convert_to_rubles s <> Raise ZeroDivisionError.
Proof.
  unfold Salary.convert_to_rubles, dict_item.
  apply bind_not_raise; [apply or_raise_not_raise; discriminate | discriminate].
Qed.

Lemma csv_reader_no_zero_division `{Builtins} (lines : list (list str)) :
  DataSet.csv_reader lines <> Raise ZeroDivisionError.
Proof.
  destruct lines as [|headlines vacancies]; simpl; [discriminate |].
  unfold DataSet.process_vacancies. apply foldM_not_raise. intros acc row.
  destruct (DataSet.well_filled headlines row); [| discriminate].
  apply bind_not_raise; [| discriminate].
  unfold DataSet.to_vacancy, Vacancy.init, dict_item.
  repeat (apply bind_not_raise;
          [first [apply or_raise_not_raise; discriminate
                 | apply salary_init_no_zero_division] | intros ?]).
  discriminate.
Qed.

Lemma convert_to_param_salary_no_zero_division (vacancies : list Vacancy.t) :
  Statistic.convert_to_param_salary vacancies <> Raise ZeroDivisionError.
Proof.
  unfold Statistic.convert_to_param_salary.
  apply bind_not_raise; [| discriminate].
  apply foldM_not_raise. intros d v. unfold Statistic.add_vacancy.
  destruct (dict_get _ d); (apply bind_not_raise; [| discriminate]);
    unfold YearSalary.init, YearSalary.add_salary;
    (apply bind_not_raise; [apply convert_to_rubles_no_zero_division | discriminate]).
Qed.

Lemma year_offset_no_zero_division `{Builtins} (years : list str) (y : str) :
  Statistic.year_offset years y <> Raise ZeroDivisionError.
Proof.
  unfold Statistic.year_offset, py_int.
  repeat (apply bind_not_raise; [apply or_raise_not_raise; discriminate | intros ?]).
  discriminate.
Qed.

Lemma add_missing_years_no_zero_division `{Builtins} (selected year_salary : list YearSalary.t) :
  Statistic.add_missing_years selected year_salary <> Raise ZeroDivisionError.
Proof.
  unfold Statistic.add_missing_years. apply foldM_not_raise. intros ps y.
  unfold Statistic.add_missing_year.
  destruct (bool_decide _); [discriminate |].
  apply bind_not_raise.
  - unfold Statistic.insert_blank_year.
    apply bind_not_raise; [apply year_offset_no_zero_division |]. intros i.
    apply bind_not_raise; [| discriminate].
    unfold Statistic.blank_year.
    apply bind_not_raise; [apply salary_init_no_zero_division |]. intros s.
    unfold YearSalary.init.
    apply bind_not_raise; [apply convert_to_rubles_no_zero_division | discriminate].
  - intros l. apply bind_not_raise; [apply year_offset_no_zero_division |]. intros i.
    unfold Statistic.zero_count_at. destruct (py_index _ i); discriminate.
Qed.

Lemma mean_salary_no_zero_division (v : YearSalary.t) :
  Statistic.mean_salary v <> Raise ZeroDivisionError.
Proof.
  unfold Statistic.mean_salary.
  destruct (YearSalary.count_vacancies v =? 0) eqn:Hcount; [discriminate |].
  apply bind_not_raise; [| apply int_of_float_no_zero_division].
  unfold float_div_int.
  apply bind_not_raise; [apply finite_or_overflow_no_zero_division |]. intros d.
  rewrite Hcount. discriminate.
Qed.

Lemma convert_to_dict_no_zero_division `{Builtins} (groups : list YearSalary.t) :
  Statistic.convert_from_param_salary_to_dict groups <> Raise ZeroDivisionError.
Proof.
  unfold Statistic.convert_from_param_salary_to_dict.
  apply bind_not_raise;
    [apply mapM_not_raise; intros r; apply or_raise_not_raise; discriminate |]. intros ys.
  apply bind_not_raise; [apply mapM_not_raise, mean_salary_no_zero_division |]. intros ms.
  apply bind_not_raise;
    [apply mapM_not_raise; intros r; apply or_raise_not_raise; discriminate |]. intros ys'.
  discriminate.
Qed.

(** X20.  The guards of the divisions hold on every input: whatever the
    profession and the rows of the file, [process_data] does not end in a
    [ZeroDivisionError], entries with a zero count included. *)
Theorem process_data_no_zero_division `{Builtins} (profession : str)
    (lines : list (list str)) :
  Statistic.process_data profession lines <> Raise ZeroDivisionError.
Proof.
  unfold Statistic.process_data.
  apply bind_not_raise; [apply csv_reader_no_zero_division |]. intros data.
  apply bind_not_raise; [apply convert_to_param_salary_no_zero_division |]. intros ys.
  apply bind_not_raise; [apply convert_to_param_salary_no_zero_division |]. intros sel.
  apply bind_not_raise; [apply add_missing_years_no_zero_division |]. intros filled.
  apply bind_not_raise; [apply convert_to_dict_no_zero_division |]. intros [a b].
  apply bind_not_raise; [apply convert_to_dict_no_zero_division |]. intros [c d].
  discriminate.
Qed.
